(** * Smart Economic Decision Engine: chatbot pipeline and crawl orchestration

    A shallow embedding of the Python sources
    [src/chatbot/*.py], [src/crawler/*.py] and [src/integration.py], and
    the properties the specification states about them.

    Conventions of the embedding.
    - A Python [str] is the list of its Unicode code points ([list N]); the
      string tables of the program are written as UTF-8 literals and decoded
      by [py], so they can be compared with the source character by character.
    - A Python [float] is an exact rational ([Q]): every constant of the
      program is a short decimal and no property below depends on rounding.
    - [None] is [None], [Optional[T]] is [option T]; an exception is the
      [Raise] case of [Result].
    - The [re] module is embedded as a backtracking matcher over the pattern
      syntax the program uses; patterns are kept as the source's strings.
    - What the program leaves to its environment is an input of the model:
      the answers of the network ([Network]), the order in which a [set] is
      enumerated and in which a thread pool completes its tasks ([SetOrder]),
      the reading of the clock.  Wall-clock durations and the texts rendered
      for the user are not modelled. *)

From Stdlib Require Import ZArith NArith QArith Qminmax Qround Lqa Lia String Ascii Bool
  Sorted.
From stdpp Require Import base gmap sets list.

Set Default Proof Using "Type".

(* ===================================================================== *)
(** * Python built-ins used by the program *)
(* ===================================================================== *)

Module Py.

Abbreviation str := (list N).

(** UTF-8 decoding of a literal into code points. *)
Fixpoint utf8_decode (bs : list N) : str :=
  match bs with
  | [] => []
  | b0 :: r0 =>
    if (b0 <? 128)%N then b0 :: utf8_decode r0
    else if (b0 <? 224)%N then
      match r0 with
      | b1 :: r1 => ((b0 - 192) * 64 + (b1 - 128))%N :: utf8_decode r1
      | _ => []
      end
    else if (b0 <? 240)%N then
      match r0 with
      | b1 :: b2 :: r2 =>
          ((b0 - 224) * 4096 + (b1 - 128) * 64 + (b2 - 128))%N :: utf8_decode r2
      | _ => []
      end
    else
      match r0 with
      | b1 :: b2 :: b3 :: r3 =>
          ((b0 - 240) * 262144 + (b1 - 128) * 4096 + (b2 - 128) * 64 + (b3 - 128))%N
            :: utf8_decode r3
      | _ => []
      end
  end.

Definition py (s : string) : str :=
  utf8_decode (map N_of_ascii (list_ascii_of_string s)).

(** A one-character literal. *)
Definition ch (a : ascii) : N := N_of_ascii a.

Definition str_eqb (a b : str) : bool := bool_decide (a = b).

(** [len(s)] *)
Definition len (s : str) : nat := length s.

(** Truthiness of a string: [bool(s)]. *)
Definition truthy (s : str) : bool := negb (str_eqb s []).

Fixpoint startswith (p s : str) : bool :=
  match p, s with
  | [], _ => true
  | _ :: _, [] => false
  | a :: p', b :: s' => (a =? b)%N && startswith p' s'
  end.

(** [sub in s] *)
Fixpoint contains (sub s : str) : bool :=
  startswith sub s ||
  match s with
  | [] => false
  | _ :: s' => contains sub s'
  end.

(** [str.isspace] on one code point (also the class [\s] of [re]). *)
Definition is_space (c : N) : bool :=
  ((9 <=? c) && (c <=? 13) || (28 <=? c) && (c <=? 32) || (c =? 133) || (c =? 160)
   || (c =? 5760) || (8192 <=? c) && (c <=? 8202) || (c =? 8232) || (c =? 8233)
   || (c =? 8239) || (c =? 8287) || (c =? 12288))%N.

(** The code points of the digit zero of every decimal script (Unicode
    category Nd); the nine following code points are the digits 1 to 9. *)
Definition decimal_zeros : list N :=
  [48; 1632; 1776; 1984; 2406; 2534; 2662; 2790; 2918; 3046; 3174; 3302; 3430;
   3558; 3664; 3792; 3872; 4160; 4240; 6112; 6160; 6470; 6608; 6784; 6800; 6992;
   7088; 7232; 7248; 42528; 43216; 43264; 43472; 43504; 43600; 44016; 65296;
   66720; 68912; 69734; 69872; 69942; 70096; 70384; 70736; 70864; 71248; 71360;
   71472; 71904; 72016; 72784; 73040; 73120; 92768; 92864; 93008; 120782; 120792;
   120802; 120812; 120822; 123200; 123632; 125264; 130032]%N.

(** The value of a decimal digit, [None] for any other code point. *)
Definition digit_value (c : N) : option N :=
  match List.find (fun z => (z <=? c) && (c <? z + 10))%N decimal_zeros with
  | Some z => Some (c - z)%N
  | None => None
  end.

(** The class [\d] of [re]. *)
Definition is_digit (c : N) : bool :=
  match digit_value c with Some _ => true | None => false end.

(** [str.lower] on one code point: the Latin, Greek and Cyrillic capitals
    and the Kelvin sign; the Arabic script of the program's tables has no
    case.  Scripts outside these blocks are left unchanged. *)
Definition lower_char (c : N) : N :=
  if ((65 <=? c) && (c <=? 90))%N then (c + 32)%N
  else if ((192 <=? c) && (c <=? 222) && negb (c =? 215))%N then (c + 32)%N
  else if ((913 <=? c) && (c <=? 939) && negb (c =? 930))%N then (c + 32)%N
  else if ((1040 <=? c) && (c <=? 1071))%N then (c + 32)%N
  else if ((1024 <=? c) && (c <=? 1039))%N then (c + 80)%N
  else if (c =? 8490)%N then 107%N
  else c.

Definition lower (s : str) : str := map lower_char s.

Fixpoint take_while (f : N -> bool) (s : str) : str :=
  match s with
  | c :: s' => if f c then c :: take_while f s' else []
  | [] => []
  end.

Fixpoint drop_while (f : N -> bool) (s : str) : str :=
  match s with
  | c :: s' => if f c then drop_while f s' else s
  | [] => []
  end.

Definition lstrip (s : str) : str := drop_while is_space s.
Definition rstrip (s : str) : str := reverse (lstrip (reverse s)).

(** [s.strip()] *)
Definition strip (s : str) : str := rstrip (lstrip s).

(** [s.split()]: the maximal runs of non-space characters. *)
Fixpoint split_aux (cur : str) (s : str) : list str :=
  match s with
  | [] => if truthy cur then [reverse cur] else []
  | c :: s' =>
      if is_space c
      then (if truthy cur then [reverse cur] else []) ++ split_aux [] s'
      else split_aux (c :: cur) s'
  end.

Definition split (s : str) : list str := split_aux [] s.

(** [sep.join(parts)] *)
Fixpoint join (sep : str) (parts : list str) : str :=
  match parts with
  | [] => []
  | [p] => p
  | p :: ps => p ++ sep ++ join sep ps
  end.

(** [s.replace(old, new)] for a non-empty [old]: the occurrences are
    replaced from left to right, without overlap. *)
Fixpoint replace_from (fuel : nat) (old new : str) (s : str) : str :=
  match fuel with
  | O => s
  | S fuel' =>
      match s with
      | [] => []
      | c :: s' =>
          if startswith old s
          then new ++ replace_from fuel' old new (drop (length old) s)
          else c :: replace_from fuel' old new s'
      end
  end.

Definition replace (old new : str) (s : str) : str :=
  replace_from (length s) old new s.

(** The number written by a run of decimal digits. *)
Fixpoint digits_value (acc : N) (s : str) : option N :=
  match s with
  | [] => Some acc
  | c :: s' =>
      match digit_value c with
      | Some d => digits_value (10 * acc + d)%N s'
      | None => None
      end
  end.

(** [int(s)] on a non-empty run of digits; [None] stands for [ValueError]. *)
Definition int_of_str (s : str) : option Z :=
  match s with
  | [] => None
  | _ => match digits_value 0 s with Some n => Some (Z.of_N n) | None => None end
  end.

(** [float(s)] on the literals the program's patterns capture: digits with
    an optional fraction.  [None] stands for [ValueError]. *)
Definition float_of_str (s : str) : option Q :=
  let ip := take_while is_digit s in
  let rest := drop_while is_digit s in
  match ip, rest with
  | [], _ => None
  | _ :: _, [] =>
      match digits_value 0 ip with Some n => Some (inject_Z (Z.of_N n)) | None => None end
  | _ :: _, d :: fp =>
      if (d =? ch ".")%N then
        match fp, digits_value 0 ip, digits_value 0 fp with
        | _ :: _, Some n, Some f =>
            Some (inject_Z (Z.of_N n) + (Z.of_N f # Pos.pow 10 (Pos.of_nat (length fp))))%Q
        | _, _, _ => None
        end
      else None
  end.

End Py.

Export Py.

(* ===================================================================== *)
(** * The fragment of Python's [re] the program uses *)
(* ===================================================================== *)

Module Re.

(** Abstract syntax of the patterns: literals, [.], [\d], [\s], [$],
    concatenation, ordered alternation, greedy and lazy repetition,
    capturing groups. *)
Inductive regex : Type :=
| REps
| RChar (c : N)
| RAny
| RDigit
| RSpace
| REnd
| RCat (r1 r2 : regex)
| RAlt (r1 r2 : regex)
| RStar (greedy : bool) (r : regex)
| RGroup (i : nat) (r : regex).

Fixpoint rrepeat (n : nat) (r : regex) : regex :=
  match n with
  | O => REps
  | S n' => RCat r (rrepeat n' r)
  end.

(** ** Parsing a pattern string *)

(** A quantifier after an atom: [*], [+], [?], [{n}], each optionally
    followed by [?] for the lazy variant. *)
Definition p_lazy (s : str) : bool * str :=
  match s with
  | c :: s' => if (c =? ch "?")%N then (false, s') else (true, s)
  | [] => (true, s)
  end.

Definition p_quant (a : regex) (s : str) : regex * str :=
  match s with
  | [] => (a, s)
  | c :: s1 =>
      if (c =? ch "*")%N then
        let '(g, s2) := p_lazy s1 in (RStar g a, s2)
      else if (c =? ch "+")%N then
        let '(g, s2) := p_lazy s1 in (RCat a (RStar g a), s2)
      else if (c =? ch "?")%N then
        let '(g, s2) := p_lazy s1 in
        ((if g then RAlt a REps else RAlt REps a), s2)
      else if (c =? ch "{")%N then
        match digits_value 0 (take_while is_digit s1), drop_while is_digit s1 with
        | Some n, d :: s2 =>
            if (d =? ch "}")%N then (rrepeat (N.to_nat n) a, s2) else (a, s)
        | _, _ => (a, s)
        end
      else (a, s)
  end.

(** Recursive descent; the third component counts the capturing groups
    opened so far, which numbers them in the order of their parentheses. *)
Fixpoint p_alt (fuel : nat) (s : str) (g : nat) : option (regex * str * nat) :=
  match fuel with
  | O => None
  | S fuel' =>
      match p_seq fuel' s g with
      | Some (r1, s1, g1) =>
          match s1 with
          | c :: s2 =>
              if (c =? ch "|")%N then
                match p_alt fuel' s2 g1 with
                | Some (r2, s3, g2) => Some (RAlt r1 r2, s3, g2)
                | None => None
                end
              else Some (r1, s1, g1)
          | [] => Some (r1, s1, g1)
          end
      | None => None
      end
  end
with p_seq (fuel : nat) (s : str) (g : nat) : option (regex * str * nat) :=
  match fuel with
  | O => None
  | S fuel' =>
      match s with
      | [] => Some (REps, s, g)
      | c :: _ =>
          if ((c =? ch ")") || (c =? ch "|"))%N then Some (REps, s, g)
          else
            match p_atom fuel' s g with
            | Some (a, s1, g1) =>
                let '(q, s2) := p_quant a s1 in
                match p_seq fuel' s2 g1 with
                | Some (r, s3, g2) => Some (RCat q r, s3, g2)
                | None => None
                end
            | None => None
            end
      end
  end
with p_atom (fuel : nat) (s : str) (g : nat) : option (regex * str * nat) :=
  match fuel with
  | O => None
  | S fuel' =>
      match s with
      | [] => None
      | c :: s1 =>
          if (c =? ch "(")%N then
            if startswith (py "?:") s1 then
              match p_alt fuel' (drop 2 s1) g with
              | Some (r, d :: s2, g1) =>
                  if (d =? ch ")")%N then Some (r, s2, g1) else None
              | _ => None
              end
            else
              match p_alt fuel' s1 (S g) with
              | Some (r, d :: s2, g1) =>
                  if (d =? ch ")")%N then Some (RGroup (S g) r, s2, g1) else None
              | _ => None
              end
          else if (c =? 92)%N then   (* backslash *)
            match s1 with
            | e :: s2 =>
                if (e =? ch "d")%N then Some (RDigit, s2, g)
                else if (e =? ch "s")%N then Some (RSpace, s2, g)
                else Some (RChar e, s2, g)
            | [] => None
            end
          else if (c =? ch ".")%N then Some (RAny, s1, g)
          else if (c =? ch "$")%N then Some (REnd, s1, g)
          else Some (RChar c, s1, g)
      end
  end.

(** [re.compile(pattern)]; [None] stands for [re.error]. *)
Definition compile (pattern : str) : option regex :=
  match p_alt (3 * length pattern + 3) pattern 0 with
  | Some (r, [], _) => Some r
  | _ => None
  end.

(** ** Matching *)

(** The groups captured so far, most recent first. *)
Definition captures := list (nat * str).

(** Backtracking matcher in continuation-passing style: [k] receives the
    rest of the input and the captures, and returning [None] makes the
    matcher try its next alternative, in Python's order (left alternative
    first; greedy repetition tries one more iteration first, lazy
    repetition tries to stop first).  An iteration of a repetition must
    consume input, which every repeated item of the program's patterns
    does.  [ic] is the flag [re.IGNORECASE]. *)
Fixpoint m {A : Type} (ic : bool) (r : regex) (s : str) (c : captures)
    (k : str -> captures -> option A) : option A :=
  match r with
  | REps => k s c
  | RChar x =>
      match s with
      | y :: s' =>
          if (if ic then lower_char y =? lower_char x else y =? x)%N
          then k s' c else None
      | [] => None
      end
  | RAny =>
      match s with
      | y :: s' => if (y =? 10)%N then None else k s' c
      | [] => None
      end
  | RDigit =>
      match s with
      | y :: s' => if is_digit y then k s' c else None
      | [] => None
      end
  | RSpace =>
      match s with
      | y :: s' => if is_space y then k s' c else None
      | [] => None
      end
  | REnd =>
      match s with
      | [] => k s c
      | [y] => if (y =? 10)%N then k s c else None
      | _ => None
      end
  | RCat r1 r2 => m ic r1 s c (fun s1 c1 => m ic r2 s1 c1 k)
  | RAlt r1 r2 =>
      match m ic r1 s c k with
      | Some a => Some a
      | None => m ic r2 s c k
      end
  | RStar greedy r1 =>
      (fix loop (n : nat) (s : str) (c : captures) {struct n} : option A :=
         match n with
         | O => k s c
         | S n' =>
             let more :=
               m ic r1 s c
                 (fun s1 c1 =>
                    if (length s1 <? length s)%nat then loop n' s1 c1 else None) in
             if greedy then
               match more with
               | Some a => Some a
               | None => k s c
               end
             else
               match k s c with
               | Some a => Some a
               | None => more
               end
         end) (length s) s c
  | RGroup i r1 =>
      m ic r1 s c (fun s1 c1 => k s1 ((i, take (length s - length s1) s) :: c1))
  end.

(** A match object: [start()], [end()], [group(0)] and the groups. *)
Record Match : Type := mkMatch {
  m_start : nat;
  m_end : nat;
  m_group0 : str;
  m_captures : captures
}.

(** [match.group(i)], [None] when the group did not take part. *)
Definition group (mt : Match) (i : nat) : option str :=
  match i with
  | O => Some (m_group0 mt)
  | _ => snd <$> List.find (fun p => (fst p =? i)%nat) (m_captures mt)
  end.

(** A match starting exactly at the head of [s]; [pos] is its offset. *)
Definition match_here (ic : bool) (r : regex) (pos : nat) (s : str) : option Match :=
  m ic r s []
    (fun s' c =>
       let n := (length s - length s')%nat in
       Some (mkMatch pos (pos + n) (take n s) c)).

(** The leftmost match at or after the head of [s]. *)
Fixpoint search_from (ic : bool) (r : regex) (pos : nat) (s : str) : option Match :=
  match match_here ic r pos s with
  | Some mt => Some mt
  | None =>
      match s with
      | [] => None
      | _ :: s' => search_from ic r (S pos) s'
      end
  end.

(** [re.search(pattern, text, flags)] as a truth value. *)
Definition search (pattern : str) (text : str) (ic : bool) : bool :=
  match compile pattern with
  | Some r => match search_from ic r 0 text with Some _ => true | None => false end
  | None => false
  end.

(** The successive non-overlapping matches, left to right.  After a match
    the scan resumes at its end (one character further after an empty
    match). *)
Fixpoint finditer_from (fuel : nat) (ic : bool) (r : regex) (pos : nat) (s : str)
    : list Match :=
  match fuel with
  | O => []
  | S fuel' =>
      match search_from ic r pos s with
      | None => []
      | Some mt =>
          let consumed := (m_end mt - pos)%nat in
          if (m_start mt <? m_end mt)%nat
          then mt :: finditer_from fuel' ic r (m_end mt) (drop consumed s)
          else mt :: match drop consumed s with
                     | [] => []
                     | _ :: s' => finditer_from fuel' ic r (S (m_end mt)) s'
                     end
      end
  end.

(** [re.finditer(pattern, text, flags)] *)
Definition finditer (pattern : str) (text : str) (ic : bool) : list Match :=
  match compile pattern with
  | Some r => finditer_from (S (length text)) ic r 0 text
  | None => []
  end.

End Re.

(* ===================================================================== *)
(** * Exceptions, floats and dictionaries *)
(* ===================================================================== *)

(** A computation that returns or raises; the string is the message of
    the exception. *)
Inductive Result (A : Type) : Type :=
| Ok (a : A)
| Raise (e : string).
Arguments Ok {A} a.
Arguments Raise {A} e.

#[global] Instance Result_ret : MRet Result := fun A a => Ok a.
#[global] Instance Result_bind : MBind Result := fun A B f r =>
  match r with
  | Ok a => f a
  | Raise e => Raise e
  end.

Definition is_ok {A} (r : Result A) : bool :=
  match r with Ok _ => true | Raise _ => false end.

(** Comparisons of floats as truth values. *)
Definition Qltb (x y : Q) : bool := negb (Qle_bool y x).
Definition Qgtb (x y : Q) : bool := Qltb y x.
Definition Qgeb (x y : Q) : bool := Qle_bool y x.

(** Truthiness of a float ([0.0] is falsy) and of an optional float. *)
Definition truthy_float (x : Q) : bool := negb (Qeq_bool x 0).
Definition truthy_opt_float (x : option Q) : bool :=
  match x with Some v => truthy_float v | None => false end.

(** [min(x, y)] and [max(x, y)] of Python: the first argument wins a tie. *)
Definition py_min (x y : Q) : Q := if Qltb y x then y else x.
Definition py_max (x y : Q) : Q := if Qltb x y then y else x.

(** A [dict] keeps its keys in insertion order: an association list in
    which a key occurs at most once. *)
Section Dict.
Context {K V : Type} `{EqDecision K}.

Fixpoint dict_get (k : K) (d : list (K * V)) (default : V) : V :=
  match d with
  | [] => default
  | (k', v) :: d' => if decide (k = k') then v else dict_get k d' default
  end.

(** [d[k] = v]: in place when the key exists, appended otherwise. *)
Fixpoint dict_set (k : K) (v : V) (d : list (K * V)) : list (K * V) :=
  match d with
  | [] => [(k, v)]
  | (k', v') :: d' =>
      if decide (k = k') then (k', v) :: d' else (k', v') :: dict_set k v d'
  end.
End Dict.

(** [sorted(l, key=key, reverse=True)]: a stable sort, so elements with
    equal keys keep their order. *)
Section Sorted.
Context {A : Type} (key_ltb : A -> A -> bool).

(** [x] goes before the first element whose key is not above its own. *)
Fixpoint insert_desc (x : A) (l : list A) : list A :=
  match l with
  | [] => [x]
  | y :: l' => if key_ltb x y then y :: insert_desc x l' else x :: y :: l'
  end.

Definition sorted_desc (l : list A) : list A := foldr insert_desc [] l.
End Sorted.

(** [max(l, key=key)]: the first element whose key is maximal. *)
Fixpoint max_by {A : Type} (key : A -> Q) (best : A) (l : list A) : A :=
  match l with
  | [] => best
  | x :: l' => max_by key (if Qltb (key best) (key x) then x else best) l'
  end.

(* ===================================================================== *)
(** * chatbot/schemas.py *)
(* ===================================================================== *)

Inductive SearchGoalType : Type :=
| RESIDENTIAL_RENT | RESIDENTIAL_PURCHASE | VEHICLE_PURCHASE | VEHICLE_LEASE
| ELECTRONICS | GENERAL.

Inductive BudgetSource : Type :=
| LIQUIDITY | LOAN | LIQUIDITY_LOAN | MONTHLY_PAYMENT.

Inductive Priority : Type := HIGH | MEDIUM | LOW.

#[global] Instance SearchGoalType_eq_dec : EqDecision SearchGoalType.
Proof. solve_decision. Defined.
#[global] Instance BudgetSource_eq_dec : EqDecision BudgetSource.
Proof. solve_decision. Defined.
#[global] Instance Priority_eq_dec : EqDecision Priority.
Proof. solve_decision. Defined.

Record UserProfile : Type := mkUserProfile {
  liquidity : Q;
  loan_amount : Q;
  loan_availability_months : Z;
  max_monthly_payment : Q;
  existing_obligations : Q
}.

Definition total_budget (p : UserProfile) : Q := (liquidity p + loan_amount p)%Q.

Definition effective_monthly_budget (p : UserProfile) : Q :=
  (max_monthly_payment p - existing_obligations p)%Q.

(** The constraint [ge=0] of a field. *)
Definition ge0 (x : Q) : bool := Qle_bool 0 x.
Definition ge0_opt (x : option Q) : bool :=
  match x with Some v => ge0 v | None => true end.

(** [UserProfile(...)]: pydantic checks every [ge=0] and raises a
    [ValidationError] when one fails. *)
Definition UserProfile_init (liquidity loan_amount : Q) (loan_availability_months : Z)
    (max_monthly_payment existing_obligations : Q) : Result UserProfile :=
  if ge0 liquidity && ge0 loan_amount && (0 <=? loan_availability_months)%Z
     && ge0 max_monthly_payment && ge0 existing_obligations
  then Ok (mkUserProfile liquidity loan_amount loan_availability_months
             max_monthly_payment existing_obligations)
  else Raise "ValidationError: ensure this value is greater than or equal to 0".

Record SearchGoal : Type := mkSearchGoal {
  goal_id : Z;
  type : SearchGoalType;
  target_location : str;
  budget_source : BudgetSource;
  priority : Priority;
  search_type : str;
  min_price : option Q;
  max_price : option Q;
  max_monthly_lease_payment : option Q;
  additional_filters : list (str * str)
}.

(** [SearchGoal.validate_price_range(cls, v, values)].  [values] holds the
    fields validated before [max_price]; [min_price] is among them unless
    its own validation failed, which is the outer [option] here. *)
Definition validate_price_range (v : option Q) (values_min_price : option (option Q))
    : Result (option Q) :=
  match values_min_price with
  | Some mp =>
      if truthy_opt_float v && truthy_opt_float mp then
        match v, mp with
        | Some vv, Some mm =>
            if Qltb vv mm then Raise "max_price must be greater than min_price"
            else Ok v
        | _, _ => Ok v
        end
      else Ok v
  | None => Ok v
  end.

(** [SearchGoal(...)]: the fields are validated in the order of their
    declaration, the [ge=0] of a field before its validator, and one
    [ValidationError] is raised at the end if any of them failed. *)
Definition SearchGoal_init (goal_id : Z) (type : SearchGoalType) (target_location : str)
    (budget_source : BudgetSource) (priority : Priority) (search_type : str)
    (min_price max_price max_monthly_lease_payment : option Q)
    (additional_filters : list (str * str)) : Result SearchGoal :=
  let min_ok := ge0_opt min_price in
  let values_min_price := if min_ok then Some min_price else None in
  let max_ok :=
    ge0_opt max_price && is_ok (validate_price_range max_price values_min_price) in
  let lease_ok := ge0_opt max_monthly_lease_payment in
  if min_ok && max_ok && lease_ok
  then Ok (mkSearchGoal goal_id type target_location budget_source priority
             search_type min_price max_price max_monthly_lease_payment
             additional_filters)
  else Raise "ValidationError".

Record StructuredQuery : Type := mkStructuredQuery {
  user_profile : UserProfile;
  search_goals : list SearchGoal;
  is_multi_goal : bool;
  sq_confidence : Q;
  timestamp : option str
}.

(** [StructuredQuery(...)]: [validate_goals] rejects an empty list of
    goals, and [confidence] must lie in [[0, 1]]. *)
Definition StructuredQuery_init (user_profile : UserProfile)
    (search_goals : list SearchGoal) (is_multi_goal : bool) (confidence : Q)
    : Result StructuredQuery :=
  match search_goals with
  | [] => Raise "At least one search goal is required"
  | _ :: _ =>
      if Qle_bool 0 confidence && Qle_bool confidence 1
      then Ok (mkStructuredQuery user_profile search_goals is_multi_goal
                 confidence None)
      else Raise "ValidationError"
  end.

Record ChatbotResponse : Type := mkChatbotResponse {
  success : bool;
  query : option StructuredQuery;
  confidence : Q;
  requires_clarification : bool;
  clarification_questions : list str;
  errors : list string
}.

(** [ChatbotResponse(...)]: [confidence] must lie in [[0, 1]].  The field
    [message], a text rendered for the user, is left out. *)
Definition ChatbotResponse_init (success : bool) (query : option StructuredQuery)
    (confidence : Q) (requires_clarification : bool)
    (clarification_questions : list str) (errors : list string)
    : Result ChatbotResponse :=
  if Qle_bool 0 confidence && Qle_bool confidence 1
  then Ok (mkChatbotResponse success query confidence requires_clarification
             clarification_questions errors)
  else Raise "ValidationError".

(* ===================================================================== *)
(** * chatbot/entity_extractor.py *)
(* ===================================================================== *)

Record ExtractedEntity : Type := mkExtractedEntity {
  entity_type : string;
  value : Q;
  ee_confidence : Q;
  start_pos : nat;
  end_pos : nat;
  raw_text : str
}.

(** The dictionary [search_info] of [extract_search_type]. *)
Record SearchInfo : Type := mkSearchInfo {
  si_type : option SearchGoalType;
  si_search_type : str;
  is_rent : bool;
  is_purchase : bool;
  is_lease : bool
}.

(** The dictionary built by [extract_all_entities]; the key
    ['primary_liquidity'] is present only when a money entity was found. *)
Record Entities : Type := mkEntities {
  money_entities : list ExtractedEntity;
  locations : list str;
  loan_info : Q * Z;
  monthly_payment : Q;
  e_search_type : SearchInfo;
  primary_liquidity : option Q
}.

(** The order in which Python enumerates a [set] is not specified: it is
    an input of the model, a function that may only permute. *)
Record SetOrder : Type := mkSetOrder {
  enumerate : forall A : Type, list A -> list A;
  enumerate_perm : forall (A : Type) (l : list A), enumerate A l ≡ₚ l
}.
Arguments enumerate _ {A} _.

Definition listed_order : SetOrder :=
  mkSetOrder (fun A l => l) (fun A l => reflexivity l).

Definition reverse_order : SetOrder :=
  mkSetOrder (fun A l => reverse l) (fun A l => reverse_Permutation l).

Module EntityExtractor.

Definition money_patterns : list str :=
  [py "(\d+(?:\.\d+)?)\s*(?:میلیون|ملیون|م|M)\s*(?:تومان|تومن)?";
   py "(\d+(?:\.\d+)?)\s*(?:هزار|k)\s*(?:تومان|تومن)?";
   py "(\d+(?:\.\d+)?)\s*(?:میلیارد|بیلیون|b)\s*(?:تومان|تومن)?";
   py "(\d+(?:,\d{3})*(?:\.\d+)?)\s*(?:تومان|تومن)"].

Definition monthly_patterns : list str :=
  [py "ماهی\s*(\d+(?:\.\d+)?)\s*(?:میلیون|ملیون|م|M)";
   py "ماهانه\s*(\d+(?:\.\d+)?)\s*(?:میلیون|ملیون|م|M)";
   py "قسط\s*(\d+(?:\.\d+)?)\s*(?:میلیون|ملیون|م|M)"].

Definition loan_patterns : list str :=
  [py "وام\s*(\d+(?:\.\d+)?)\s*(?:میلیون|ملیون|م|M)";
   py "(\d+(?:\.\d+)?)\s*(?:میلیون|ملیون|م|M)\s*وام";
   py "قرض\s*(\d+(?:\.\d+)?)\s*(?:میلیون|ملیون|م|M)"].

Definition time_patterns : list str :=
  [py "(\d+)\s*ماه\s*(?:دیگه|دیگر|آینده|بعد)";
   py "(\d+)\s*ماه\s*(?:بعد|بعدا)";
   py "تا\s*(\d+)\s*ماه\s*(?:دیگه|دیگر|آینده)"].

Definition location_keywords : list str :=
  [py "تهران"; py "اکباتان"; py "ولیعصر"; py "تجریش"; py "ونک";
   py "پاسداران"; py "شهرک غرب"; py "سعادت آباد"; py "میرداماد"; py "گیشا";
   py "جنت آباد"].

Definition location_patterns : list str :=
  [py "(?:در|از|به)\s*(.+?)(?:\s|$|،|،|\.)";
   py "منطقه\s*(.+?)(?:\s|$|،|،|\.)"; py "محله\s*(.+?)(?:\s|$|،|،|\.)"].

(** [_normalize_money(value, unit='million')] *)
Definition _normalize_money (value : str) (unit : str) : Q :=
  match float_of_str (replace (py ",") [] value) with
  | Some num_value =>
      if contains (py "هزار") (lower unit) || contains (py "k") (lower unit)
      then (num_value / 1000)%Q
      else if contains (py "میلیارد") (lower unit) || contains (py "b") (lower unit)
      then (num_value * 1000)%Q
      else num_value
  | None => 0%Q        (* except (ValueError, AttributeError) *)
  end.

(** The default value of the parameter [unit]. *)
Definition default_unit : str := py "million".

(** [_normalize_money(match.group(1), unit)]: a group that took no part is
    [None], and the [AttributeError] it causes is caught by the function. *)
Definition normalize_group (mt : Re.Match) (unit : str) : Q :=
  match Re.group mt 1 with
  | Some value_str => _normalize_money value_str unit
  | None => 0%Q
  end.

(** [extract_money_entities(text)] *)
Definition extract_money_entities (text : str) : list ExtractedEntity :=
  flat_map
    (fun pattern =>
       map (fun mt =>
              mkExtractedEntity "money" (normalize_group mt (Re.m_group0 mt))
                0.9%Q (Re.m_start mt) (Re.m_end mt) (Re.m_group0 mt))
           (Re.finditer pattern text true))
    money_patterns.

(** The loop [for pattern in patterns: for match in finditer(...): x = f(match); break]:
    every pattern that matches overwrites [x] with its first match. *)
Definition first_match_of_each {A : Type} (patterns : list str) (text : str)
    (f : Re.Match -> A) (init : A) : A :=
  foldl (fun acc pattern =>
           match Re.finditer pattern text true with
           | mt :: _ => f mt
           | [] => acc
           end) init patterns.

(** [extract_loan_info(text)]; [int(match.group(1))] cannot fail on the
    digits the time patterns capture. *)
Definition extract_loan_info (text : str) : Q * Z :=
  let loan_amount :=
    first_match_of_each loan_patterns text (fun mt => normalize_group mt default_unit) 0%Q in
  let loan_months :=
    first_match_of_each time_patterns text
      (fun mt => default 0%Z (Re.group mt 1 ≫= int_of_str)) 0%Z in
  (loan_amount, loan_months).

(** [extract_monthly_payment(text)] *)
Definition extract_monthly_payment (text : str) : Q :=
  first_match_of_each monthly_patterns text (fun mt => normalize_group mt default_unit) 0%Q.

(** [extract_location(text)]; the final [list(set(locations))] enumerates
    the distinct locations in the order [so] gives. *)
Definition extract_location (so : SetOrder) (text : str) : list str :=
  let by_keyword := List.filter (fun keyword => contains keyword text) location_keywords in
  let by_pattern :=
    flat_map
      (fun pattern =>
         flat_map (fun mt =>
                     match Re.group mt 1 with
                     | Some g =>
                         let location := strip g in
                         if truthy location && (2 <? len location)%nat
                         then [location] else []
                     | None => []
                     end)
                  (Re.finditer pattern text true))
      location_patterns in
  enumerate so (remove_dups (by_keyword ++ by_pattern)).

Definition any_in (keywords : list str) (text : str) : bool :=
  existsb (fun keyword => contains keyword text) keywords.

(** [extract_search_type(text)]: four rules applied in sequence, each
    overwriting what the earlier ones set. *)
Definition extract_search_type (text : str) : SearchInfo :=
  let text_lower := lower text in
  let s0 := mkSearchInfo None [] false false false in
  (* Check for rent *)
  let s1 :=
    if any_in [py "رهن"; py "اجاره"; py "رهن کامل"] text_lower then
      mkSearchInfo (Some RESIDENTIAL_RENT)
        (if contains (py "رهن کامل") text_lower then py "رهن کامل" else py "رهن و اجاره")
        true (is_purchase s0) (is_lease s0)
    else s0 in
  (* Check for purchase *)
  let s2 :=
    if any_in [py "خرید"; py "تهیه"; py "بگیرم"] text_lower then
      mkSearchInfo
        (match si_type s1 with None => Some RESIDENTIAL_PURCHASE | Some t => Some t end)
        (si_search_type s1) (is_rent s1) true (is_lease s1)
    else s1 in
  (* Check for vehicle *)
  let s3 :=
    if any_in [py "ماشین"; py "خودرو"; py "اتومبیل"] text_lower then
      if is_purchase s2 then
        mkSearchInfo (Some VEHICLE_PURCHASE) (si_search_type s2) (is_rent s2)
          (is_purchase s2) (is_lease s2)
      else if is_lease s2 then
        mkSearchInfo (Some VEHICLE_LEASE) (si_search_type s2) (is_rent s2)
          (is_purchase s2) (is_lease s2)
      else s2
    else s2 in
  (* Check for lease *)
  if any_in [py "لیزینگ"; py "قسط"; py "اقساط"] text_lower then
    mkSearchInfo
      (if contains (py "ماشین") text_lower || contains (py "خودرو") text_lower
       then Some VEHICLE_LEASE else si_type s3)
      (si_search_type s3) (is_rent s3) (is_purchase s3) true
  else s3.

(** [extract_all_entities(text)] *)
Definition extract_all_entities (so : SetOrder) (text : str) : Entities :=
  let money := extract_money_entities text in
  mkEntities money (extract_location so text) (extract_loan_info text)
    (extract_monthly_payment text) (extract_search_type text)
    (match money with
     | first :: _ => Some (value first)
     | [] => None
     end).

(** [build_user_profile(entities)] *)
Definition build_user_profile (entities : Entities) : Result UserProfile :=
  let '(loan_amount, loan_months) := loan_info entities in
  let monthly_payment := monthly_payment entities in
  let primary_liquidity := default 0%Q (primary_liquidity entities) in
  UserProfile_init primary_liquidity loan_amount loan_months monthly_payment 0%Q.

(** The budget source chosen by [build_search_goals]. *)
Definition select_budget_source (user_profile : UserProfile) : BudgetSource :=
  if Qgtb (loan_amount user_profile) 0 && Qgtb (liquidity user_profile) 0
  then LIQUIDITY_LOAN
  else if Qgtb (loan_amount user_profile) 0 then LOAN
  else if Qgtb (max_monthly_payment user_profile) 0 then MONTHLY_PAYMENT
  else LIQUIDITY.

(** The loop over the locations, [goal_id] counting from its first value. *)
Fixpoint goals_for_locations (locs : list str) (goal_id : Z) (search_type : SearchGoalType)
    (budget_source : BudgetSource) (label : str) (user_profile : UserProfile)
    : Result (list SearchGoal) :=
  match locs with
  | [] => Ok []
  | location :: locs' =>
      goal ← SearchGoal_init goal_id search_type location budget_source
                (if (goal_id =? 1)%Z then HIGH else MEDIUM)
                label None
                (if Qgtb (total_budget user_profile) 0
                 then Some (total_budget user_profile) else None)
                (if Qgtb (max_monthly_payment user_profile) 0
                 then Some (max_monthly_payment user_profile) else None)
                [];
      goals ← goals_for_locations locs' (goal_id + 1)%Z search_type budget_source
                 label user_profile;
      Ok (goal :: goals)
  end.

(** [build_search_goals(entities, user_profile)] *)
Definition build_search_goals (entities : Entities) (user_profile : UserProfile)
    : Result (list SearchGoal) :=
  let search_info := e_search_type entities in
  let locations := locations entities in
  let search_type := default GENERAL (si_type search_info) in
  let budget_source := select_budget_source user_profile in
  match locations with
  | _ :: _ =>
      goals_for_locations locations 1%Z search_type budget_source
        (si_search_type search_info) user_profile
  | [] =>
      goal ← SearchGoal_init 1%Z search_type [] budget_source HIGH
                (si_search_type search_info) None
                (if Qgtb (total_budget user_profile) 0
                 then Some (total_budget user_profile) else None)
                (if Qgtb (max_monthly_payment user_profile) 0
                 then Some (max_monthly_payment user_profile) else None)
                [];
      Ok [goal]
  end.

End EntityExtractor.

(* ===================================================================== *)
(** * chatbot/intent_classifier.py *)
(* ===================================================================== *)

Inductive IntentType : Type :=
| SEARCH | COMPARE | ADVICE | CALCULATE | CLARIFY | GREETING | UNKNOWN.

#[global] Instance IntentType_eq_dec : EqDecision IntentType.
Proof. solve_decision. Defined.

Module IntentClassifier.

Definition intent_keywords : list (IntentType * list str) :=
  [(SEARCH,
    [py "می‌خواهم"; py "بخواهم"; py "بخواهیم"; py "بررسی"; py "جستجو";
     py "پیدا کنم"; py "خرید"; py "تهیه"; py "بگیرم"; py "نگاه کنم";
     py "ببینم"; py "چک کنم"]);
   (COMPARE,
    [py "مقایسه"; py "مقایسه کن"; py "باهم"; py "کدوم بهتر"; py "تفاوت";
     py "کدام"; py "کدامیک"; py "بهتره"; py "بهترین"]);
   (ADVICE,
    [py "پیشنهاد"; py "نظر"; py "راهنمایی"; py "کمک"; py "مشاوره"; py "چطور";
     py "چگونه"; py "راه"; py "بهترین راه"]);
   (CALCULATE,
    [py "محاسبه"; py "حساب"; py "چقدر"; py "میشه"; py "میتونم"; py "میتوانم";
     py "توانایی"; py "قدرت خرید"]);
   (GREETING,
    [py "سلام"; py "درود"; py "صبح بخیر"; py "عصر بخیر"; py "خوبی";
     py "چطوری"; py "چطوره"; py "هی"])].

Definition patterns : list (IntentType * list str) :=
  [(SEARCH,
    [py "می‌خواهم\s+(.+?)\s+(?:بخواهم|بگیرم|پیدا کنم|خرید)";
     py "بخواهم\s+(.+?)\s+(?:بررسی|جستجو)";
     py "چطور\s+(?:میتونم|میتوانم)\s+(.+?)\s+(?:بگیرم|تهیه کنم)"]);
   (COMPARE,
    [py "مقایسه\s+(.+?)\s+با\s+(.+)"; py "کدوم\s+(.+?)\s+بهتر";
     py "تفاوت\s+(.+?)\s+با\s+(.+)"]);
   (ADVICE,
    [py "پیشنهاد\s+(.+?)"; py "چطور\s+(.+?)\s+(?:بکنم|انجام بدهم)";
     py "بهترین\s+(.+?)\s+برای\s+(.+)"]);
   (CALCULATE,
    [py "چقدر\s+(?:میتونم|میتوانم)\s+(.+?)\s+(?:بگیرم|خرید)";
     py "با\s+(.+?)\s+چقدر\s+(?:میشه|میتونم)"; py "محاسبه\s+(.+?)"])].

(** Scored intents are ordered by their score. *)
Definition score_ltb (a b : IntentType * Q) : bool := Qltb (snd a) (snd b).

(** [classify_by_keywords(text)] *)
Definition classify_by_keywords (text : str) : list (IntentType * Q) :=
  let text_lower := lower text in
  let scores :=
    flat_map
      (fun '(intent_type, keywords) =>
         let matches :=
           length (List.filter (fun keyword => contains keyword text_lower) keywords) in
         if (0 <? matches)%nat
         then [(intent_type,
                py_min (inject_Z (Z.of_nat matches) / inject_Z (Z.of_nat (length keywords)) * 2)
                       1)%Q]
         else [])
      intent_keywords in
  sorted_desc score_ltb scores.

(** [classify_by_patterns(text)] *)
Definition classify_by_patterns (text : str) : list (IntentType * Q) :=
  let scores :=
    flat_map
      (fun '(intent_type, pats) =>
         if existsb (fun pattern => Re.search pattern text true) pats
         then [(intent_type, 0.9%Q)] else [])
      patterns in
  sorted_desc score_ltb scores.

(** [combined_scores[intent] = combined_scores.get(intent, 0.0) + score * w]
    for every scored intent of [results]. *)
Definition add_scores (w : Q) (results : list (IntentType * Q))
    (combined_scores : list (IntentType * Q)) : list (IntentType * Q) :=
  foldl (fun acc '(intent, score) =>
           dict_set intent (dict_get intent acc 0 + score * w)%Q acc)
        combined_scores results.

(** [max(combined_scores.values())] of a non-empty dictionary. *)
Definition max_value (d : list (IntentType * Q)) : Q :=
  match d with
  | [] => 0%Q
  | (_, v) :: d' => foldl py_max v (map snd d')
  end.

(** The words that make an unclassified text a search. *)
Definition search_fallback_words : list str :=
  [py "می‌خواهم"; py "بخواهم"; py "خرید"; py "تهیه"].

(** [classify(text)].  The division is by the largest of the combined
    scores, which is positive whenever the dictionary is not empty. *)
Definition classify (text : str) : IntentType * Q :=
  if negb (truthy text) || (len (strip text) <? 2)%nat then (UNKNOWN, 0%Q)
  else
    let keyword_results := classify_by_keywords text in
    let pattern_results := classify_by_patterns text in
    let combined_scores := add_scores 0.6%Q keyword_results [] in
    let combined_scores := add_scores 0.4%Q pattern_results combined_scores in
    let max_score := max_value combined_scores in
    let combined_scores :=
      map (fun '(intent, score) => (intent, py_min (score / max_score) 1)%Q)
          combined_scores in
    match combined_scores with
    | first :: rest => max_by snd first rest
    | [] =>
        if existsb (fun word => contains word (lower text)) search_fallback_words
        then (SEARCH, 0.7%Q)
        else (UNKNOWN, 0.3%Q)
    end.

(** [requires_clarification(intent, confidence)] *)
Definition requires_clarification (intent : IntentType) (confidence : Q) : bool :=
  if Qltb confidence 0.5 then true
  else if decide (intent = UNKNOWN) then true
  else false.

(** [get_clarification_questions(intent, text)] *)
Definition get_clarification_questions (intent : IntentType) (text : str) : list str :=
  match intent with
  | SEARCH =>
      (if negb (contains (py "بودجه") (lower text)) && negb (contains (py "پول") (lower text))
       then [py "بودجه شما چقدر است؟"] else [])
      ++
      (if negb (contains (py "مکان") (lower text)) && negb (contains (py "منطقه") (lower text))
       then [py "در چه منطقه‌ای جستجو کنیم؟"] else [])
  | COMPARE => [py "کدام موارد را می‌خواهید مقایسه کنیم؟"]
  | ADVICE => [py "در مورد چه موضوعی نیاز به مشاوره دارید؟"]
  | UNKNOWN => [py "لطفاً به صورت دقیق‌تر توضیح دهید که چه می‌خواهید؟"]
  | _ => []
  end.

End IntentClassifier.

(* ===================================================================== *)
(** * chatbot/nlu.py *)
(* ===================================================================== *)

(** The dictionary returned by [NLUProcessor.process]. *)
Record NLUResult : Type := mkNLUResult {
  nlu_intent : IntentType;
  nlu_confidence : Q;
  nlu_entities : Entities;
  nlu_user_profile : UserProfile;
  nlu_search_goals : list SearchGoal;
  nlu_requires_clarification : bool;
  nlu_clarification_questions : list str;
  nlu_is_multi_goal : bool
}.

Module NLUProcessor.

(** [_calculate_confidence(intent_confidence, entities, user_profile)] *)
Definition _calculate_confidence (intent_confidence : Q) (entities : Entities)
    (user_profile : UserProfile) : Q :=
  let confidence := (intent_confidence * 0.4)%Q in
  let entity_confidence := 0%Q in
  let entity_confidence :=
    match money_entities entities with
    | _ :: _ => (entity_confidence + 0.3)%Q
    | [] => entity_confidence
    end in
  let entity_confidence :=
    match locations entities with
    | _ :: _ => (entity_confidence + 0.2)%Q
    | [] => entity_confidence
    end in
  let entity_confidence :=
    match si_type (e_search_type entities) with
    | Some _ => (entity_confidence + 0.1)%Q
    | None => entity_confidence
    end in
  let confidence := (confidence + entity_confidence * 0.6)%Q in
  let confidence :=
    if Qeq_bool (total_budget user_profile) 0
       && Qeq_bool (max_monthly_payment user_profile) 0
    then (confidence * 0.7)%Q else confidence in
  py_min confidence 1.

(** [process(text, context)]; the context is not read by the function. *)
Definition process (so : SetOrder) (text : str) : Result NLUResult :=
  let '(intent, intent_confidence) := IntentClassifier.classify text in
  let entities := EntityExtractor.extract_all_entities so text in
  user_profile ← EntityExtractor.build_user_profile entities;
  search_goals ← EntityExtractor.build_search_goals entities user_profile;
  let requires_clarification :=
    IntentClassifier.requires_clarification intent intent_confidence in
  let clarification_questions :=
    if requires_clarification
    then IntentClassifier.get_clarification_questions intent text else [] in
  let overall_confidence := _calculate_confidence intent_confidence entities user_profile in
  Ok (mkNLUResult intent overall_confidence entities user_profile search_goals
        requires_clarification clarification_questions
        (1 <? length search_goals)%nat).

(** [build_structured_query(nlu_result)] *)
Definition build_structured_query (nlu_result : NLUResult) : Result StructuredQuery :=
  StructuredQuery_init (nlu_user_profile nlu_result) (nlu_search_goals nlu_result)
    (nlu_is_multi_goal nlu_result) (nlu_confidence nlu_result).

End NLUProcessor.

(* ===================================================================== *)
(** * chatbot/engine.py *)
(* ===================================================================== *)

(** One entry of [conversation_history]. *)
Record Interaction : Type := mkInteraction {
  i_message : str;
  i_query : StructuredQuery;
  i_timestamp : str
}.

Module ChatbotEngine.

(** [_update_conversation_history(session_id, message, structured_query)] *)
Definition _update_conversation_history (history : gmap str (list Interaction))
    (session_id : str) (message : str) (structured_query : StructuredQuery) (now : str)
    : gmap str (list Interaction) :=
  <[session_id := default [] (history !! session_id)
                    ++ [mkInteraction message structured_query now]]> history.

(** The response of the [except] branch. *)
Definition failure_response (e : string) : ChatbotResponse :=
  mkChatbotResponse false None 0 false [] [e].

(** [process_message(message, session_id)], with the history of the engine
    passed in and out and [now] the reading of the clock.  The search
    queries the function generates after building the structured query are
    not part of its response and their generation raises nothing; they are
    left out. *)
Definition process_message (so : SetOrder) (history : gmap str (list Interaction))
    (message : str) (session_id : option str) (now : str)
    : ChatbotResponse * gmap str (list Interaction) :=
  match NLUProcessor.process so message with
  | Raise e => (failure_response e, history)
  | Ok nlu_result =>
      if nlu_requires_clarification nlu_result then
        match ChatbotResponse_init true None (nlu_confidence nlu_result) true
                (nlu_clarification_questions nlu_result) [] with
        | Ok response => (response, history)
        | Raise e => (failure_response e, history)
        end
      else
        match NLUProcessor.build_structured_query nlu_result with
        | Raise e => (failure_response e, history)
        | Ok sq =>
            let structured_query :=
              mkStructuredQuery (user_profile sq) (search_goals sq) (is_multi_goal sq)
                (sq_confidence sq) (Some now) in
            let history' :=
              match session_id with
              | Some sid =>
                  if truthy sid
                  then _update_conversation_history history sid message structured_query now
                  else history
              | None => history
              end in
            match ChatbotResponse_init true (Some structured_query)
                    (nlu_confidence nlu_result) false [] [] with
            | Ok response => (response, history')
            | Raise e => (failure_response e, history')
            end
        end
  end.


End ChatbotEngine.

(* ===================================================================== *)
(** * crawler/schemas.py *)
(* ===================================================================== *)

(** A value of type [Any]: what a raw record or a filter may hold. *)
#[local] Unset Elimination Schemes.
Inductive PyVal : Type :=
| VNone
| VStr (s : str)
| VNum (x : Q)
| VList (l : list PyVal)
| VDict (d : list (str * PyVal)).
#[local] Set Elimination Schemes.

Module CrawledItem.
Record t : Type := mk {
  item_id : str;
  source_site : str;
  title : str;
  description : option str;
  url : str;
  price : option Q;
  price_text : option str;
  price_type : option str;
  location : option str;
  city : option str;
  district : option str;
  images : list str;
  thumbnail : option str;
  properties : list (str * PyVal);
  crawled_at : Z;
  goal_id : option Z;
  confidence_score : Q;
  completeness_score : Q
}.
End CrawledItem.

(** The durations [execution_time] and the [timestamp] of a batch are
    readings of the wall clock and are left out of the results. *)
Module CrawlResult.
Record t : Type := mk {
  success : bool;
  site_name : str;
  items : list CrawledItem.t;
  total_items : Z;
  errors : list string
}.
End CrawlResult.

Module CrawlBatchResult.
Record t : Type := mk {
  success : bool;
  results : list CrawlResult.t;
  total_items : Z
}.
End CrawlBatchResult.

(* ===================================================================== *)
(** * crawler/base_crawler.py *)
(* ===================================================================== *)

(** What the outside world answers to a crawl: [requests_get url k] is the
    outcome of the [k]-th call of [requests.get] on [url] (the text of the
    page, or the exception of the transport or of [raise_for_status]);
    [chrome] is the outcome of starting the browser, which then maps a url to
    its page source or to an exception. *)
Record Network : Type := mkNetwork {
  requests_get : str -> nat -> Result str;
  chrome : Result (str -> Result str)
}.

Module BaseCrawler.

(** A crawler: its configuration and the three operations every subclass
    implements.  Each operation may raise. *)
Record t : Type := mk {
  site_name : str;
  _use_selenium : bool;
  retry_times : nat;
  build_search_url : list (str * PyVal) -> Result str;
  extract_items : str -> Result (list (list (str * PyVal)));
  normalize_item : list (str * PyVal) -> option Z -> Result (option CrawledItem.t)
}.

(** [_fetch_with_requests(url)]: [attempt] counts from 0 and [n] attempts
    remain; a failed attempt is retried unless it was the last one. *)
Fixpoint _fetch_with_requests_from (net : Network) (url : str) (attempt n : nat)
    : option str :=
  match n with
  | O => None
  | S n' =>
      match requests_get net url attempt with
      | Ok text => Some text
      | Raise _ => _fetch_with_requests_from net url (S attempt) n'
      end
  end.

Definition _fetch_with_requests (self : t) (net : Network) (url : str) : option str :=
  _fetch_with_requests_from net url 0 (retry_times self).

(** [_fetch_with_selenium(url)]: starting the browser is outside the [try]
    of the function, loading the page is inside. *)
Definition _fetch_with_selenium (self : t) (net : Network) (url : str)
    : Result (option str) :=
  if negb (_use_selenium self) then Ok None
  else
    driver ← chrome net;
    match driver url with
    | Ok page_source => Ok (Some page_source)
    | Raise _ => Ok None
    end.

(** [fetch_page(url)] *)
Definition fetch_page (self : t) (net : Network) (url : str) : Result (option str) :=
  if _use_selenium self then _fetch_with_selenium self net url
  else Ok (_fetch_with_requests self net url).

(** [re.findall(pattern, text)] for a pattern without groups. *)
Definition findall (pattern : str) (text : str) : list str :=
  map Re.m_group0 (Re.finditer pattern text false).

(** [parse_price(price_text)] *)
Definition parse_price (price_text : str) : option Q :=
  if negb (truthy price_text) then None
  else
    let price_text := strip (replace (py "تومن") [] (replace (py "تومان") [] price_text)) in
    let price_text := replace (py "،") [] (replace (py ",") [] price_text) in
    match findall (py "\d+(?:\.\d+)?") price_text with
    | [] => None
    | number :: _ =>
        match float_of_str number with
        | Some price =>
            if contains (py "میلیارد") price_text || contains (py "بیلیون") price_text
            then Some (price * 1000)%Q
            else if contains (py "هزار") price_text
            then Some (price / 1000)%Q
            else Some price
        | None => None       (* except (ValueError, AttributeError) *)
        end
    end.

(** The loop of [crawl] over the raw records: a record that fails to
    normalize adds a message to [errors] and the loop goes on. *)
Fixpoint normalize_all (self : t) (raw_items : list (list (str * PyVal)))
    (goal_id : option Z) : list CrawledItem.t * list string :=
  match raw_items with
  | [] => ([], [])
  | raw_item :: rest =>
      let '(items, errors) := normalize_all self rest goal_id in
      match normalize_item self raw_item goal_id with
      | Ok (Some normalized_item) => (normalized_item :: items, errors)
      | Ok None => (items, errors)
      | Raise e => (items, ("Normalization error: " ++ e)%string :: errors)
      end
  end.

(** The result of [crawl] when an exception reaches its [except] branch. *)
Definition crawl_failed (self : t) (e : string) : CrawlResult.t :=
  CrawlResult.mk false (site_name self) [] 0 [e].

(** [crawl(filters, goal_id)] *)
Definition crawl (self : t) (net : Network) (filters : list (str * PyVal))
    (goal_id : option Z) : CrawlResult.t :=
  match build_search_url self filters with
  | Raise e => crawl_failed self e
  | Ok search_url =>
      match fetch_page self net search_url with
      | Raise e => crawl_failed self e
      | Ok html_content =>
          if negb (truthy (default [] html_content)) then
            CrawlResult.mk false (site_name self) [] 0 ["Failed to fetch page content"%string]
          else
            match extract_items self (default [] html_content) with
            | Raise e => crawl_failed self e
            | Ok raw_items =>
                let '(items, errors) := normalize_all self raw_items goal_id in
                CrawlResult.mk true (site_name self) items (Z.of_nat (length items)) errors
            end
      end
  end.

End BaseCrawler.

(* ===================================================================== *)
(** * crawler/crawler_manager.py *)
(* ===================================================================== *)

(** One request of a batch: the dictionary with the keys ['site'],
    ['filters'] and ['goal_id']. *)
Record CrawlQuery : Type := mkCrawlQuery {
  site : str;
  filters : list (str * PyVal);
  q_goal_id : option Z
}.

Module CrawlerManager.

(** The manager: its crawlers by site name. *)
Record t : Type := mk {
  crawlers : gmap str BaseCrawler.t
}.

(** [get_crawler(site_name)] *)
Definition get_crawler (self : t) (site_name : str) : option BaseCrawler.t :=
  crawlers self !! site_name.

(** [crawl_site(site_name, filters, goal_id)] *)
Definition crawl_site (self : t) (net : Network) (site_name : str)
    (filters : list (str * PyVal)) (goal_id : option Z) : CrawlResult.t :=
  match get_crawler self site_name with
  | None =>
      (* the message ends with the name of the site, left out here *)
      CrawlResult.mk false site_name [] 0 ["Crawler not found for site"%string]
  | Some crawler => BaseCrawler.crawl crawler net filters goal_id
  end.

(** [_crawl_sequential(queries)] *)
Definition _crawl_sequential (self : t) (net : Network) (queries : list CrawlQuery)
    : list CrawlResult.t :=
  map (fun query => crawl_site self net (site query) (filters query) (q_goal_id query))
      queries.

(** [_crawl_parallel(queries)]: one task per query, the results appended in
    the order [as_completed] yields them, which the pool decides.
    [crawl_site] lets no exception out, so the [except] branch of the
    collecting loop is not taken. *)
Definition _crawl_parallel (self : t) (net : Network) (as_completed : SetOrder)
    (queries : list CrawlQuery) : list CrawlResult.t :=
  enumerate as_completed
    (map (fun query => crawl_site self net (site query) (filters query) (q_goal_id query))
         queries).

(** [sum(result.total_items for result in results)] *)
Definition sum_total_items (results : list CrawlResult.t) : Z :=
  foldr (fun result acc => (CrawlResult.total_items result + acc)%Z) 0%Z results.

(** [crawl_batch(queries, parallel)] *)
Definition crawl_batch (self : t) (net : Network) (as_completed : SetOrder)
    (queries : list CrawlQuery) (parallel : bool) : CrawlBatchResult.t :=
  let results :=
    if parallel && (1 <? length queries)%nat
    then _crawl_parallel self net as_completed queries
    else _crawl_sequential self net queries in
  let total_items := sum_total_items results in
  CrawlBatchResult.mk (existsb CrawlResult.success results) results total_items.

End CrawlerManager.

(* ===================================================================== *)
(** * crawler/data_normalizer.py *)
(* ===================================================================== *)

(** The dictionary [_normalize_item] builds: its keys whose value is
    [None] are removed, so an absent key is [None] here. *)
Module Normalized.
Record t : Type := mk {
  item_id : str;
  source_site : str;
  title : str;
  description : option str;
  url : str;
  price : option Q;
  price_text : option str;
  price_type : option str;
  location : option str;
  city : option str;
  district : option str;
  images : list str;
  thumbnail : option str;
  properties : list (str * PyVal);
  goal_id : option Z;
  confidence_score : Q;
  completeness_score : Q;
  crawled_at : Z
}.
End Normalized.

(** The dictionary [normalize_batch] returns; ['success'] is always [True]
    and ['normalization_applied'] always [True], and the timestamp is a
    reading of the clock. *)
Module NormalizedBatch.
Record t : Type := mk {
  success : bool;
  total_items : Z;
  items : list Normalized.t;
  sources : list str;
  normalization_applied : bool;
  duplicates_removed : Z
}.
End NormalizedBatch.

Module DataNormalizer.

Definition truthy_opt_str (s : option str) : bool :=
  match s with Some v => truthy v | None => false end.

(** [_normalize_text(text)] *)
Definition _normalize_text (text : str) : str :=
  if negb (truthy text) then []
  else strip (join (py " ") (split text)).

(** [_normalize_location(location)] *)
Definition _normalize_location (location : str) : str :=
  if negb (truthy location) then []
  else
    let location_map :=
      [(py "تهران", py "تهران"); (py "tehran", py "تهران");
       (py "tehran city", py "تهران")] in
    let location_lower := lower location in
    match List.find (fun kv => str_eqb (fst kv) location_lower) location_map with
    | Some kv => snd kv
    | None => strip location
    end.

(** [_calculate_completeness(item)] *)
Definition _calculate_completeness (item : CrawledItem.t) : Q :=
  let score := 0%Q in
  let max_score := 10%Q in
  (* Required fields *)
  let score := if truthy (CrawledItem.title item) then (score + 1)%Q else score in
  let score := if truthy (CrawledItem.url item) then (score + 1)%Q else score in
  let score :=
    if truthy_opt_float (CrawledItem.price item) || truthy_opt_str (CrawledItem.price_text item)
    then (score + 1.5)%Q else score in
  (* Important fields *)
  let score := if truthy_opt_str (CrawledItem.location item) then (score + 1)%Q else score in
  let score :=
    match CrawledItem.images item with _ :: _ => (score + 1)%Q | [] => score end in
  let score :=
    if truthy_opt_str (CrawledItem.description item) then (score + 0.5)%Q else score in
  (* Additional fields *)
  let score := if truthy_opt_str (CrawledItem.city item) then (score + 0.5)%Q else score in
  let score := if truthy_opt_str (CrawledItem.district item) then (score + 0.5)%Q else score in
  let score :=
    match CrawledItem.properties item with _ :: _ => (score + 1)%Q | [] => score end in
  py_min (score / max_score) 1.

(** [_normalize_item(item)].  On a validated item nothing in the body
    raises, so the [except] branch, which returns [None], is not taken. *)
Definition _normalize_item (item : CrawledItem.t) : option Normalized.t :=
  Some
    (Normalized.mk
       (CrawledItem.item_id item)
       (CrawledItem.source_site item)
       (_normalize_text (CrawledItem.title item))
       (if truthy_opt_str (CrawledItem.description item)
        then _normalize_text <$> CrawledItem.description item else None)
       (CrawledItem.url item)
       (CrawledItem.price item)
       (CrawledItem.price_text item)
       (CrawledItem.price_type item)
       (if truthy_opt_str (CrawledItem.location item)
        then _normalize_location <$> CrawledItem.location item else None)
       (CrawledItem.city item)
       (CrawledItem.district item)
       (CrawledItem.images item)
       (CrawledItem.thumbnail item)
       (CrawledItem.properties item)
       (CrawledItem.goal_id item)
       (CrawledItem.confidence_score item)
       (_calculate_completeness item)
       (CrawledItem.crawled_at item)).

(** The items of the successful results, in the order of the results. *)
Definition collect_items (batch_result : CrawlBatchResult.t) : list CrawledItem.t :=
  flat_map (fun result =>
              if CrawlResult.success result then CrawlResult.items result else [])
           (CrawlBatchResult.results batch_result).

(** The loop over [all_items]: an item whose url was seen is skipped, the
    others are recorded in [seen_urls] and normalized. *)
Fixpoint normalize_loop (seen_urls : gset str) (all_items : list CrawledItem.t)
    : list Normalized.t :=
  match all_items with
  | [] => []
  | item :: rest =>
      if decide (CrawledItem.url item ∈ seen_urls) then normalize_loop seen_urls rest
      else
        let seen_urls := {[CrawledItem.url item]} ∪ seen_urls in
        match _normalize_item item with
        | Some normalized => normalized :: normalize_loop seen_urls rest
        | None => normalize_loop seen_urls rest
        end
  end.

(** The order of the sort key [(confidence_score, completeness_score)]. *)
Definition quality_ltb (a b : Normalized.t) : bool :=
  Qltb (Normalized.confidence_score a) (Normalized.confidence_score b)
  || Qeq_bool (Normalized.confidence_score a) (Normalized.confidence_score b)
     && Qltb (Normalized.completeness_score a) (Normalized.completeness_score b).

(** [normalize_batch(batch_result)]; [so] enumerates the set of sources. *)
Definition normalize_batch (so : SetOrder) (batch_result : CrawlBatchResult.t)
    : NormalizedBatch.t :=
  let all_items := collect_items batch_result in
  let normalized_items := normalize_loop ∅ all_items in
  let normalized_items := sorted_desc quality_ltb normalized_items in
  NormalizedBatch.mk true
    (Z.of_nat (length normalized_items))
    normalized_items
    (enumerate so (remove_dups (map Normalized.source_site normalized_items)))
    true
    (Z.of_nat (length all_items) - Z.of_nat (length normalized_items))%Z.

End DataNormalizer.

(* ===================================================================== *)
(** * chatbot/query_generator.py *)
(* ===================================================================== *)

(** The [value] of the members of the enumerations. *)
Definition SearchGoalType_value (t : SearchGoalType) : str :=
  match t with
  | RESIDENTIAL_RENT => py "residential_rent"
  | RESIDENTIAL_PURCHASE => py "residential_purchase"
  | VEHICLE_PURCHASE => py "vehicle_purchase"
  | VEHICLE_LEASE => py "vehicle_lease"
  | ELECTRONICS => py "electronics"
  | GENERAL => py "general"
  end.

Definition BudgetSource_value (b : BudgetSource) : str :=
  match b with
  | LIQUIDITY => py "liquidity"
  | LOAN => py "loan"
  | LIQUIDITY_LOAN => py "liquidity + loan"
  | MONTHLY_PAYMENT => py "monthly_payment"
  end.

Definition Priority_value (p : Priority) : str :=
  match p with
  | HIGH => py "high"
  | MEDIUM => py "medium"
  | LOW => py "low"
  end.

(** [int(x)] of a float: the integer part, rounded towards zero. *)
Definition py_int (x : Q) : Z := if Qltb x 0 then Qceiling x else Qfloor x.

(** An [int] as a value of type [Any]. *)
Definition VInt (z : Z) : PyVal := VNum (inject_Z z).

Module SearchQuery.
Record t : Type := mk {
  site_name : str;
  goal_id : Z;
  search_type : str;
  filters : list (str * PyVal);
  priority : Z;
  metadata : list (str * PyVal)
}.
End SearchQuery.

(** One entry of the list ['queries'] of [generate_query_json]. *)
Module QueryDict.
Record t : Type := mk {
  site : str;
  goal_id : Z;
  search_type : str;
  filters : list (str * PyVal);
  priority : Z;
  metadata : list (str * PyVal)
}.
End QueryDict.

(** The dictionary [generate_query_json] returns. *)
Module QueryJson.
Record t : Type := mk {
  queries : list QueryDict.t;
  total_queries : Z;
  sites : list str
}.
End QueryJson.

Module QueryGenerator.

(** [site_mappings]: for every site the goal types it supports and its
    search fields, in the order of the dictionary. *)
Definition site_mappings : list (str * (list SearchGoalType * list str)) :=
  [(py "divar",
    ([RESIDENTIAL_RENT; RESIDENTIAL_PURCHASE; VEHICLE_PURCHASE],
     [py "category"; py "location"; py "price_min"; py "price_max"; py "rent_type"]));
   (py "sheypoor",
    ([RESIDENTIAL_RENT; RESIDENTIAL_PURCHASE; VEHICLE_PURCHASE],
     [py "category"; py "location"; py "price_min"; py "price_max"]));
   (py "bama",
    ([VEHICLE_PURCHASE; VEHICLE_LEASE],
     [py "vehicle_type"; py "price_min"; py "price_max"; py "lease_monthly"]));
   (py "torob",
    ([ELECTRONICS; GENERAL],
     [py "product_name"; py "price_min"; py "price_max"]));
   (py "digikala",
    ([ELECTRONICS; GENERAL],
     [py "product_name"; py "price_min"; py "price_max"]))].

(** [filters[key] = value] when [cond] holds. *)
Definition set_if (cond : bool) (key : str) (value : PyVal)
    (filters : list (str * PyVal)) : list (str * PyVal) :=
  if cond then dict_set key value filters else filters.

(** [_build_real_estate_filters(goal, user_profile)] *)
Definition _build_real_estate_filters (goal : SearchGoal) : list (str * PyVal) :=
  let filters := [] in
  (* Location *)
  let filters :=
    set_if (truthy (target_location goal)) (py "location") (VStr (target_location goal))
      filters in
  (* Price range *)
  let filters :=
    set_if (truthy_opt_float (max_price goal)) (py "price_max")
      (VInt (py_int (default 0%Q (max_price goal)))) filters in
  let filters :=
    if truthy_opt_float (min_price goal) then
      dict_set (py "price_min") (VInt (py_int (default 0%Q (min_price goal)))) filters
    else if truthy_opt_float (max_price goal) then
      dict_set (py "price_min") (VInt (py_int (default 0%Q (max_price goal) * 0.8)%Q)) filters
    else filters in
  (* Search type (rent/purchase) *)
  match type goal with
  | RESIDENTIAL_RENT =>
      let filters := dict_set (py "category") (VStr (py "apartment-rent")) filters in
      if contains (py "رهن کامل") (search_type goal)
      then dict_set (py "rent_type") (VStr (py "full_deposit")) filters
      else dict_set (py "rent_type") (VStr (py "deposit_rent")) filters
  | RESIDENTIAL_PURCHASE =>
      dict_set (py "category") (VStr (py "apartment-sell")) filters
  | _ => filters
  end.

(** [_build_vehicle_filters(goal, user_profile)] *)
Definition _build_vehicle_filters (goal : SearchGoal) : list (str * PyVal) :=
  let filters := [] in
  let filters :=
    set_if (truthy_opt_float (max_price goal)) (py "price_max")
      (VInt (py_int (default 0%Q (max_price goal)))) filters in
  let filters :=
    set_if (truthy_opt_float (min_price goal)) (py "price_min")
      (VInt (py_int (default 0%Q (min_price goal)))) filters in
  let filters :=
    set_if (truthy_opt_float (max_monthly_lease_payment goal)) (py "lease_monthly_max")
      (VInt (py_int (default 0%Q (max_monthly_lease_payment goal)))) filters in
  match type goal with
  | VEHICLE_LEASE => dict_set (py "search_type") (VStr (py "lease")) filters
  | _ => dict_set (py "search_type") (VStr (py "purchase")) filters
  end.

(** [_build_product_filters(goal, user_profile)] *)
Definition _build_product_filters (goal : SearchGoal) : list (str * PyVal) :=
  let filters := [] in
  let filters :=
    set_if (truthy_opt_float (max_price goal)) (py "price_max")
      (VInt (py_int (default 0%Q (max_price goal)))) filters in
  let filters :=
    set_if (truthy_opt_float (min_price goal)) (py "price_min")
      (VInt (py_int (default 0%Q (min_price goal)))) filters in
  let product_name := dict_get (py "product_name") (additional_filters goal) [] in
  set_if (truthy product_name) (py "product_name") (VStr product_name) filters.

(** [_map_search_type(site, goal)] *)
Definition _map_search_type (site : str) (goal : SearchGoal) : str :=
  if str_eqb site (py "divar") || str_eqb site (py "sheypoor") then
    match type goal with
    | RESIDENTIAL_RENT => py "rent"
    | RESIDENTIAL_PURCHASE => py "purchase"
    | _ => py "general"
    end
  else if str_eqb site (py "bama") then
    match type goal with
    | VEHICLE_LEASE => py "lease"
    | _ => py "purchase"
    end
  else py "general".

(** The integer priority of a query. *)
Definition priority_level (p : Priority) : Z :=
  if str_eqb (Priority_value p) (py "high") then 3%Z
  else if str_eqb (Priority_value p) (py "medium") then 2%Z
  else 1%Z.

(** [_build_site_query(site, goal, user_profile)]; [None] when the site
    gets no filter. *)
Definition _build_site_query (site : str) (goal : SearchGoal) : option SearchQuery.t :=
  let filters :=
    if str_eqb site (py "divar") || str_eqb site (py "sheypoor")
    then _build_real_estate_filters goal
    else if str_eqb site (py "bama") then _build_vehicle_filters goal
    else if str_eqb site (py "torob") || str_eqb site (py "digikala")
    then _build_product_filters goal
    else [] in
  match filters with
  | [] => None
  | _ :: _ =>
      Some (SearchQuery.mk site (goal_id goal) (_map_search_type site goal) filters
              (priority_level (priority goal))
              [(py "goal_type", VStr (SearchGoalType_value (type goal)));
               (py "target_location", VStr (target_location goal));
               (py "budget_source", VStr (BudgetSource_value (budget_source goal)))])
  end.

(** The sites whose ['supports'] holds the type of the goal. *)
Definition supported_sites (goal : SearchGoal) : list str :=
  map fst
    (List.filter (fun entry => bool_decide (type goal ∈ fst (snd entry))) site_mappings).

(** [_generate_queries_for_goal(goal, user_profile)] *)
Definition _generate_queries_for_goal (goal : SearchGoal) : list SearchQuery.t :=
  omap (fun site => _build_site_query site goal) (supported_sites goal).

(** Queries are ordered by their priority. *)
Definition priority_ltb (a b : SearchQuery.t) : bool :=
  (SearchQuery.priority a <? SearchQuery.priority b)%Z.

(** [generate_queries(structured_query)] *)
Definition generate_queries (structured_query : StructuredQuery) : list SearchQuery.t :=
  let all_queries := flat_map _generate_queries_for_goal (search_goals structured_query) in
  sorted_desc priority_ltb all_queries.

(** [generate_query_json(search_queries)]; [so] enumerates the set of sites. *)
Definition generate_query_json (so : SetOrder) (search_queries : list SearchQuery.t)
    : QueryJson.t :=
  QueryJson.mk
    (map (fun query =>
            QueryDict.mk (SearchQuery.site_name query) (SearchQuery.goal_id query)
              (SearchQuery.search_type query) (SearchQuery.filters query)
              (SearchQuery.priority query) (SearchQuery.metadata query))
         search_queries)
    (Z.of_nat (length search_queries))
    (enumerate so (remove_dups (map SearchQuery.site_name search_queries))).

End QueryGenerator.

(* ===================================================================== *)
(** * The rest of chatbot/engine.py and crawler/crawler_manager.py *)
(* ===================================================================== *)



(** [CrawlerManager.crawl_from_query_json(query_json, normalize)]: the
    normalized dictionary, or the fields of the raw batch. *)
Definition crawl_requests (query_json : QueryJson.t) : list CrawlQuery :=
  map (fun query =>
         mkCrawlQuery (QueryDict.site query) (QueryDict.filters query)
           (Some (QueryDict.goal_id query)))
      (QueryJson.queries query_json).

Definition crawl_from_query_json (self : CrawlerManager.t) (net : Network)
    (as_completed so : SetOrder) (query_json : QueryJson.t) (normalize : bool)
    : NormalizedBatch.t + CrawlBatchResult.t :=
  let crawl_queries := crawl_requests query_json in
  let batch_result := CrawlerManager.crawl_batch self net as_completed crawl_queries true in
  if normalize then inl (DataNormalizer.normalize_batch so batch_result)
  else inr batch_result.

(* ===================================================================== *)
(** * integration.py *)
(* ===================================================================== *)

(** The dictionary [_generate_summary] returns.  Its ['execution_time'] is
    read under the key ['metadata'] of the crawl results, where neither
    form of the results has it, and is the default of the lookup. *)
Module Summary.
Record t : Type := mk {
  user_budget : option Q;
  total_items_found : Z;
  sources_crawled : list str;
  confidence : Q;
  execution_time : Z
}.
End Summary.


Module SEDEIntegration.



End SEDEIntegration.

(* ===================================================================== *)
(** * Vocabulary of the properties and sample data *)
(* ===================================================================== *)

(** The sum of the weights before the division: at most 8. *)
Definition completeness_points (item : CrawledItem.t) : Q :=
  ((if truthy (CrawledItem.title item) then 1 else 0)
   + (if truthy (CrawledItem.url item) then 1 else 0)
   + (if truthy_opt_float (CrawledItem.price item)
         || DataNormalizer.truthy_opt_str (CrawledItem.price_text item) then 1.5 else 0)
   + (if DataNormalizer.truthy_opt_str (CrawledItem.location item) then 1 else 0)
   + (match CrawledItem.images item with _ :: _ => 1 | [] => 0 end)
   + (if DataNormalizer.truthy_opt_str (CrawledItem.description item) then 0.5 else 0)
   + (if DataNormalizer.truthy_opt_str (CrawledItem.city item) then 0.5 else 0)
   + (if DataNormalizer.truthy_opt_str (CrawledItem.district item) then 0.5 else 0)
   + (match CrawledItem.properties item with _ :: _ => 1 | [] => 0 end))%Q.

(** The fetch step of a crawl gave no page content: the url was built and
    [fetch_page] returned [None] or an empty page. *)
Definition fetch_gave_nothing (c : BaseCrawler.t) (net : Network)
    (filters : list (str * PyVal)) : Prop :=
  exists url html_content,
    BaseCrawler.build_search_url c filters = Ok url
    /\ BaseCrawler.fetch_page c net url = Ok html_content
    /\ truthy (default [] html_content) = false.

(** An exception left one of the steps around the fetch and reached the
    [except] branch of [crawl]. *)
Definition step_raised (c : BaseCrawler.t) (net : Network)
    (filters : list (str * PyVal)) (e : string) : Prop :=
  BaseCrawler.build_search_url c filters = Raise e
  \/ (exists url, BaseCrawler.build_search_url c filters = Ok url
                  /\ BaseCrawler.fetch_page c net url = Raise e)
  \/ (exists url html,
        BaseCrawler.build_search_url c filters = Ok url
        /\ BaseCrawler.fetch_page c net url = Ok (Some html)
        /\ truthy html = true
        /\ BaseCrawler.extract_items c html = Raise e).

(** A crawler whose extraction raises, and a network that serves a page. *)
Definition crawler_extract_raises : BaseCrawler.t :=
  BaseCrawler.mk (py "site-x") false 3
    (fun _ => Ok (py "https://site-x.example/s"))
    (fun _ => Raise "boom")
    (fun _ _ => Raise "unused").

Definition network_ok : Network :=
  mkNetwork (fun _ _ => Ok (py "<html></html>")) (Raise "no browser").

(** The selection as the specification words it: ["only"] the loan, or
    ["only"] the monthly payment, is positive. *)
Definition spec_budget_source (p : UserProfile) : BudgetSource :=
  let liq := Qgtb (liquidity p) 0 in
  let loan := Qgtb (loan_amount p) 0 in
  let monthly := Qgtb (max_monthly_payment p) 0 in
  if liq && loan then LIQUIDITY_LOAN
  else if loan && negb liq && negb monthly then LOAN
  else if monthly && negb liq && negb loan then MONTHLY_PAYMENT
  else LIQUIDITY.

(** The unit tests of [_normalize_money], in their order. *)
Definition unit_thousand (unit : str) : bool :=
  contains (py "هزار") (lower unit) || contains (py "k") (lower unit).

Definition unit_billion (unit : str) : bool :=
  contains (py "میلیارد") (lower unit) || contains (py "b") (lower unit).

(** The normalized form of an item: what [_normalize_item] returns. *)
Definition normalized (item : CrawledItem.t) : Normalized.t :=
  default (Normalized.mk [] [] [] None [] None None None None None None [] None [] None 0 0 0)
          (DataNormalizer._normalize_item item).

(** The items the loop keeps: those whose url was not seen before. *)
Fixpoint kept (seen_urls : gset str) (all_items : list CrawledItem.t) : list CrawledItem.t :=
  match all_items with
  | [] => []
  | item :: rest =>
      if decide (CrawledItem.url item ∈ seen_urls) then kept seen_urls rest
      else item :: kept ({[CrawledItem.url item]} ∪ seen_urls) rest
  end.

(** A dictionary of scores as [classify] builds it: no key is [UNKNOWN]
    and every score is positive. *)
Definition positive_scores (d : list (IntentType * Q)) : Prop :=
  Forall (fun p => fst p <> UNKNOWN /\ (0 < snd p)%Q) d.

(** The guard at the head of [classify]. *)
Definition long_enough (text : str) : bool :=
  truthy text && (2 <=? len (strip text))%nat.

(** Two adjacent characters that are not spaces survive [strip]. *)
Definition adjacent_nonspace (text : str) : Prop :=
  exists pre a b post,
    text = pre ++ a :: b :: post /\ is_space a = false /\ is_space b = false.

(** The first two characters of a keyword are not spaces. *)
Definition keyword_head_ok (keyword : str) : bool :=
  match keyword with
  | a :: b :: _ => negb (is_space a) && negb (is_space b)
  | _ => false
  end.

(** The first two items of a pattern, when both are literal characters. *)
Definition leading2 (r : Re.regex) : option (N * N) :=
  match r with
  | Re.RCat (Re.RChar a) (Re.RCat (Re.RChar b) _) => Some (a, b)
  | _ => None
  end.

(** A pattern starts with two literal characters that are not spaces. *)
Definition pattern_head_ok (pattern : str) : bool :=
  match Re.compile pattern with
  | Some r =>
      match leading2 r with
      | Some (a, b) => negb (is_space (lower_char a)) && negb (is_space (lower_char b))
      | None => false
      end
  | None => false
  end.

(** An intent keyword occurs in the text, or an intent pattern matches it. *)
Definition keyword_match (text : str) : Prop :=
  exists intent keywords keyword,
    (intent, keywords) ∈ IntentClassifier.intent_keywords
    /\ keyword ∈ keywords
    /\ contains keyword (lower text) = true.

Definition pattern_match (text : str) : Prop :=
  exists intent pats pattern,
    (intent, pats) ∈ IntentClassifier.patterns
    /\ pattern ∈ pats
    /\ Re.search pattern text true = true.

(** An item as a site adapter produces it. *)
Definition sample_item (site_name item_id url : str) (confidence : Q) : CrawledItem.t :=
  CrawledItem.mk item_id site_name (py "آپارتمان") None url (Some 600%Q) None None
    (Some (py "تهران")) None None [] None [] 0 (Some 1%Z) confidence 1.

Definition item_a : CrawledItem.t :=
  sample_item (py "divar") (py "a1") (py "https://example.ir/v/1") 0.9.
Definition item_c : CrawledItem.t :=
  sample_item (py "divar") (py "a2") (py "https://example.ir/v/2") 0.9.
Definition item_a' : CrawledItem.t :=
  sample_item (py "sheypoor") (py "s7") (py "https://example.ir/v/1") 0.8.

(** Two sources, one url in common. *)
Definition batch_with_duplicate : CrawlBatchResult.t :=
  CrawlBatchResult.mk true
    [CrawlResult.mk true (py "divar") [item_a; item_c] 2 [];
     CrawlResult.mk true (py "sheypoor") [item_a'] 1 []]
    3.

(** The same sources without the common url, in both orders. *)
Definition batch_distinct : CrawlBatchResult.t :=
  CrawlBatchResult.mk true
    [CrawlResult.mk true (py "divar") [item_a; item_c] 2 [];
     CrawlResult.mk false (py "sheypoor") [] 0 ["Failed to fetch page content"%string]]
    2.

Definition batch_distinct_swapped : CrawlBatchResult.t :=
  CrawlBatchResult.mk true
    [CrawlResult.mk false (py "sheypoor") [] 0 ["Failed to fetch page content"%string];
     CrawlResult.mk true (py "divar") [item_a; item_c] 2 []]
    2.

(** Scenario C: of two requests the first finds no page in three attempts,
    the second returns five records that all normalize. *)
Definition crawler_five : BaseCrawler.t :=
  BaseCrawler.mk (py "site-y") false 3
    (fun _ => Ok (py "https://site-y.example/s"))
    (fun _ => Ok (map (fun i => [(py "id", VNum (inject_Z i))]) [1; 2; 3; 4; 5]%Z))
    (fun raw goal_id =>
       match raw with
       | [(_, VNum i)] =>
           Ok (Some (sample_item (py "site-y") (py "y")
                       (py "https://site-y.example/v/" ++ [N.of_nat (Z.to_nat (Qfloor i)) + 48]%N)
                       0.9))
       | _ => Raise "unexpected record"
       end).

Definition crawler_unreachable : BaseCrawler.t :=
  BaseCrawler.mk (py "site-x") false 3
    (fun _ => Ok (py "https://site-x.example/s"))
    (fun _ => Ok [])
    (fun _ _ => Raise "unused").

Definition network_x_down : Network :=
  mkNetwork
    (fun url _ =>
       if str_eqb url (py "https://site-x.example/s") then Raise "timeout"
       else Ok (py "<html>...</html>"))
    (Raise "no browser").

Definition manager_xy : CrawlerManager.t :=
  CrawlerManager.mk
    (<[py "site-x" := crawler_unreachable]> (<[py "site-y" := crawler_five]> ∅)).

(** ** Vocabulary of the further properties *)

(** The intents that have keywords or patterns. *)
Definition scored_intents : list IntentType := [SEARCH; COMPARE; ADVICE; CALCULATE; GREETING].

(** A dictionary of scores whose keys are intents of the tables. *)
Definition keys_scored (d : list (IntentType * Q)) : Prop :=
  Forall (fun p => fst p ∈ scored_intents) d.



(** The keyword tests of [extract_search_type]. *)
Definition rent_keyword (text : str) : bool :=
  EntityExtractor.any_in [py "رهن"; py "اجاره"; py "رهن کامل"] (lower text).

Definition purchase_keyword (text : str) : bool :=
  EntityExtractor.any_in [py "خرید"; py "تهیه"; py "بگیرم"] (lower text).

Definition vehicle_keyword (text : str) : bool :=
  EntityExtractor.any_in [py "ماشین"; py "خودرو"; py "اتومبیل"] (lower text).

Definition lease_keyword (text : str) : bool :=
  EntityExtractor.any_in [py "لیزینگ"; py "قسط"; py "اقساط"] (lower text).

(** The two vehicle words the lease rule looks for. *)
Definition car_word (text : str) : bool :=
  contains (py "ماشین") (lower text) || contains (py "خودرو") (lower text).

(** The first match of a pattern in a text, if any. *)
Definition first_match (pattern text : str) : option Re.Match :=
  head (Re.finditer pattern text true).

(** The locations the goals are built for: the detected ones, or the
    empty location when none was detected. *)
Definition goal_locations (e : Entities) : list str :=
  match locations e with
  | [] => [[]]
  | l => l
  end.

(** The goal [build_search_goals] builds at position [i] for a location. *)
Definition goal_at (e : Entities) (p : UserProfile) (i : nat) (location : str) : SearchGoal :=
  mkSearchGoal (Z.of_nat i + 1) (default GENERAL (si_type (e_search_type e))) location
    (EntityExtractor.select_budget_source p)
    (if (i =? 0)%nat then HIGH else MEDIUM)
    (si_search_type (e_search_type e)) None
    (if Qgtb (total_budget p) 0 then Some (total_budget p) else None)
    (if Qgtb (max_monthly_payment p) 0 then Some (max_monthly_payment p) else None)
    [].

(** A goal gives a real-estate site something to filter on besides its
    category: a location or a price. *)
Definition location_or_price (goal : SearchGoal) : bool :=
  truthy (target_location goal) || truthy_opt_float (max_price goal)
  || truthy_opt_float (min_price goal).

(** A goal gives a product site something to filter on: a price or a
    product name. *)
Definition price_or_product (goal : SearchGoal) : bool :=
  truthy_opt_float (max_price goal) || truthy_opt_float (min_price goal)
  || truthy (dict_get (py "product_name") (additional_filters goal) []).

(** The sites that get a query for a goal, in the order of the table. *)
Definition queried_sites (goal : SearchGoal) : list str :=
  match type goal with
  | RESIDENTIAL_RENT | RESIDENTIAL_PURCHASE => [py "divar"; py "sheypoor"]
  | VEHICLE_PURCHASE =>
      (if location_or_price goal then [py "divar"; py "sheypoor"] else []) ++ [py "bama"]
  | VEHICLE_LEASE => [py "bama"]
  | ELECTRONICS | GENERAL =>
      if price_or_product goal then [py "torob"; py "digikala"] else []
  end.

(** The sites a goal without a detected type is sent to: the two product
    sites when there is a budget, none otherwise. *)
Definition untyped_goal_sites (p : UserProfile) : list str :=
  if Qgtb (total_budget p) 0 then [py "torob"; py "digikala"] else [].

(** The first collected item that has a given url. *)
Definition first_with_url (url : str) (all_items : list CrawledItem.t)
    : option CrawledItem.t :=
  List.find (fun item => bool_decide (CrawledItem.url item = url)) all_items.

(** [a] may stand before [b] in the sorted items: its key
    [(confidence_score, completeness_score)] is not below the key of [b]. *)
Definition quality_ge (a b : Normalized.t) : Prop :=
  (Normalized.confidence_score b < Normalized.confidence_score a)%Q
  \/ (Normalized.confidence_score a == Normalized.confidence_score b
      /\ Normalized.completeness_score b <= Normalized.completeness_score a)%Q.

(** The items whose key is [(confidence, completeness)]. *)
Definition has_quality (confidence completeness : Q) (item : Normalized.t) : bool :=
  Qeq_bool (Normalized.confidence_score item) confidence
  && Qeq_bool (Normalized.completeness_score item) completeness.

(** A word: a non-empty string without white space. *)
Definition word (w : str) : Prop := w <> [] /\ Forall (fun c => is_space c = false) w.

(** A string that neither starts nor ends with white space. *)
Definition trimmed (s : str) : Prop :=
  (forall c rest, s = c :: rest -> is_space c = false)
  /\ (forall c rest, reverse s = c :: rest -> is_space c = false).

(** [a] may stand before [b] in a list sorted by [sorted_desc]: the key of
    [a] is not below the key of [b]. *)
Definition not_below {A : Type} (key_ltb : A -> A -> bool) (a b : A) : Prop :=
  key_ltb a b = false.

(* ===================================================================== *)
(** * Properties *)
(* ===================================================================== *)

(** ** Floats *)

Lemma Qltb_lt (x y : Q) : Qltb x y = true <-> (x < y)%Q.
Proof.
  unfold Qltb. rewrite negb_true_iff, <- not_true_iff_false, Qle_bool_iff.
  split; [apply Qnot_le_lt | apply Qlt_not_le].
Qed.

Lemma Qltb_ge (x y : Q) : Qltb x y = false <-> (y <= x)%Q.
Proof. unfold Qltb. rewrite negb_false_iff. apply Qle_bool_iff. Qed.

Lemma Qgtb_gt (x y : Q) : Qgtb x y = true <-> (y < x)%Q.
Proof. apply Qltb_lt. Qed.

Lemma Qgtb_le (x y : Q) : Qgtb x y = false <-> (x <= y)%Q.
Proof. apply Qltb_ge. Qed.

Lemma py_min_le_l (x y : Q) : (py_min x y <= x)%Q.
Proof.
  unfold py_min. destruct (Qltb y x) eqn:E.
  - apply Qltb_lt in E. lra.
  - lra.
Qed.

Lemma py_min_le_r (x y : Q) : (py_min x y <= y)%Q.
Proof.
  unfold py_min. destruct (Qltb y x) eqn:E.
  - lra.
  - apply Qltb_ge in E. lra.
Qed.

Lemma py_min_glb (x y z : Q) : (z <= x)%Q -> (z <= y)%Q -> (z <= py_min x y)%Q.
Proof. unfold py_min. destruct (Qltb y x); auto. Qed.

(** ** C10: the completeness score *)

Lemma completeness_points_le_8 (item : CrawledItem.t) :
  (0 <= completeness_points item <= 8)%Q.
Proof.
  unfold completeness_points.
  destruct (truthy (CrawledItem.title item)), (truthy (CrawledItem.url item)),
    (truthy_opt_float (CrawledItem.price item)
     || DataNormalizer.truthy_opt_str (CrawledItem.price_text item)),
    (DataNormalizer.truthy_opt_str (CrawledItem.location item)),
    (CrawledItem.images item),
    (DataNormalizer.truthy_opt_str (CrawledItem.description item)),
    (DataNormalizer.truthy_opt_str (CrawledItem.city item)),
    (DataNormalizer.truthy_opt_str (CrawledItem.district item)),
    (CrawledItem.properties item); lra.
Qed.

Lemma _calculate_completeness_points (item : CrawledItem.t) :
  (DataNormalizer._calculate_completeness item
   == py_min (completeness_points item / 10) 1)%Q.
Proof.
  unfold DataNormalizer._calculate_completeness, completeness_points.
  destruct (truthy (CrawledItem.title item)), (truthy (CrawledItem.url item)),
    (truthy_opt_float (CrawledItem.price item)
     || DataNormalizer.truthy_opt_str (CrawledItem.price_text item)),
    (DataNormalizer.truthy_opt_str (CrawledItem.location item)),
    (CrawledItem.images item),
    (DataNormalizer.truthy_opt_str (CrawledItem.description item)),
    (DataNormalizer.truthy_opt_str (CrawledItem.city item)),
    (DataNormalizer.truthy_opt_str (CrawledItem.district item)),
    (CrawledItem.properties item); reflexivity.
Qed.

(** C10. For every crawled item the recomputed completeness score is at
    most 0.8, the largest sum of weights (8) over the denominator 10; so
    the score never reaches 1. *)
Theorem C10_completeness_at_most_0_8 (item : CrawledItem.t) :
  (DataNormalizer._calculate_completeness item <= 0.8)%Q
  /\ (DataNormalizer._calculate_completeness item < 1)%Q.
Proof.
  assert (H : (DataNormalizer._calculate_completeness item <= 0.8)%Q).
  { rewrite _calculate_completeness_points.
    pose proof (completeness_points_le_8 item) as [_ H8].
    eapply Qle_trans; [apply py_min_le_l|].
    apply Qle_shift_div_r; lra. }
  split; [exact H | lra].
Qed.

(** ** C5: the result of a batch *)

Lemma sum_total_items_perm (l1 l2 : list CrawlResult.t) :
  l1 ≡ₚ l2 -> CrawlerManager.sum_total_items l1 = CrawlerManager.sum_total_items l2.
Proof.
  induction 1 as [| x l l' _ IH | x y l | l l' l'' _ IH1 _ IH2]; simpl.
  - reflexivity.
  - now rewrite IH.
  - lia.
  - now rewrite IH1.
Qed.

Lemma existsb_success_perm (l1 l2 : list CrawlResult.t) :
  l1 ≡ₚ l2 -> existsb CrawlResult.success l1 = existsb CrawlResult.success l2.
Proof.
  induction 1 as [| x l l' _ IH | x y l | l l' l'' _ IH1 _ IH2]; simpl.
  - reflexivity.
  - now rewrite IH.
  - now destruct (CrawlResult.success x), (CrawlResult.success y).
  - now rewrite IH1.
Qed.

(** Whichever path runs, the results of a batch are the results of its
    requests, one each, in some order. *)
Lemma crawl_batch_results (self : CrawlerManager.t) (net : Network)
    (as_completed : SetOrder) (queries : list CrawlQuery) (parallel : bool) :
  CrawlBatchResult.results
    (CrawlerManager.crawl_batch self net as_completed queries parallel)
  ≡ₚ CrawlerManager._crawl_sequential self net queries.
Proof.
  unfold CrawlerManager.crawl_batch; simpl.
  destruct (parallel && (1 <? length queries)%nat).
  - apply enumerate_perm.
  - reflexivity.
Qed.

(** Every result of a crawl counts its own items. *)
Lemma crawl_total_items (c : BaseCrawler.t) (net : Network)
    (filters : list (str * PyVal)) (goal_id : option Z) :
  CrawlResult.total_items (BaseCrawler.crawl c net filters goal_id)
  = Z.of_nat (length (CrawlResult.items (BaseCrawler.crawl c net filters goal_id))).
Proof.
  unfold BaseCrawler.crawl, BaseCrawler.crawl_failed.
  destruct (BaseCrawler.build_search_url c filters) as [u|e]; [|reflexivity].
  destruct (BaseCrawler.fetch_page c net u) as [h|e]; [|reflexivity].
  destruct (negb (truthy (default [] h))); [reflexivity|].
  destruct (BaseCrawler.extract_items c (default [] h)) as [raws|e]; [|reflexivity].
  destruct (BaseCrawler.normalize_all c raws goal_id); reflexivity.
Qed.

(** C5. For every list of site requests, sequential or parallel and
    whatever the order in which the pool completes them, [crawl_batch]
    returns a batch whose [success] is true exactly when one of its
    constituent results has [success = true], and whose [total_items] is the
    sum of the [total_items] of its constituent results; these results are
    the results of the requests, so both also hold of the results taken in
    the order of the requests. *)
Theorem C5_crawl_batch_success_and_total (self : CrawlerManager.t) (net : Network)
    (as_completed : SetOrder) (queries : list CrawlQuery) (parallel : bool) :
  let batch := CrawlerManager.crawl_batch self net as_completed queries parallel in
  let per_request :=
    map (fun q => CrawlerManager.crawl_site self net (site q) (filters q) (q_goal_id q))
        queries in
  (CrawlBatchResult.success batch = true
   <-> exists r, r ∈ CrawlBatchResult.results batch /\ CrawlResult.success r = true)
  /\ (CrawlBatchResult.success batch = true
      <-> exists r, r ∈ per_request /\ CrawlResult.success r = true)
  /\ CrawlBatchResult.total_items batch
     = foldr Z.add 0%Z (map CrawlResult.total_items (CrawlBatchResult.results batch))
  /\ CrawlBatchResult.total_items batch
     = foldr Z.add 0%Z (map CrawlResult.total_items per_request).
Proof.
  intros batch per_request.
  pose proof (crawl_batch_results self net as_completed queries parallel) as Hperm.
  fold batch in Hperm. change (CrawlerManager._crawl_sequential self net queries)
    with per_request in Hperm.
  assert (Hex : forall l : list CrawlResult.t,
             existsb CrawlResult.success l = true
             <-> exists r, r ∈ l /\ CrawlResult.success r = true).
  { intros l. rewrite existsb_exists. setoid_rewrite list_elem_of_In. reflexivity. }
  assert (Hsum : forall l : list CrawlResult.t,
             CrawlerManager.sum_total_items l
             = foldr Z.add 0%Z (map CrawlResult.total_items l)).
  { induction l as [|x l IH]; simpl; [reflexivity | now rewrite <- IH]. }
  assert (Hs : CrawlBatchResult.success batch
               = existsb CrawlResult.success (CrawlBatchResult.results batch))
    by reflexivity.
  assert (Ht : CrawlBatchResult.total_items batch
               = CrawlerManager.sum_total_items (CrawlBatchResult.results batch))
    by reflexivity.
  repeat split.
  - rewrite Hs. apply Hex.
  - rewrite Hs. apply Hex.
  - rewrite Hs, (existsb_success_perm _ _ Hperm). apply Hex.
  - rewrite Hs, (existsb_success_perm _ _ Hperm). apply Hex.
  - rewrite Ht. apply Hsum.
  - rewrite Ht, (sum_total_items_perm _ _ Hperm). apply Hsum.
Qed.

(** ** C2: the outcome of a single crawl *)

(** With [requests], no content means that every one of the [retry_times]
    attempts raised. *)
Lemma _fetch_with_requests_None (c : BaseCrawler.t) (net : Network) (url : str) :
  BaseCrawler._fetch_with_requests c net url = None
  <-> forall k, (k < BaseCrawler.retry_times c)%nat ->
                exists e, requests_get net url k = Raise e.
Proof.
  unfold BaseCrawler._fetch_with_requests.
  assert (G : forall n a,
             BaseCrawler._fetch_with_requests_from net url a n = None
             <-> forall k, (a <= k < a + n)%nat -> exists e, requests_get net url k = Raise e).
  { induction n as [|n IH]; intros a; simpl.
    - split; [intros _ k Hk; lia | reflexivity].
    - destruct (requests_get net url a) as [text|e] eqn:E.
      + split; [discriminate|]. intros H. destruct (H a) as [e He]; [lia|]. congruence.
      + rewrite IH. split; intros H k Hk.
        * destruct (decide (k = a)) as [->|Hne]; [eauto|]. apply H. lia.
        * apply H. lia. }
  rewrite G. split; intros H k Hk; apply H; lia.
Qed.

(** Two outcomes of the same call are the same outcome. *)
Ltac same_call :=
  repeat first
    [ progress simplify_eq/=
    | match goal with
      | H1 : ?x = _, H2 : ?x = _ |- _ => rewrite H1 in H2
      end ];
  try congruence; try done.

(** The five ways through [crawl]. *)
Lemma crawl_cases (c : BaseCrawler.t) (net : Network)
    (filters : list (str * PyVal)) (goal_id : option Z) :
  let r := BaseCrawler.crawl c net filters goal_id in
  (exists e, BaseCrawler.build_search_url c filters = Raise e
             /\ r = BaseCrawler.crawl_failed c e)
  \/ (exists url e,
        BaseCrawler.build_search_url c filters = Ok url
        /\ BaseCrawler.fetch_page c net url = Raise e
        /\ r = BaseCrawler.crawl_failed c e)
  \/ (exists url html_content,
        BaseCrawler.build_search_url c filters = Ok url
        /\ BaseCrawler.fetch_page c net url = Ok html_content
        /\ truthy (default [] html_content) = false
        /\ r = CrawlResult.mk false (BaseCrawler.site_name c) [] 0
                 ["Failed to fetch page content"%string])
  \/ (exists url html e,
        BaseCrawler.build_search_url c filters = Ok url
        /\ BaseCrawler.fetch_page c net url = Ok (Some html)
        /\ truthy html = true
        /\ BaseCrawler.extract_items c html = Raise e
        /\ r = BaseCrawler.crawl_failed c e)
  \/ (exists url html raw_items,
        BaseCrawler.build_search_url c filters = Ok url
        /\ BaseCrawler.fetch_page c net url = Ok (Some html)
        /\ truthy html = true
        /\ BaseCrawler.extract_items c html = Ok raw_items
        /\ r = CrawlResult.mk true (BaseCrawler.site_name c)
                 (fst (BaseCrawler.normalize_all c raw_items goal_id))
                 (Z.of_nat (length (fst (BaseCrawler.normalize_all c raw_items goal_id))))
                 (snd (BaseCrawler.normalize_all c raw_items goal_id))).
Proof.
  intros r. subst r. unfold BaseCrawler.crawl.
  destruct (BaseCrawler.build_search_url c filters) as [u|e] eqn:Hu; [|left; eauto].
  right.
  destruct (BaseCrawler.fetch_page c net u) as [h|e] eqn:Hf; [|left; eauto].
  right.
  destruct (truthy (default [] h)) eqn:Ht; simpl; [|left; eauto 10].
  right.
  assert (Hh : exists html, h = Some html /\ truthy html = true).
  { destruct h as [html|]; [eauto | discriminate]. }
  destruct Hh as (html & -> & Hth). simpl.
  destruct (BaseCrawler.extract_items c html) as [raws|e] eqn:He; [|left; eauto 10].
  right. exists u, html, raws.
  destruct (BaseCrawler.normalize_all c raws goal_id); simpl. auto.
Qed.

(** One message per record that failed to normalize, at most one item per
    other record. *)
Lemma normalize_all_lengths (c : BaseCrawler.t) (raw_items : list (list (str * PyVal)))
    (goal_id : option Z) :
  length (snd (BaseCrawler.normalize_all c raw_items goal_id))
  = length (List.filter
              (fun raw => negb (is_ok (BaseCrawler.normalize_item c raw goal_id)))
              raw_items)
  /\ (length (fst (BaseCrawler.normalize_all c raw_items goal_id))
      + length (snd (BaseCrawler.normalize_all c raw_items goal_id))
      <= length raw_items)%nat.
Proof.
  induction raw_items as [|raw raws [IH1 IH2]]; simpl; [split; [reflexivity|lia]|].
  destruct (BaseCrawler.normalize_all c raws goal_id) as [its errs]; simpl in *.
  destruct (BaseCrawler.normalize_item c raw goal_id) as [[it|]|e]; simpl; split; lia.
Qed.

(** C2, as stated, fails: the page was fetched at the first attempt and the
    crawl still has [success = false], because [extract_items] raised. *)
Lemma C2_counterexample_extract_raises :
  BaseCrawler.fetch_page crawler_extract_raises network_ok (py "https://site-x.example/s")
    = Ok (Some (py "<html></html>"))
  /\ CrawlResult.success (BaseCrawler.crawl crawler_extract_raises network_ok [] None) = false
  /\ ~ fetch_gave_nothing crawler_extract_raises network_ok [].
Proof.
  split; [reflexivity|]. split; [reflexivity|].
  intros (url & html & Hu & Hf & Ht).
  simpl in Hu. injection Hu as <-.
  vm_compute in Hf. injection Hf as <-.
  vm_compute in Ht. discriminate.
Qed.

(** C2, amended. For every single-source crawl the result has
    [success = false] exactly when the fetch gave no page content or an
    exception left [build_search_url], [fetch_page] or [extract_items]; in
    the first case the items are empty and [errors] holds the one message
    of the failed fetch, in the second the items are empty and [errors]
    holds the message of the exception; otherwise [success] is true whatever
    the normalization of the individual records did, each record that
    failed to normalize having left one message in [errors] and the others
    at most one item each. *)
Theorem C2_crawl_outcome (c : BaseCrawler.t) (net : Network)
    (filters : list (str * PyVal)) (goal_id : option Z) :
  let r := BaseCrawler.crawl c net filters goal_id in
  (CrawlResult.success r = false
   <-> fetch_gave_nothing c net filters \/ exists e, step_raised c net filters e)
  /\ (fetch_gave_nothing c net filters ->
      CrawlResult.success r = false /\ CrawlResult.items r = []
      /\ CrawlResult.errors r = ["Failed to fetch page content"%string])
  /\ (forall e, step_raised c net filters e ->
      CrawlResult.success r = false /\ CrawlResult.items r = []
      /\ CrawlResult.errors r = [e])
  /\ (forall url html raw_items,
        BaseCrawler.build_search_url c filters = Ok url ->
        BaseCrawler.fetch_page c net url = Ok (Some html) ->
        truthy html = true ->
        BaseCrawler.extract_items c html = Ok raw_items ->
        CrawlResult.success r = true
        /\ (CrawlResult.items r, CrawlResult.errors r)
           = BaseCrawler.normalize_all c raw_items goal_id
        /\ length (CrawlResult.errors r)
           = length (List.filter
                       (fun raw => negb (is_ok (BaseCrawler.normalize_item c raw goal_id)))
                       raw_items)
        /\ (length (CrawlResult.items r) + length (CrawlResult.errors r)
            <= length raw_items)%nat).
Proof.
  intros r.
  destruct (crawl_cases c net filters goal_id)
    as [(e & Hb & Hr)|[(u & e & Hb & Hf & Hr)|[(u & h & Hb & Hf & Ht & Hr)
       |[(u & html & e & Hb & Hf & Ht & He & Hr)|(u & html & raws & Hb & Hf & Ht & He & Hr)]]]];
    subst r; rewrite Hr; unfold fetch_gave_nothing, step_raised, BaseCrawler.crawl_failed;
    simpl.
  - split_and!.
    + split; [intros _; right; exists e; now left | reflexivity].
    + intros (url & h & ? & _). same_call.
    + intros e' [?|[(url & ? & _)|(url & h & ? & _)]]; same_call.
    + intros; same_call.
  - split_and!.
    + split; [intros _; right; exists e; right; left; eauto | reflexivity].
    + intros (url & h & ? & ? & _). same_call.
    + intros e' [?|[(url & ? & ?)|(url & h & ? & ? & _)]]; same_call.
    + intros; same_call.
  - split_and!.
    + split; [intros _; left; eauto | reflexivity].
    + done.
    + intros e' [?|[(url & ? & ?)|(url & h' & ? & ? & ? & _)]]; same_call.
    + intros; same_call.
  - split_and!.
    + split; [intros _; right; exists e; right; right; eauto 10 | reflexivity].
    + intros (url & h & ? & ? & ?). same_call.
    + intros e' [?|[(url & ? & ?)|(url & h' & ? & ? & ? & ?)]]; same_call.
    + intros; same_call.
  - split_and!.
    + split; [discriminate|].
      intros [(url & h & ? & ? & ?)|(e & [?|[(url & ? & ?)|(url & h' & ? & ? & ? & ?)]])];
        same_call.
    + intros (url & h & ? & ? & ?). same_call.
    + intros e' [?|[(url & ? & ?)|(url & h' & ? & ? & ? & ?)]]; same_call.
    + intros url html' raw_items ? ? ? ?. same_call.
      pose proof (normalize_all_lengths c raw_items goal_id) as [Hn1 Hn2].
      destruct (BaseCrawler.normalize_all c raw_items goal_id) as [its errs]; simpl in *.
      done.
Qed.

(** ** C3: the price range of a search goal *)

(** Where the validator does its comparison, a range in the wrong order is
    refused. *)
Lemma SearchGoal_init_rejects_nonzero_inverted_range (goal_id : Z) (type : SearchGoalType)
    (target_location : str) (budget_source : BudgetSource) (priority : Priority)
    (search_type : str) (lo hi : Q) (lease : option Q)
    (additional_filters : list (str * str)) :
  (0 < hi)%Q -> (hi < lo)%Q ->
  exists msg,
    SearchGoal_init goal_id type target_location budget_source priority search_type
      (Some lo) (Some hi) lease additional_filters = Raise msg.
Proof.
  intros Hhi Hlt. unfold SearchGoal_init.
  assert (Hlo0 : ge0_opt (Some lo) = true).
  { simpl. apply Qle_bool_iff. lra. }
  rewrite Hlo0.
  assert (Hv : validate_price_range (Some hi) (Some (Some lo))
               = Raise "max_price must be greater than min_price").
  { unfold validate_price_range, truthy_opt_float, truthy_float.
    assert (Qeq_bool hi 0 = false) as ->.
    { apply not_true_iff_false. rewrite Qeq_bool_iff. lra. }
    assert (Qeq_bool lo 0 = false) as ->.
    { apply not_true_iff_false. rewrite Qeq_bool_iff. lra. }
    simpl. apply Qltb_lt in Hlt. now rewrite Hlt. }
  rewrite Hv. simpl. rewrite andb_false_r. simpl. eauto.
Qed.

(** A goal that was constructed with both prices has them in order,
    unless its [max_price] is 0. *)
Lemma SearchGoal_init_price_range (goal_id : Z) (type : SearchGoalType)
    (target_location : str) (budget_source : BudgetSource) (priority : Priority)
    (search_type : str) (lo hi : Q) (lease : option Q)
    (additional_filters : list (str * str)) (g : SearchGoal) :
  SearchGoal_init goal_id type target_location budget_source priority search_type
    (Some lo) (Some hi) lease additional_filters = Ok g ->
  ~ (hi == 0)%Q ->
  (lo <= hi)%Q.
Proof.
  intros Hok Hnz.
  destruct (Qlt_le_dec hi lo) as [Hlt|Hle]; [|exact Hle].
  exfalso.
  assert (H0 : (0 <= hi)%Q).
  { unfold SearchGoal_init in Hok.
    destruct (ge0_opt (Some lo)); [|discriminate].
    destruct (ge0_opt (Some hi)) eqn:E; [|discriminate].
    simpl in E. now apply Qle_bool_iff in E. }
  assert (H1 : (0 < hi)%Q).
  { apply Qle_lt_or_eq in H0 as [H0|H0]; [exact H0|]. exfalso. apply Hnz. now symmetry. }
  destruct (SearchGoal_init_rejects_nonzero_inverted_range goal_id type target_location
              budget_source priority search_type lo hi lease additional_filters H1 Hlt)
    as [msg Hmsg].
  congruence.
Qed.

(** C3, at the failing input: a goal with [min_price = 5] and
    [max_price = 0] is constructed, although its [max_price] is below its
    [min_price]; the validator takes the zero for an absent price. *)
Theorem C3_zero_max_price_accepted :
  exists g,
    SearchGoal_init 1 GENERAL [] LIQUIDITY HIGH [] (Some 5%Q) (Some 0%Q) None [] = Ok g
    /\ min_price g = Some 5%Q /\ max_price g = Some 0%Q /\ (0 < 5)%Q.
Proof. eexists. split; [reflexivity|]. split_and!; [reflexivity..|lra]. Qed.

(** ** C6: the budget source of the goals *)

Lemma SearchGoal_init_budget (goal_id : Z) (type : SearchGoalType) (location : str)
    (bs : BudgetSource) (prio : Priority) (label : str) (p : UserProfile) :
  SearchGoal_init goal_id type location bs prio label None
    (if Qgtb (total_budget p) 0 then Some (total_budget p) else None)
    (if Qgtb (max_monthly_payment p) 0 then Some (max_monthly_payment p) else None) []
  = Ok (mkSearchGoal goal_id type location bs prio label None
          (if Qgtb (total_budget p) 0 then Some (total_budget p) else None)
          (if Qgtb (max_monthly_payment p) 0 then Some (max_monthly_payment p) else None)
          []).
Proof.
  unfold SearchGoal_init.
  assert (H1 : ge0_opt (if Qgtb (total_budget p) 0 then Some (total_budget p) else None)
               = true).
  { destruct (Qgtb (total_budget p) 0) eqn:E; [|reflexivity].
    simpl. apply Qgtb_gt in E. apply Qle_bool_iff. lra. }
  assert (H2 : ge0_opt (if Qgtb (max_monthly_payment p) 0
                        then Some (max_monthly_payment p) else None) = true).
  { destruct (Qgtb (max_monthly_payment p) 0) eqn:E; [|reflexivity].
    simpl. apply Qgtb_gt in E. apply Qle_bool_iff. lra. }
  rewrite H1, H2. simpl.
  destruct (Qgtb (total_budget p) 0); simpl; try reflexivity.
  destruct (truthy_float (total_budget p)); reflexivity.
Qed.

Lemma goals_for_locations_budget (locs : list str) (goal_id : Z) (type : SearchGoalType)
    (bs : BudgetSource) (label : str) (p : UserProfile) :
  exists goals,
    EntityExtractor.goals_for_locations locs goal_id type bs label p = Ok goals
    /\ length goals = length locs
    /\ Forall (fun g => budget_source g = bs) goals.
Proof.
  revert goal_id. induction locs as [|loc locs IH]; intros goal_id; simpl.
  - exists []. auto.
  - rewrite SearchGoal_init_budget.
    destruct (IH (goal_id + 1)%Z) as (goals & -> & Hlen & Hall).
    eexists. split; [reflexivity|]. split; [simpl; now rewrite Hlen|].
    constructor; [reflexivity | exact Hall].
Qed.

(** [build_search_goals] never raises, returns at least one goal, and
    gives every goal the source [select_budget_source] chose. *)
Lemma build_search_goals_budget (e : Entities) (p : UserProfile) :
  exists goals,
    EntityExtractor.build_search_goals e p = Ok goals
    /\ goals <> []
    /\ Forall (fun g => budget_source g = EntityExtractor.select_budget_source p) goals.
Proof.
  unfold EntityExtractor.build_search_goals.
  destruct (locations e) as [|loc locs] eqn:El.
  - rewrite SearchGoal_init_budget. eexists. split; [reflexivity|].
    split; [discriminate|]. repeat constructor.
  - destruct (goals_for_locations_budget (loc :: locs) 1
                (default GENERAL (si_type (e_search_type e)))
                (EntityExtractor.select_budget_source p)
                (si_search_type (e_search_type e)) p) as (goals & Hg & Hlen & Hall).
    exists goals. split; [exact Hg|]. split; [|exact Hall].
    destruct goals; [discriminate | discriminate].
Qed.

(** C6, as stated, fails: for the message "ماهی 5 میلیون" the profile has
    liquidity 5, no loan and a monthly payment of 5, so the monthly payment is
    not the only positive amount and the stated order ends at liquidity; the
    goal built from it has the monthly payment as its source. *)
Lemma C6_counterexample_monthly_with_liquidity :
  let e := EntityExtractor.extract_all_entities listed_order (py "ماهی 5 میلیون") in
  exists p g,
    EntityExtractor.build_user_profile e = Ok p
    /\ (liquidity p == 5)%Q /\ (loan_amount p == 0)%Q /\ (max_monthly_payment p == 5)%Q
    /\ EntityExtractor.build_search_goals e p = Ok [g]
    /\ budget_source g = MONTHLY_PAYMENT
    /\ spec_budget_source p = LIQUIDITY.
Proof.
  vm_compute. eexists. eexists. split; [reflexivity|].
  split_and!; reflexivity.
Qed.

(** C6, amended. For every user profile built from extracted entities,
    goals are generated, and every one of them has the same budget source:
    liquidity+loan if the loan amount and the liquidity are both positive;
    loan if the loan amount is positive and the liquidity is not (whatever
    the monthly payment); monthly-payment if the loan amount is not positive
    and the monthly payment is (whatever the liquidity); liquidity
    otherwise. *)
Theorem C6_budget_source_selection (e : Entities) (p : UserProfile) :
  EntityExtractor.build_user_profile e = Ok p ->
  exists goals,
    EntityExtractor.build_search_goals e p = Ok goals
    /\ goals <> []
    /\ forall g, g ∈ goals ->
         ((0 < loan_amount p)%Q /\ (0 < liquidity p)%Q ->
            budget_source g = LIQUIDITY_LOAN)
         /\ ((0 < loan_amount p)%Q /\ (liquidity p <= 0)%Q ->
            budget_source g = LOAN)
         /\ ((loan_amount p <= 0)%Q /\ (0 < max_monthly_payment p)%Q ->
            budget_source g = MONTHLY_PAYMENT)
         /\ ((loan_amount p <= 0)%Q /\ (max_monthly_payment p <= 0)%Q ->
            budget_source g = LIQUIDITY).
Proof.
  intros _.
  destruct (build_search_goals_budget e p) as (goals & Hg & Hne & Hall).
  exists goals. split; [exact Hg|]. split; [exact Hne|].
  intros g Hin. rewrite Forall_forall in Hall. rewrite (Hall g Hin).
  unfold EntityExtractor.select_budget_source.
  destruct (Qgtb (loan_amount p) 0) eqn:E1, (Qgtb (liquidity p) 0) eqn:E2,
    (Qgtb (max_monthly_payment p) 0) eqn:E3; simpl;
    rewrite ?Qgtb_gt, ?Qgtb_le in *;
    split_and!; intros [? ?]; try reflexivity; lra.
Qed.

Lemma C6_budget_source_selection_witness :
  exists p,
    EntityExtractor.build_user_profile
      (EntityExtractor.extract_all_entities listed_order (py "ماهی 5 میلیون")) = Ok p
    /\ exists goals,
         EntityExtractor.build_search_goals
           (EntityExtractor.extract_all_entities listed_order (py "ماهی 5 میلیون")) p
         = Ok goals
         /\ goals <> [].
Proof.
  eexists. split; [vm_compute; reflexivity|].
  destruct (C6_budget_source_selection
              (EntityExtractor.extract_all_entities listed_order (py "ماهی 5 میلیون"))
              (mkUserProfile 5 0 0 5 0)) as (goals & Hg & Hne & _).
  - vm_compute. reflexivity.
  - exists goals. split; [exact Hg | exact Hne].
Defined.

(** ** C7: money normalization *)

(** What the function computes on a literal that [float] reads as [x]. *)
Lemma _normalize_money_spec (value unit : str) (x : Q) :
  float_of_str (replace (py ",") [] value) = Some x ->
  (unit_thousand unit = true ->
     (EntityExtractor._normalize_money value unit == x / 1000)%Q)
  /\ (unit_thousand unit = false -> unit_billion unit = true ->
     (EntityExtractor._normalize_money value unit == x * 1000)%Q)
  /\ (unit_thousand unit = false -> unit_billion unit = false ->
     (EntityExtractor._normalize_money value unit == x)%Q).
Proof.
  intros Hx. unfold EntityExtractor._normalize_money, unit_thousand, unit_billion.
  rewrite Hx. split_and!.
  - intros ->. reflexivity.
  - intros -> ->. reflexivity.
  - intros -> ->. reflexivity.
Qed.

(** Loan and monthly-payment mentions are normalized with the default
    unit, for which the value is unchanged. *)
Lemma _normalize_money_default_unit (value : str) (x : Q) :
  float_of_str (replace (py ",") [] value) = Some x ->
  (EntityExtractor._normalize_money value EntityExtractor.default_unit == x)%Q.
Proof.
  intros Hx. now apply (_normalize_money_spec value EntityExtractor.default_unit x Hx).
Qed.

(** C7, at the failing input. The word "بیلیون" is one of the three
    billion units of the money patterns, and the third pattern matches
    "2 بیلیون تومان" with value "2"; [_normalize_money] does not test for
    this word and returns 2, not 2000, which becomes the only money entity
    of the message.  The sibling [parse_price] tests for the word and
    returns 2000 on the same text. *)
Theorem C7_billion_word_not_scaled :
  map (fun m => (Re.group m 1, Re.m_group0 m))
      (Re.finditer (py "(\d+(?:\.\d+)?)\s*(?:میلیارد|بیلیون|b)\s*(?:تومان|تومن)?")
                   (py "2 بیلیون تومان") true)
    = [(Some (py "2"), py "2 بیلیون تومان")]
  /\ EntityExtractor._normalize_money (py "2") (py "2 بیلیون تومان") = 2%Q
  /\ map value (EntityExtractor.extract_money_entities (py "2 بیلیون تومان")) = [2%Q]
  /\ EntityExtractor._normalize_money (py "2") (py "2 میلیارد تومان") = (2 * 1000)%Q
  /\ BaseCrawler.parse_price (py "2 بیلیون تومان") = Some (2 * 1000)%Q.
Proof. split_and!; vm_compute; reflexivity. Qed.

(** ** C4 and C8: deduplication in [normalize_batch] *)

Section SortedDesc.
Context {A : Type} (key_ltb : A -> A -> bool).

Lemma insert_desc_perm (x : A) (l : list A) : insert_desc key_ltb x l ≡ₚ x :: l.
Proof.
  induction l as [|y l IH]; simpl; [reflexivity|].
  destruct (key_ltb x y); [|reflexivity].
  rewrite IH. apply Permutation_swap.
Qed.

Lemma sorted_desc_perm (l : list A) : sorted_desc key_ltb l ≡ₚ l.
Proof.
  induction l as [|x l IH]; simpl; [reflexivity|].
  rewrite insert_desc_perm. now rewrite IH.
Qed.
End SortedDesc.

Lemma _normalize_item_normalized (item : CrawledItem.t) :
  DataNormalizer._normalize_item item = Some (normalized item).
Proof. reflexivity. Qed.

Lemma normalized_url (item : CrawledItem.t) :
  Normalized.url (normalized item) = CrawledItem.url item.
Proof. reflexivity. Qed.

Lemma normalize_loop_kept (seen_urls : gset str) (all_items : list CrawledItem.t) :
  DataNormalizer.normalize_loop seen_urls all_items
  = map normalized (kept seen_urls all_items).
Proof.
  revert seen_urls. induction all_items as [|item rest IH]; intros seen; simpl.
  - reflexivity.
  - destruct (decide (CrawledItem.url item ∈ seen)); [apply IH|].
    simpl. now rewrite IH.
Qed.

(** Items with distinct, unseen urls are all kept. *)
Lemma kept_distinct (seen_urls : gset str) (l : list CrawledItem.t) :
  NoDup (map CrawledItem.url l) ->
  (forall x, x ∈ l -> CrawledItem.url x ∉ seen_urls) ->
  kept seen_urls l = l.
Proof.
  revert seen_urls. induction l as [|x l IH]; intros seen Hnd Hseen; simpl.
  - reflexivity.
  - apply NoDup_cons in Hnd as [Hx Hnd].
    destruct (decide (CrawledItem.url x ∈ seen)) as [Hin|_].
    + exfalso. apply (Hseen x); [left | exact Hin].
    + f_equal. apply IH; [exact Hnd|].
      intros y Hy. rewrite elem_of_union, elem_of_singleton.
      intros [Heq|Hin].
      * apply Hx. rewrite <- Heq. now apply list_elem_of_fmap_2.
      * apply (Hseen y); [now right | exact Hin].
Qed.

(** An item whose url occurs earlier in the list, or was seen, is dropped. *)
Lemma kept_drop_later (seen_urls : gset str) (l1 : list CrawledItem.t)
    (x : CrawledItem.t) (l2 : list CrawledItem.t) :
  CrawledItem.url x ∈ seen_urls \/ CrawledItem.url x ∈ map CrawledItem.url l1 ->
  kept seen_urls (l1 ++ x :: l2) = kept seen_urls (l1 ++ l2).
Proof.
  revert seen_urls. induction l1 as [|y l1 IH]; intros seen Hx; simpl.
  - destruct Hx as [Hx|Hx]; [|now apply elem_of_nil in Hx].
    now destruct (decide (CrawledItem.url x ∈ seen)).
  - destruct (decide (CrawledItem.url y ∈ seen)) as [Hy|Hy].
    + apply IH. destruct Hx as [Hx|Hx]; [now left|].
      simpl in Hx. apply elem_of_cons in Hx as [Hx|Hx]; [left; congruence | now right].
    + f_equal. apply IH. destruct Hx as [Hx|Hx]; [left; set_solver|].
      simpl in Hx. apply elem_of_cons in Hx as [Hx|Hx]; [left; set_solver | now right].
Qed.

Lemma collect_items_perm (b b' : CrawlBatchResult.t) :
  CrawlBatchResult.results b ≡ₚ CrawlBatchResult.results b' ->
  DataNormalizer.collect_items b ≡ₚ DataNormalizer.collect_items b'.
Proof.
  unfold DataNormalizer.collect_items. intros H.
  induction H as [| x l l' _ IH | x y l | l l' l'' _ IH1 _ IH2]; simpl.
  - reflexivity.
  - now rewrite IH.
  - rewrite !app_assoc. f_equiv. apply Permutation_app_comm.
  - now rewrite IH1.
Qed.

(** With pairwise-distinct urls nothing is dropped. *)
Lemma normalize_batch_distinct (so : SetOrder) (b : CrawlBatchResult.t) :
  NoDup (map CrawledItem.url (DataNormalizer.collect_items b)) ->
  NormalizedBatch.items (DataNormalizer.normalize_batch so b)
  ≡ₚ map normalized (DataNormalizer.collect_items b).
Proof.
  intros Hnd. unfold DataNormalizer.normalize_batch; simpl.
  rewrite sorted_desc_perm, normalize_loop_kept, kept_distinct; [reflexivity|exact Hnd|].
  intros x _. apply not_elem_of_empty.
Qed.

(** C8. For every batch whose successful results carry pairwise-distinct
    item urls, and every batch with the same results in another order, the
    deduplicated and scored items [normalize_batch] produces are the same
    set: the two lists are permutations of each other, hold the same
    elements, have the same length, and nothing was removed from either. *)
Theorem C8_normalize_batch_order_independent (so so' : SetOrder)
    (b b' : CrawlBatchResult.t) :
  NoDup (map CrawledItem.url (DataNormalizer.collect_items b)) ->
  CrawlBatchResult.results b ≡ₚ CrawlBatchResult.results b' ->
  let out := DataNormalizer.normalize_batch so b in
  let out' := DataNormalizer.normalize_batch so' b' in
  NormalizedBatch.items out ≡ₚ NormalizedBatch.items out'
  /\ (forall n, n ∈ NormalizedBatch.items out <-> n ∈ NormalizedBatch.items out')
  /\ NormalizedBatch.total_items out = NormalizedBatch.total_items out'
  /\ NormalizedBatch.duplicates_removed out = 0%Z
  /\ NormalizedBatch.duplicates_removed out' = 0%Z.
Proof.
  intros Hnd Hperm out out'.
  pose proof (collect_items_perm b b' Hperm) as Hc.
  assert (Hnd' : NoDup (map CrawledItem.url (DataNormalizer.collect_items b'))).
  { rewrite <- Hc. exact Hnd. }
  assert (Hitems : NormalizedBatch.items out ≡ₚ NormalizedBatch.items out').
  { subst out out'. rewrite !normalize_batch_distinct by assumption. now rewrite Hc. }
  assert (Hlen : forall so0 b0,
             NoDup (map CrawledItem.url (DataNormalizer.collect_items b0)) ->
             length (NormalizedBatch.items (DataNormalizer.normalize_batch so0 b0))
             = length (DataNormalizer.collect_items b0)).
  { intros so0 b0 H0. rewrite (normalize_batch_distinct so0 b0 H0). apply length_map. }
  split_and!.
  - exact Hitems.
  - intros n. now rewrite Hitems.
  - subst out out'. unfold DataNormalizer.normalize_batch; simpl.
    f_equal. apply Permutation_length.
    change (NormalizedBatch.items (DataNormalizer.normalize_batch so b)
            ≡ₚ NormalizedBatch.items (DataNormalizer.normalize_batch so' b')).
    exact Hitems.
  - pose proof (Hlen so b Hnd) as H. subst out.
    unfold DataNormalizer.normalize_batch in *; simpl in *. lia.
  - pose proof (Hlen so' b' Hnd') as H. subst out'.
    unfold DataNormalizer.normalize_batch in *; simpl in *. lia.
Qed.

Lemma filter_url_absent (l : list CrawledItem.t) (u : str) :
  u ∉ map CrawledItem.url l ->
  filter (fun n => Normalized.url n = u) (map normalized l) = [].
Proof.
  induction l as [|x l IH]; intros Hu; [reflexivity|].
  simpl map. rewrite filter_cons_False.
  - apply IH. intros H. apply Hu. simpl. now right.
  - rewrite normalized_url. intros Heq. apply Hu. simpl. rewrite Heq. now left.
Qed.

(** Among items with distinct urls, one url selects one normalized item. *)
Lemma filter_url_distinct (l : list CrawledItem.t) (a : CrawledItem.t) :
  NoDup (map CrawledItem.url l) -> a ∈ l ->
  filter (fun n => Normalized.url n = CrawledItem.url a) (map normalized l)
  = [normalized a].
Proof.
  induction l as [|x l IH]; intros Hnd Hin; [now apply elem_of_nil in Hin|].
  apply NoDup_cons in Hnd as [Hx Hnd]. simpl map.
  apply elem_of_cons in Hin as [->|Hin].
  - rewrite filter_cons_True by reflexivity. f_equal.
    now apply filter_url_absent.
  - rewrite filter_cons_False; [now apply IH|].
    rewrite normalized_url. intros Heq. apply Hx. rewrite Heq.
    now apply list_elem_of_fmap_2.
Qed.

(** C4. For every batch in which the items of the successful results are
    [l1 ++ a :: l2 ++ a' :: l3] in concatenation order, [a] and [a'] having
    the same url and all other urls being distinct, the output of
    [normalize_batch] holds exactly one item with that url, the normalized
    form of the first one [a]; it holds the normalized forms of all the
    other items, and [duplicates_removed] is 1. *)
Theorem C4_one_duplicate_removed (so : SetOrder) (b : CrawlBatchResult.t)
    (l1 l2 l3 : list CrawledItem.t) (a a' : CrawledItem.t) :
  DataNormalizer.collect_items b = l1 ++ a :: l2 ++ a' :: l3 ->
  CrawledItem.url a = CrawledItem.url a' ->
  NoDup (map CrawledItem.url (l1 ++ a :: l2 ++ l3)) ->
  let out := DataNormalizer.normalize_batch so b in
  filter (fun n => Normalized.url n = CrawledItem.url a) (NormalizedBatch.items out)
    = [normalized a]
  /\ DataNormalizer._normalize_item a = Some (normalized a)
  /\ NormalizedBatch.items out ≡ₚ map normalized (l1 ++ a :: l2 ++ l3)
  /\ NormalizedBatch.duplicates_removed out = 1%Z
  /\ NormalizedBatch.total_items out = (Z.of_nat (length (DataNormalizer.collect_items b)) - 1)%Z.
Proof.
  intros Hc Hurl Hnd out.
  assert (Hk : kept ∅ (DataNormalizer.collect_items b) = l1 ++ a :: l2 ++ l3).
  { rewrite Hc.
    replace (l1 ++ a :: l2 ++ a' :: l3) with ((l1 ++ a :: l2) ++ a' :: l3)
      by (now rewrite <- app_assoc).
    rewrite kept_drop_later.
    - rewrite <- app_assoc. simpl. apply kept_distinct; [exact Hnd|].
      intros x _. apply not_elem_of_empty.
    - right. rewrite <- Hurl, map_app. simpl.
      apply elem_of_app. right. now left. }
  assert (Hitems : NormalizedBatch.items out ≡ₚ map normalized (l1 ++ a :: l2 ++ l3)).
  { subst out. unfold DataNormalizer.normalize_batch; simpl.
    now rewrite sorted_desc_perm, normalize_loop_kept, Hk. }
  assert (Hlen : length (NormalizedBatch.items out)
                 = (length l1 + S (length l2 + length l3))%nat).
  { rewrite Hitems, length_map, length_app. simpl. now rewrite length_app. }
  assert (Hlenc : length (DataNormalizer.collect_items b)
                  = (length l1 + S (length l2 + S (length l3)))%nat).
  { rewrite Hc, length_app. simpl. rewrite length_app. reflexivity. }
  split_and!.
  - apply Permutation_singleton_r.
    rewrite Hitems. rewrite filter_url_distinct; [reflexivity | exact Hnd |].
    apply elem_of_app. right. now left.
  - reflexivity.
  - exact Hitems.
  - subst out. unfold DataNormalizer.normalize_batch in *; simpl in *. lia.
  - subst out. unfold DataNormalizer.normalize_batch in *; simpl in *. lia.
Qed.

(** ** C9: the confidence of a matched intent *)

Lemma dict_get_nonneg (k : IntentType) (d : list (IntentType * Q)) :
  positive_scores d -> (0 <= dict_get k d 0)%Q.
Proof.
  induction 1 as [|[k' v] d [_ Hv] _ IH]; simpl; [lra|].
  destruct (decide (k = k')); [simpl in Hv; lra | exact IH].
Qed.

Lemma dict_set_positive (k : IntentType) (v : Q) (d : list (IntentType * Q)) :
  k <> UNKNOWN -> (0 < v)%Q -> positive_scores d -> positive_scores (dict_set k v d).
Proof.
  intros Hk Hv. induction 1 as [|[k' v'] d [Hk' Hv'] Hd IH]; simpl.
  - repeat constructor; assumption.
  - destruct (decide (k = k')) as [->|_].
    + constructor; [split; assumption | exact Hd].
    + constructor; [split; assumption | exact IH].
Qed.

Lemma dict_set_nonempty {K V : Type} `{EqDecision K} (k : K) (v : V) (d : list (K * V)) :
  dict_set k v d <> [].
Proof. destruct d as [|[k' v'] d]; simpl; [discriminate|]. now destruct (decide (k = k')). Qed.

Lemma add_scores_positive (w : Q) (results d : list (IntentType * Q)) :
  (0 < w)%Q -> positive_scores results -> positive_scores d ->
  positive_scores (IntentClassifier.add_scores w results d).
Proof.
  intros Hw Hr. revert d. unfold IntentClassifier.add_scores.
  induction Hr as [|[k s] results [Hk Hs] _ IH]; intros d Hd; simpl; [exact Hd|].
  apply IH. apply dict_set_positive; [exact Hk| |exact Hd].
  pose proof (dict_get_nonneg k d Hd). simpl in Hs. nra.
Qed.

Lemma add_scores_nonempty (w : Q) (results d : list (IntentType * Q)) :
  results <> [] \/ d <> [] -> IntentClassifier.add_scores w results d <> [].
Proof.
  unfold IntentClassifier.add_scores. revert d.
  induction results as [|[k s] results IH]; intros d H; simpl.
  - now destruct H.
  - apply IH. right. apply dict_set_nonempty.
Qed.

Lemma sorted_desc_nil {A : Type} (ltb : A -> A -> bool) (l : list A) :
  sorted_desc ltb l = [] <-> l = [].
Proof.
  split; [|now intros ->].
  intros H. apply Permutation_nil_r. rewrite <- H. symmetry. apply sorted_desc_perm.
Qed.

Lemma keyword_score_positive (m n : nat) :
  (0 < m)%nat -> (0 < n)%nat ->
  (0 < py_min (inject_Z (Z.of_nat m) / inject_Z (Z.of_nat n) * 2) 1)%Q.
Proof.
  intros Hm Hn.
  assert (H : (0 < inject_Z (Z.of_nat m) / inject_Z (Z.of_nat n) * 2)%Q).
  { apply Qmult_lt_0_compat; [|lra].
    apply Qlt_shift_div_l.
    - change 0%Q with (inject_Z 0). rewrite <- Zlt_Qlt. lia.
    - rewrite Qmult_0_l. change 0%Q with (inject_Z 0). rewrite <- Zlt_Qlt. lia. }
  unfold py_min. destruct (Qltb _ _); [lra | exact H].
Qed.

(** The scores of a table of keywords none of whose intents is [UNKNOWN]. *)
Lemma keyword_scores_positive (text_lower : str) (table : list (IntentType * list str)) :
  Forall (fun e => fst e <> UNKNOWN) table ->
  positive_scores
    (flat_map
       (fun '(intent_type, keywords) =>
          let matches :=
            length (List.filter (fun keyword => contains keyword text_lower) keywords) in
          if (0 <? matches)%nat
          then [(intent_type,
                 py_min (inject_Z (Z.of_nat matches) / inject_Z (Z.of_nat (length keywords)) * 2)
                        1)%Q]
          else [])
       table).
Proof.
  induction 1 as [|[i kws] table Hi _ IH]; simpl; [constructor|].
  apply Forall_app. split; [|exact IH].
  destruct (0 <? length (List.filter _ kws))%nat eqn:E; [|constructor].
  apply Nat.ltb_lt in E. constructor; [|constructor]. split; [exact Hi|]. simpl.
  apply keyword_score_positive; [exact E|].
  pose proof (List.filter_length_le (fun keyword => contains keyword text_lower) kws).
  lia.
Qed.

Lemma classify_by_keywords_positive (text : str) :
  positive_scores (IntentClassifier.classify_by_keywords text).
Proof.
  unfold IntentClassifier.classify_by_keywords, positive_scores.
  rewrite sorted_desc_perm. apply keyword_scores_positive.
  unfold IntentClassifier.intent_keywords. repeat constructor; discriminate.
Qed.

Lemma classify_by_patterns_positive (text : str) :
  positive_scores (IntentClassifier.classify_by_patterns text).
Proof.
  unfold IntentClassifier.classify_by_patterns, positive_scores.
  rewrite sorted_desc_perm.
  assert (G : forall table : list (IntentType * list str),
             Forall (fun e => fst e <> UNKNOWN) table ->
             Forall (fun p : IntentType * Q => fst p <> UNKNOWN /\ (0 < snd p)%Q)
               (flat_map
                  (fun '(intent_type, pats) =>
                     if existsb (fun pattern => Re.search pattern text true) pats
                     then [(intent_type, 0.9%Q)] else [])
                  table)).
  { induction 1 as [|[i ps] table Hi _ IH]; simpl; [constructor|].
    apply Forall_app. split; [|exact IH].
    destruct (existsb _ ps); [|constructor].
    constructor; [split; [exact Hi | simpl; lra] | constructor]. }
  apply G. unfold IntentClassifier.patterns. repeat constructor; discriminate.
Qed.

(** [max(values)] is one of the values and bounds them all. *)
Lemma foldl_py_max (l : list Q) (v : Q) :
  (v <= foldl py_max v l)%Q
  /\ (forall x, x ∈ l -> (x <= foldl py_max v l)%Q)
  /\ (foldl py_max v l = v \/ foldl py_max v l ∈ l).
Proof.
  revert v. induction l as [|y l IH]; intros v; simpl.
  - split_and!; [lra | intros x H; now apply elem_of_nil in H | now left].
  - destruct (IH (py_max v y)) as (H1 & H2 & H3).
    assert (Hv : (v <= py_max v y)%Q /\ (y <= py_max v y)%Q
                 /\ (py_max v y = v \/ py_max v y = y)).
    { unfold py_max. destruct (Qltb v y) eqn:E.
      - apply Qltb_lt in E. split_and!; [lra | lra | now right].
      - apply Qltb_ge in E. split_and!; [lra | lra | now left]. }
    destruct Hv as (Hv1 & Hv2 & Hv3).
    split_and!.
    + lra.
    + intros x Hx. apply elem_of_cons in Hx as [->|Hx]; [lra | now apply H2].
    + destruct H3 as [H3|H3].
      * destruct Hv3 as [Hv3|Hv3]; [left; congruence|].
        right. apply elem_of_cons. left. congruence.
      * right. now right.
Qed.

Lemma max_value_spec (d : list (IntentType * Q)) :
  d <> [] -> positive_scores d ->
  (0 < IntentClassifier.max_value d)%Q
  /\ (forall p, p ∈ d -> (snd p <= IntentClassifier.max_value d)%Q)
  /\ (exists p, p ∈ d /\ snd p = IntentClassifier.max_value d).
Proof.
  destruct d as [|[k v] d]; [congruence|]. intros _ Hpos.
  unfold IntentClassifier.max_value.
  destruct (foldl_py_max (map snd d) v) as (H1 & H2 & H3).
  apply Forall_cons in Hpos as [[_ Hv] Hd]. simpl in Hv.
  split_and!.
  - lra.
  - intros p Hp. apply elem_of_cons in Hp as [->|Hp]; [exact H1|].
    apply H2. now apply list_elem_of_fmap_2.
  - destruct H3 as [H3|H3].
    + exists (k, v). split; [now left | now rewrite H3].
    + apply list_elem_of_fmap in H3 as (p & Hp1 & Hp2).
      exists p. split; [now right | congruence].
Qed.

(** [max(l, key=key)] is an element of [l] with the largest key. *)
Lemma max_by_spec {A : Type} (key : A -> Q) (l : list A) (best : A) :
  (max_by key best l = best \/ max_by key best l ∈ l)
  /\ (key best <= key (max_by key best l))%Q
  /\ (forall x, x ∈ l -> (key x <= key (max_by key best l))%Q).
Proof.
  revert best. induction l as [|y l IH]; intros best; simpl.
  - split_and!; [now left | lra | intros x H; now apply elem_of_nil in H].
  - destruct (Qltb (key best) (key y)) eqn:E.
    + apply Qltb_lt in E. destruct (IH y) as (H1 & H2 & H3). split_and!.
      * right. destruct H1 as [->|H1]; [now left | now right].
      * lra.
      * intros x Hx. apply elem_of_cons in Hx as [->|Hx]; [exact H2 | now apply H3].
    + apply Qltb_ge in E. destruct (IH best) as (H1 & H2 & H3). split_and!.
      * destruct H1 as [H1|H1]; [now left | right; now right].
      * exact H2.
      * intros x Hx. apply elem_of_cons in Hx as [->|Hx]; [lra | now apply H3].
Qed.

(** Past its guard, [classify] gives a text with a scored intent that intent
    with confidence 1. *)
Lemma classify_scored (text : str) :
  long_enough text = true ->
  IntentClassifier.classify_by_keywords text <> []
  \/ IntentClassifier.classify_by_patterns text <> [] ->
  (snd (IntentClassifier.classify text) == 1)%Q
  /\ fst (IntentClassifier.classify text) <> UNKNOWN.
Proof.
  intros Hlong Hmatch. unfold IntentClassifier.classify.
  unfold long_enough in Hlong. apply andb_true_iff in Hlong as [Ht Hl].
  apply Nat.leb_le in Hl.
  assert ((len (strip text) <? 2)%nat = false) as -> by (apply Nat.ltb_ge; exact Hl).
  rewrite Ht. simpl negb. simpl orb. cbv iota.
  set (kw := IntentClassifier.classify_by_keywords text) in *.
  set (pt := IntentClassifier.classify_by_patterns text) in *.
  set (d := IntentClassifier.add_scores 0.4%Q pt (IntentClassifier.add_scores 0.6%Q kw [])).
  assert (Hpos : positive_scores d).
  { apply add_scores_positive; [lra | apply classify_by_patterns_positive|].
    apply add_scores_positive; [lra | apply classify_by_keywords_positive | constructor]. }
  assert (Hne : d <> []).
  { apply add_scores_nonempty. destruct Hmatch as [H|H]; [|now left].
    right. apply add_scores_nonempty. now left. }
  destruct (max_value_spec d Hne Hpos) as (Hmax & Hle & (pm & Hpm & Hpmv)).
  set (mx := IntentClassifier.max_value d) in *.
  set (nd := map (fun '(intent, score) => (intent, py_min (score / mx) 1)%Q) d).
  assert (Hnd1 : forall p, p ∈ nd -> (snd p <= 1)%Q /\ fst p <> UNKNOWN).
  { intros p Hp. apply list_elem_of_fmap in Hp as ([i s] & -> & Hin). simpl.
    split; [apply py_min_le_r|].
    unfold positive_scores in Hpos. rewrite Forall_forall in Hpos.
    apply (Hpos (i, s) Hin). }
  assert (Hnd2 : exists p, p ∈ nd /\ (snd p == 1)%Q).
  { destruct pm as [i s]. simpl in Hpmv. exists (i, py_min (s / mx) 1)%Q. split.
    - apply (list_elem_of_fmap_2 (fun '(intent, score) => (intent, py_min (score / mx) 1)%Q)
               d (i, s) Hpm).
    - simpl. assert (Hd1 : (s / mx == 1)%Q) by (rewrite Hpmv; field; lra).
      unfold py_min. destruct (Qltb 1 (s / mx)); [reflexivity | exact Hd1]. }
  destruct nd as [|first rest] eqn:End.
  { destruct Hnd2 as (p & Hp & _). now apply elem_of_nil in Hp. }
  destruct (max_by_spec snd rest first) as (Hin & Hb & Hall).
  destruct Hnd2 as (p1 & Hp1 & Hp1v).
  assert (Hres : max_by snd first rest ∈ first :: rest).
  { destruct Hin as [->|Hin]; [now left | now right]. }
  destruct (Hnd1 _ Hres) as [Hle1 Hunk].
  split; [|exact Hunk].
  apply Qle_antisym; [exact Hle1|].
  rewrite <- Hp1v. apply elem_of_cons in Hp1 as [->|Hp1]; [exact Hb | now apply Hall].
Qed.

(** *** A matched text passes the guard of [classify] *)

Lemma startswith_app (p s : str) :
  startswith p s = true -> exists post, s = p ++ post.
Proof.
  revert s. induction p as [|a p IH]; intros s H; simpl in *.
  - now exists s.
  - destruct s as [|b s]; [discriminate|].
    apply andb_true_iff in H as [Hab Hp]. apply N.eqb_eq in Hab as ->.
    destruct (IH s Hp) as [post ->]. now exists post.
Qed.

Lemma contains_app (sub s : str) :
  contains sub s = true -> exists pre post, s = pre ++ sub ++ post.
Proof.
  induction s as [|c s IH]; simpl; intros H.
  - rewrite orb_false_r in H. apply startswith_app in H as [post ->].
    now exists [], post.
  - apply orb_true_iff in H as [H|H].
    + apply startswith_app in H as [post ->]. now exists [], post.
    + destruct (IH H) as (pre & post & ->). now exists (c :: pre), post.
Qed.

(** A space has no lower-case form other than itself. *)
Lemma lower_char_space (c : N) : is_space c = true -> lower_char c = c.
Proof.
  unfold is_space, lower_char.
  rewrite !orb_true_iff, !andb_true_iff, !N.leb_le, !N.eqb_eq. intros H.
  assert ((65 <=? c)%N && (c <=? 90)%N = false) as ->
    by (rewrite andb_false_iff, !N.leb_gt; lia).
  assert ((192 <=? c)%N && (c <=? 222)%N && negb (c =? 215)%N = false) as ->
    by (rewrite !andb_false_iff, !N.leb_gt; lia).
  assert ((913 <=? c)%N && (c <=? 939)%N && negb (c =? 930)%N = false) as ->
    by (rewrite !andb_false_iff, !N.leb_gt; lia).
  assert ((1040 <=? c)%N && (c <=? 1071)%N = false) as ->
    by (rewrite andb_false_iff, !N.leb_gt; lia).
  assert ((1024 <=? c)%N && (c <=? 1039)%N = false) as ->
    by (rewrite andb_false_iff, !N.leb_gt; lia).
  assert ((c =? 8490)%N = false) as -> by (rewrite N.eqb_neq; lia).
  reflexivity.
Qed.

(** A character whose lower-case form is not a space is not a space. *)
Lemma lower_char_not_space (y a : N) :
  lower_char y = a -> is_space a = false -> is_space y = false.
Proof.
  intros Hy Ha. destruct (is_space y) eqn:E; [|reflexivity].
  rewrite (lower_char_space y E) in Hy. congruence.
Qed.

Lemma lstrip_keeps (pre : str) (a : N) (rest : str) :
  is_space a = false -> exists pre', lstrip (pre ++ a :: rest) = pre' ++ a :: rest.
Proof.
  intros Ha. unfold lstrip. induction pre as [|c pre IH]; simpl.
  - rewrite Ha. now exists [].
  - destruct (is_space c); [exact IH|]. now exists (c :: pre).
Qed.

Lemma adjacent_nonspace_long_enough (text : str) :
  adjacent_nonspace text -> long_enough text = true.
Proof.
  intros (pre & a & b & post & -> & Ha & Hb).
  unfold long_enough. apply andb_true_iff. split.
  - destruct pre; reflexivity.
  - apply Nat.leb_le. unfold strip, rstrip, len.
    destruct (lstrip_keeps pre a (b :: post) Ha) as [pre' ->].
    rewrite reverse_app, reverse_cons, reverse_cons, <- !app_assoc. simpl.
    destruct (lstrip_keeps (reverse post) b (a :: reverse pre') Hb) as [pre'' ->].
    rewrite length_reverse, length_app. simpl. lia.
Qed.

Lemma keyword_adjacent_nonspace (keyword text : str) :
  keyword_head_ok keyword = true ->
  contains keyword (lower text) = true ->
  adjacent_nonspace text.
Proof.
  intros Hk Hc. destruct keyword as [|a [|b kw]]; try discriminate.
  simpl in Hk. apply andb_true_iff in Hk as [Ha Hb].
  apply negb_true_iff in Ha, Hb.
  apply contains_app in Hc as (pre & post & Hl). unfold lower in Hl.
  simpl in Hl.
  apply fmap_app_inv in Hl as (pre0 & rest0 & Hpre & Hrest & ->).
  destruct rest0 as [|a0 [|b0 post0]]; try discriminate.
  simpl in Hrest. injection Hrest as Ha0 Hb0 _.
  exists pre0, a0, b0, post0. split_and!; [reflexivity|..].
  - exact (lower_char_not_space a0 a (eq_sym Ha0) Ha).
  - exact (lower_char_not_space b0 b (eq_sym Hb0) Hb).
Qed.

Lemma m_leading2 {A : Type} (r : Re.regex) (a b : N) (s : str) (c : Re.captures)
    (k : str -> Re.captures -> option A) (x : A) :
  leading2 r = Some (a, b) ->
  Re.m true r s c k = Some x ->
  exists y1 y2 s',
    s = y1 :: y2 :: s' /\ lower_char y1 = lower_char a /\ lower_char y2 = lower_char b.
Proof.
  intros Hl Hm.
  destruct r as [| | | | | |r1 r2| | |]; try discriminate.
  destruct r1 as [|a'| | | | | | | |]; try discriminate.
  destruct r2 as [| | | | | |r21 r22| | |]; try discriminate.
  destruct r21 as [|b'| | | | | | | |]; try discriminate.
  simpl in Hl. injection Hl as -> ->. simpl in Hm.
  destruct s as [|y1 s]; [discriminate|].
  destruct (N.eqb_spec (lower_char y1) (lower_char a)) as [E1|]; [|discriminate].
  destruct s as [|y2 s]; [discriminate|].
  destruct (N.eqb_spec (lower_char y2) (lower_char b)) as [E2|]; [|discriminate].
  eauto 10.
Qed.

Lemma search_from_leading2 (r : Re.regex) (a b : N) (pos : nat) (s : str) (mt : Re.Match) :
  leading2 r = Some (a, b) ->
  Re.search_from true r pos s = Some mt ->
  exists pre y1 y2 post,
    s = pre ++ y1 :: y2 :: post
    /\ lower_char y1 = lower_char a /\ lower_char y2 = lower_char b.
Proof.
  intros Hl. revert pos. induction s as [|c s IH]; intros pos; simpl.
  - unfold Re.match_here.
    destruct (Re.m true r [] [] _) eqn:E; [|discriminate].
    intros _. destruct (m_leading2 r a b [] [] _ _ Hl E) as (y1 & y2 & s' & H & _).
    discriminate.
  - unfold Re.match_here.
    destruct (Re.m true r (c :: s) [] _) eqn:E.
    + intros _. destruct (m_leading2 r a b _ [] _ _ Hl E) as (y1 & y2 & s' & H & H1 & H2).
      exists [], y1, y2, s'. auto.
    + intros H. destruct (IH _ H) as (pre & y1 & y2 & post & -> & H1 & H2).
      exists (c :: pre), y1, y2, post. auto.
Qed.

Lemma pattern_adjacent_nonspace (pattern text : str) :
  pattern_head_ok pattern = true ->
  Re.search pattern text true = true ->
  adjacent_nonspace text.
Proof.
  unfold pattern_head_ok, Re.search.
  destruct (Re.compile pattern) as [r|]; [|discriminate].
  destruct (leading2 r) as [[a b]|] eqn:Hl; [|discriminate].
  intros Hk Hs. apply andb_true_iff in Hk as [Ha Hb].
  apply negb_true_iff in Ha, Hb.
  destruct (Re.search_from true r 0 text) as [mt|] eqn:E; [|discriminate].
  destruct (search_from_leading2 r a b 0 text mt Hl E)
    as (pre & y1 & y2 & post & -> & H1 & H2).
  exists pre, y1, y2, post. split_and!; [reflexivity|..].
  - exact (lower_char_not_space y1 _ H1 Ha).
  - exact (lower_char_not_space y2 _ H2 Hb).
Qed.

Lemma keyword_table_heads :
  forallb (fun e => forallb keyword_head_ok (snd e)) IntentClassifier.intent_keywords = true.
Proof. vm_compute. reflexivity. Qed.

Lemma pattern_table_heads :
  forallb (fun e => forallb pattern_head_ok (snd e)) IntentClassifier.patterns = true.
Proof. vm_compute. reflexivity. Qed.

Lemma keyword_match_long_enough (text : str) :
  keyword_match text -> long_enough text = true.
Proof.
  intros (intent & kws & kw & He & Hk & Hc).
  apply adjacent_nonspace_long_enough, (keyword_adjacent_nonspace kw); [|exact Hc].
  pose proof keyword_table_heads as H. rewrite forallb_forall in H.
  apply list_elem_of_In in He. specialize (H _ He). simpl in H.
  rewrite forallb_forall in H. apply H. now apply list_elem_of_In.
Qed.

Lemma pattern_match_long_enough (text : str) :
  pattern_match text -> long_enough text = true.
Proof.
  intros (intent & ps & p & He & Hp & Hs).
  apply adjacent_nonspace_long_enough, (pattern_adjacent_nonspace p); [|exact Hs].
  pose proof pattern_table_heads as H. rewrite forallb_forall in H.
  apply list_elem_of_In in He. specialize (H _ He). simpl in H.
  rewrite forallb_forall in H. apply H. now apply list_elem_of_In.
Qed.

(** A keyword that occurs gives its intent a keyword score, a pattern that
    matches gives its intent a pattern score. *)
Lemma keyword_match_scored (text : str) :
  keyword_match text <-> IntentClassifier.classify_by_keywords text <> [].
Proof.
  unfold keyword_match, IntentClassifier.classify_by_keywords.
  rewrite sorted_desc_nil.
  generalize IntentClassifier.intent_keywords as table.
  induction table as [|[i kws] table IH]; simpl.
  - split; [|congruence]. intros (? & ? & ? & H & _). now apply elem_of_nil in H.
  - split.
    + intros (intent & kws' & kw & He & Hk & Hc) Hnil.
      apply app_eq_nil in Hnil as [H1 H2].
      apply elem_of_cons in He as [He|He].
      * injection He as -> ->.
        destruct (0 <? length (List.filter _ kws))%nat eqn:E; [discriminate|].
        apply Nat.ltb_ge in E.
        assert (Hin : In kw (List.filter (fun keyword => contains keyword (lower text)) kws)).
        { apply filter_In. split; [now apply list_elem_of_In | exact Hc]. }
        destruct (List.filter _ kws); [exact Hin | simpl in E; lia].
      * apply IH; [|exact H2]. eauto 10.
    + intros Hne.
      destruct (0 <? length (List.filter (fun keyword => contains keyword (lower text)) kws))%nat
        eqn:E.
      * apply Nat.ltb_lt in E.
        destruct (List.filter (fun keyword => contains keyword (lower text)) kws)
          as [|kw l] eqn:Ef; [simpl in E; lia|].
        assert (Hin : In kw (List.filter (fun keyword => contains keyword (lower text)) kws))
          by (rewrite Ef; now left).
        apply filter_In in Hin as [Hin Hc].
        exists i, kws, kw. split_and!; [now left | now apply list_elem_of_In | exact Hc].
      * simpl in Hne. apply IH in Hne as (intent & kws' & kw & He & Hk & Hc).
        exists intent, kws', kw. split_and!; [now right | exact Hk | exact Hc].
Qed.

Lemma pattern_match_scored (text : str) :
  pattern_match text <-> IntentClassifier.classify_by_patterns text <> [].
Proof.
  unfold pattern_match, IntentClassifier.classify_by_patterns.
  rewrite sorted_desc_nil.
  generalize IntentClassifier.patterns as table.
  induction table as [|[i ps] table IH]; simpl.
  - split; [|congruence]. intros (? & ? & ? & H & _). now apply elem_of_nil in H.
  - split.
    + intros (intent & ps' & p & He & Hp & Hs) Hnil.
      apply app_eq_nil in Hnil as [H1 H2].
      apply elem_of_cons in He as [He|He].
      * injection He as -> ->.
        destruct (existsb (fun pattern => Re.search pattern text true) ps) eqn:E;
          [discriminate|].
        assert (E' : existsb (fun pattern => Re.search pattern text true) ps = true).
        { apply existsb_exists. exists p. split; [now apply list_elem_of_In | exact Hs]. }
        congruence.
      * apply IH; [|exact H2]. eauto 10.
    + intros Hne.
      destruct (existsb (fun pattern => Re.search pattern text true) ps) eqn:E.
      * apply existsb_exists in E as (p & Hin & Hs).
        exists i, ps, p. split_and!; [now left | now apply list_elem_of_In | exact Hs].
      * simpl in Hne. apply IH in Hne as (intent & ps' & p & He & Hp & Hs).
        exists intent, ps', p. split_and!; [now right | exact Hp | exact Hs].
Qed.



(** ** C1: messages that need clarification *)

(** *** Extracted amounts are not negative *)

Lemma float_of_str_nonneg (s : str) (x : Q) : float_of_str s = Some x -> (0 <= x)%Q.
Proof.
  unfold float_of_str.
  destruct (take_while is_digit s) as [|c ip]; [discriminate|].
  destruct (drop_while is_digit s) as [|d fp].
  - destruct (digits_value 0 (c :: ip)) as [n|]; [|discriminate].
    intros [= <-]. change 0%Q with (inject_Z 0). rewrite <- Zle_Qle. lia.
  - destruct (d =? ch ".")%N; [|discriminate].
    destruct fp as [|f fp]; [discriminate|].
    destruct (digits_value 0 (c :: ip)) as [n|]; [|discriminate].
    destruct (digits_value 0 (f :: fp)) as [m|]; [|discriminate].
    intros [= <-].
    assert (H1 : (0 <= inject_Z (Z.of_N n))%Q).
    { change 0%Q with (inject_Z 0). rewrite <- Zle_Qle. lia. }
    match goal with
    | |- (0 <= _ + ?q)%Q =>
        assert (H2 : (0 <= q)%Q) by (unfold Qle; simpl; lia);
        revert H2; generalize q
    end.
    intros frac H2. lra.
Qed.

Lemma int_of_str_nonneg (s : str) (z : Z) : int_of_str s = Some z -> (0 <= z)%Z.
Proof.
  unfold int_of_str. destruct s as [|c s]; [discriminate|].
  destruct (digits_value 0 (c :: s)) as [n|]; [|discriminate].
  intros [= <-]. lia.
Qed.

Lemma _normalize_money_nonneg (value unit : str) :
  (0 <= EntityExtractor._normalize_money value unit)%Q.
Proof.
  unfold EntityExtractor._normalize_money.
  destruct (float_of_str _) as [x|] eqn:E; [|lra].
  apply float_of_str_nonneg in E.
  destruct (_ || _).
  - apply Qle_shift_div_l; lra.
  - destruct (_ || _); [nra | exact E].
Qed.

Lemma normalize_group_nonneg (mt : Re.Match) (unit : str) :
  (0 <= EntityExtractor.normalize_group mt unit)%Q.
Proof.
  unfold EntityExtractor.normalize_group.
  destruct (Re.group mt 1); [apply _normalize_money_nonneg | lra].
Qed.

Lemma first_match_of_each_inv {A : Type} (P : A -> Prop) (patterns : list str)
    (text : str) (f : Re.Match -> A) (init : A) :
  P init -> (forall mt, P (f mt)) ->
  P (EntityExtractor.first_match_of_each patterns text f init).
Proof.
  intros Hi Hf. unfold EntityExtractor.first_match_of_each.
  revert init Hi. induction patterns as [|p ps IH]; intros init Hi; simpl; [exact Hi|].
  apply IH. destruct (Re.finditer p text true); [exact Hi | apply Hf].
Qed.

Lemma extract_money_entities_nonneg (text : str) :
  Forall (fun e => (0 <= value e)%Q) (EntityExtractor.extract_money_entities text).
Proof.
  unfold EntityExtractor.extract_money_entities.
  induction EntityExtractor.money_patterns as [|p ps IH]; simpl; [constructor|].
  apply Forall_app. split; [|exact IH].
  apply Forall_fmap, Forall_true. intros mt. simpl. apply normalize_group_nonneg.
Qed.

(** The profile of a message is always constructed. *)
Lemma build_user_profile_ok (so : SetOrder) (text : str) :
  exists p,
    EntityExtractor.build_user_profile (EntityExtractor.extract_all_entities so text) = Ok p.
Proof.
  unfold EntityExtractor.build_user_profile, EntityExtractor.extract_all_entities.
  cbn [loan_info monthly_payment primary_liquidity].
  unfold EntityExtractor.extract_loan_info, EntityExtractor.extract_monthly_payment.
  cbv beta iota zeta. unfold UserProfile_init.
  assert (H1 : ge0 (default 0%Q
                      match EntityExtractor.extract_money_entities text with
                      | [] => None
                      | first :: _ => Some (value first)
                      end) = true).
  { pose proof (extract_money_entities_nonneg text) as H.
    destruct (EntityExtractor.extract_money_entities text) as [|e es]; simpl.
    - reflexivity.
    - apply Forall_cons in H as [H _]. now apply Qle_bool_iff. }
  assert (H2 : forall ps,
             ge0 (EntityExtractor.first_match_of_each ps text
                    (fun mt => EntityExtractor.normalize_group mt EntityExtractor.default_unit)
                    0%Q) = true).
  { intros ps. apply (first_match_of_each_inv (fun x => ge0 x = true)); [reflexivity|].
    intros mt. apply Qle_bool_iff, normalize_group_nonneg. }
  assert (H3 : (0 <=? EntityExtractor.first_match_of_each EntityExtractor.time_patterns text
                        (fun mt => default 0%Z (Re.group mt 1 ≫= int_of_str)) 0%Z)%Z = true).
  { apply (first_match_of_each_inv (fun x => (0 <=? x)%Z = true)); [reflexivity|].
    intros mt. apply Z.leb_le.
    destruct (Re.group mt 1) as [g|]; simpl; [|lia].
    destruct (int_of_str g) as [z|] eqn:E; simpl; [|lia].
    now apply int_of_str_nonneg in E. }
  rewrite H1, !H2, H3. change (ge0 0%Q) with true. cbn [andb]. eauto.
Qed.

(** *** The overall confidence of an unclassified message *)

Lemma _calculate_confidence_bound (ic : Q) (e : Entities) (p : UserProfile) :
  (0 <= ic)%Q -> (ic <= 0.3)%Q ->
  (0 <= NLUProcessor._calculate_confidence ic e p)%Q
  /\ (NLUProcessor._calculate_confidence ic e p <= 0.48)%Q.
Proof.
  intros H0 H1. unfold NLUProcessor._calculate_confidence.
  destruct (money_entities e), (locations e), (si_type (e_search_type e)),
    (Qeq_bool (total_budget p) 0 && Qeq_bool (max_monthly_payment p) 0);
    (split; [apply py_min_glb; lra | eapply Qle_trans; [apply py_min_le_l | lra]]).
Qed.

(** *** The intent of a message no keyword and no pattern matches *)

Lemma classify_unmatched (text : str) :
  ~ keyword_match text -> ~ pattern_match text ->
  fst (IntentClassifier.classify text) = UNKNOWN
  /\ (snd (IntentClassifier.classify text) = 0%Q
      \/ snd (IntentClassifier.classify text) = 0.3%Q).
Proof.
  intros Hk Hp. unfold IntentClassifier.classify.
  destruct (negb (truthy text) || (len (strip text) <? 2)%nat); [split; [reflexivity | now left]|].
  assert (Ek : IntentClassifier.classify_by_keywords text = []).
  { destruct (IntentClassifier.classify_by_keywords text) eqn:E; [reflexivity|].
    exfalso. apply Hk, keyword_match_scored. rewrite E. discriminate. }
  assert (Ep : IntentClassifier.classify_by_patterns text = []).
  { destruct (IntentClassifier.classify_by_patterns text) eqn:E; [reflexivity|].
    exfalso. apply Hp, pattern_match_scored. rewrite E. discriminate. }
  rewrite Ek, Ep. unfold IntentClassifier.add_scores. cbn [foldl map].
  assert (Hf : existsb (fun word => contains word (lower text))
                 IntentClassifier.search_fallback_words = false).
  { apply not_true_iff_false. rewrite existsb_exists. intros (w & Hw & Hc).
    apply Hk. exists SEARCH.
    exists [py "می‌خواهم"; py "بخواهم"; py "بخواهیم"; py "بررسی"; py "جستجو";
            py "پیدا کنم"; py "خرید"; py "تهیه"; py "بگیرم"; py "نگاه کنم";
            py "ببینم"; py "چک کنم"].
    exists w. split_and!; [now left | | exact Hc].
    apply list_elem_of_In.
    unfold IntentClassifier.search_fallback_words in Hw. simpl in Hw |- *.
    destruct Hw as [<-|[<-|[<-|[<-|[]]]]]; auto 10. }
  rewrite Hf. split; [reflexivity | now right].
Qed.

(** Whatever its entities, a message whose intent is [UNKNOWN] is answered
    with a request for clarification, a confidence below 0.5 and no query;
    the history of the engine is unchanged. *)
Lemma process_message_unmatched (so : SetOrder) (history : gmap str (list Interaction))
    (text : str) (session_id : option str) (now : str) :
  ~ keyword_match text -> ~ pattern_match text ->
  let response := fst (ChatbotEngine.process_message so history text session_id now) in
  success response = true
  /\ requires_clarification response = true
  /\ (confidence response < 0.5)%Q
  /\ query response = None
  /\ snd (ChatbotEngine.process_message so history text session_id now) = history.
Proof.
  intros Hk Hp.
  destruct (classify_unmatched text Hk Hp) as [Hi Hc].
  unfold ChatbotEngine.process_message, NLUProcessor.process.
  destruct (IntentClassifier.classify text) as [intent ic]. simpl in Hi, Hc. subst intent.
  destruct (build_user_profile_ok so text) as [p Hprof]. rewrite Hprof. simpl.
  destruct (build_search_goals_budget (EntityExtractor.extract_all_entities so text) p)
    as (goals & Hg & _ & _).
  rewrite Hg. simpl.
  assert (Hrc : IntentClassifier.requires_clarification UNKNOWN ic = true).
  { unfold IntentClassifier.requires_clarification. destruct (Qltb ic 0.5); reflexivity. }
  rewrite Hrc. simpl.
  assert (Hic : (0 <= ic)%Q /\ (ic <= 0.3)%Q).
  { destruct Hc as [->| ->]; split; lra. }
  destruct (_calculate_confidence_bound ic (EntityExtractor.extract_all_entities so text) p)
    as [Hlo Hhi]; [tauto | tauto |].
  unfold ChatbotResponse_init.
  assert (Qle_bool 0 (NLUProcessor._calculate_confidence ic
                        (EntityExtractor.extract_all_entities so text) p) = true) as ->
    by (apply Qle_bool_iff; exact Hlo).
  assert (Qle_bool (NLUProcessor._calculate_confidence ic
                      (EntityExtractor.extract_all_entities so text) p) 1 = true) as ->
    by (apply Qle_bool_iff; lra).
  simpl. split_and!; try reflexivity. lra.
Qed.

(** C1, as stated, fails: the message "سلام" has no money entity and no
    location, it contains the greeting keyword "سلام", is classified with
    confidence 1, requires no clarification, and a structured query is
    produced (its overall confidence, 0.4 * 0.7, is below 0.5). *)
Lemma C1_counterexample_greeting :
  EntityExtractor.extract_money_entities (py "سلام") = []
  /\ EntityExtractor.extract_location listed_order (py "سلام") = []
  /\ fst (IntentClassifier.classify (py "سلام")) = GREETING
  /\ (snd (IntentClassifier.classify (py "سلام")) == 1)%Q
  /\ requires_clarification
       (fst (ChatbotEngine.process_message listed_order ∅ (py "سلام") None (py "t")))
     = false
  /\ (exists q,
        query (fst (ChatbotEngine.process_message listed_order ∅ (py "سلام") None (py "t")))
        = Some q)
  /\ (confidence
        (fst (ChatbotEngine.process_message listed_order ∅ (py "سلام") None (py "t")))
      < 0.5)%Q.
Proof.
  split_and!; try (vm_compute; reflexivity).
  vm_compute. eexists. reflexivity.
Qed.

(** C1, amended. For every input message containing no money or location
    markers in which, moreover, no intent keyword occurs and which no
    intent pattern matches, processing the message yields
    [requires_clarification = true] and an overall confidence strictly below
    0.5, and no structured query is produced. *)
Theorem C1_unmatched_message_requires_clarification (so : SetOrder)
    (history : gmap str (list Interaction)) (text : str) (session_id : option str)
    (now : str) :
  EntityExtractor.extract_money_entities text = [] ->
  EntityExtractor.extract_location so text = [] ->
  ~ keyword_match text -> ~ pattern_match text ->
  let response := fst (ChatbotEngine.process_message so history text session_id now) in
  success response = true
  /\ requires_clarification response = true
  /\ (confidence response < 0.5)%Q
  /\ query response = None.
Proof.
  intros _ _ Hk Hp response.
  destruct (process_message_unmatched so history text session_id now Hk Hp)
    as (H1 & H2 & H3 & H4 & _).
  auto.
Qed.

Lemma C1_unmatched_message_requires_clarification_witness :
  let response :=
    fst (ChatbotEngine.process_message listed_order ∅ (py "xyz") None (py "t")) in
  success response = true
  /\ requires_clarification response = true
  /\ (confidence response < 0.5)%Q
  /\ query response = None.
Proof.
  apply (C1_unmatched_message_requires_clarification listed_order ∅ (py "xyz") None (py "t")).
  - vm_compute. reflexivity.
  - vm_compute. reflexivity.
  - intros H. apply keyword_match_scored in H. vm_compute in H. congruence.
  - intros H. apply pattern_match_scored in H. vm_compute in H. congruence.
Defined.

(** ** Worked scenarios *)

Lemma C4_one_duplicate_removed_witness :
  let out := DataNormalizer.normalize_batch listed_order batch_with_duplicate in
  filter (fun n => Normalized.url n = CrawledItem.url item_a) (NormalizedBatch.items out)
    = [normalized item_a]
  /\ DataNormalizer._normalize_item item_a = Some (normalized item_a)
  /\ NormalizedBatch.items out ≡ₚ map normalized ([] ++ item_a :: [item_c] ++ [])
  /\ NormalizedBatch.duplicates_removed out = 1%Z
  /\ NormalizedBatch.total_items out
     = (Z.of_nat (length (DataNormalizer.collect_items batch_with_duplicate)) - 1)%Z.
Proof.
  apply (C4_one_duplicate_removed listed_order batch_with_duplicate
           [] [item_c] [] item_a item_a').
  - reflexivity.
  - reflexivity.
  - apply (bool_decide_unpack _). vm_compute. exact I.
Defined.

Lemma C8_normalize_batch_order_independent_witness :
  let out := DataNormalizer.normalize_batch listed_order batch_distinct in
  let out' := DataNormalizer.normalize_batch reverse_order batch_distinct_swapped in
  NormalizedBatch.items out ≡ₚ NormalizedBatch.items out'
  /\ (forall n, n ∈ NormalizedBatch.items out <-> n ∈ NormalizedBatch.items out')
  /\ NormalizedBatch.total_items out = NormalizedBatch.total_items out'
  /\ NormalizedBatch.duplicates_removed out = 0%Z
  /\ NormalizedBatch.duplicates_removed out' = 0%Z.
Proof.
  apply (C8_normalize_batch_order_independent listed_order reverse_order
           batch_distinct batch_distinct_swapped).
  - apply (bool_decide_unpack _). vm_compute. exact I.
  - simpl. apply Permutation_swap.
Defined.

Example scenario_C :
  let batch :=
    CrawlerManager.crawl_batch manager_xy network_x_down reverse_order
      [mkCrawlQuery (py "site-x") [] (Some 1%Z); mkCrawlQuery (py "site-y") [] (Some 1%Z)]
      true in
  CrawlBatchResult.success batch = true
  /\ CrawlBatchResult.total_items batch = 5%Z
  /\ map (fun r => (CrawlResult.success r, CrawlResult.total_items r, CrawlResult.errors r))
         (CrawlBatchResult.results batch)
     = [(true, 5%Z, []); (false, 0%Z, ["Failed to fetch page content"%string])].
Proof. vm_compute. split_and!; reflexivity. Qed.

(** Scenario A: the message of the repository's own test. *)
Example scenario_A :
  let e :=
    EntityExtractor.extract_all_entities listed_order
      (py "من 600 میلیون نقد دارم و می‌خواهم خانه در تهران اکباتان رهن کنم") in
  primary_liquidity e = Some 600%Q
  /\ py "اکباتان" ∈ locations e
  /\ si_type (e_search_type e) = Some RESIDENTIAL_RENT.
Proof.
  vm_compute. split_and!; [reflexivity | | reflexivity].
  constructor.
Qed.

(** The second test of the repository: the message yields a query. *)
Example test_chatbot_engine :
  let response :=
    fst (ChatbotEngine.process_message listed_order ∅
           (py "من 60 میلیون پول دارم چطور می‌توانم یک مدل گوشی مناسب تهیه کنم")
           None (py "t")) in
  success response = true
  /\ exists q, query response = Some q /\ (0 < liquidity (user_profile q))%Q.
Proof.
  vm_compute. split; [reflexivity|]. eexists. split; reflexivity.
Qed.

(** The score 0.8 of C10 is reached by an item with every field present. *)
Example completeness_0_8_reached :
  (DataNormalizer._calculate_completeness
     (CrawledItem.mk (py "1") (py "divar") (py "t") (Some (py "d")) (py "u") (Some 1%Q)
        None None (Some (py "l")) (Some (py "c")) (Some (py "d")) [py "i"] None
        [(py "k", VNone)] 0 None 1 1)
   == 0.8)%Q.
Proof. vm_compute. reflexivity. Qed.

(* ===================================================================== *)
(** * Further properties of the program *)
(* ===================================================================== *)

(** ** The outcomes of [classify] *)

Lemma dict_set_keys_scored (k : IntentType) (v : Q) (d : list (IntentType * Q)) :
  k ∈ scored_intents -> keys_scored d -> keys_scored (dict_set k v d).
Proof.
  intros Hk. induction 1 as [|[k' v'] d Hk' Hd IH]; simpl.
  - constructor; [exact Hk | constructor].
  - destruct (decide (k = k')) as [->|_]; constructor; assumption.
Qed.

Lemma add_scores_keys_scored (w : Q) (results d : list (IntentType * Q)) :
  keys_scored results -> keys_scored d ->
  keys_scored (IntentClassifier.add_scores w results d).
Proof.
  intros Hr. revert d. unfold IntentClassifier.add_scores.
  induction Hr as [|[k s] results Hk _ IH]; intros d Hd; simpl; [exact Hd|].
  apply IH. now apply dict_set_keys_scored.
Qed.

Lemma table_keys_scored {A : Type} (table : list (IntentType * list str))
    (f : IntentType -> list str -> list (IntentType * A)) :
  Forall (fun e => fst e ∈ scored_intents) table ->
  (forall i l p, p ∈ f i l -> fst p = i) ->
  Forall (fun p => fst p ∈ scored_intents) (flat_map (fun '(i, l) => f i l) table).
Proof.
  intros Ht Hf. induction Ht as [|[i l] table Hi _ IH]; simpl; [constructor|].
  apply Forall_app. split; [|exact IH].
  apply Forall_forall. intros p Hp. now rewrite (Hf i l p Hp).
Qed.

Lemma classify_by_keywords_keys (text : str) :
  keys_scored (IntentClassifier.classify_by_keywords text).
Proof.
  unfold IntentClassifier.classify_by_keywords, keys_scored.
  rewrite sorted_desc_perm.
  apply (table_keys_scored IntentClassifier.intent_keywords
           (fun intent_type keywords =>
              if (0 <? length (List.filter (fun keyword => contains keyword (lower text))
                                 keywords))%nat
              then [(intent_type,
                     py_min (inject_Z (Z.of_nat
                               (length (List.filter
                                          (fun keyword => contains keyword (lower text))
                                          keywords)))
                             / inject_Z (Z.of_nat (length keywords)) * 2) 1)%Q]
              else [])).
  - unfold IntentClassifier.intent_keywords, scored_intents.
    repeat (apply Forall_cons; split; [simpl; set_solver|]). constructor.
  - intros i l p Hp. destruct (0 <? _)%nat; [|now apply elem_of_nil in Hp].
    apply list_elem_of_singleton in Hp. now subst p.
Qed.

Lemma classify_by_patterns_keys (text : str) :
  keys_scored (IntentClassifier.classify_by_patterns text).
Proof.
  unfold IntentClassifier.classify_by_patterns, keys_scored.
  rewrite sorted_desc_perm.
  apply (table_keys_scored IntentClassifier.patterns
           (fun intent_type pats =>
              if existsb (fun pattern => Re.search pattern text true) pats
              then [(intent_type, 0.9%Q)] else [])).
  - unfold IntentClassifier.patterns, scored_intents.
    repeat (apply Forall_cons; split; [simpl; set_solver|]). constructor.
  - intros i l p Hp. destruct (existsb _ l); [|now apply elem_of_nil in Hp].
    apply list_elem_of_singleton in Hp. now subst p.
Qed.

(** The intent of a scored text is one of the scored intents. *)
Lemma classify_scored_intent (text : str) :
  long_enough text = true ->
  IntentClassifier.classify_by_keywords text <> []
  \/ IntentClassifier.classify_by_patterns text <> [] ->
  fst (IntentClassifier.classify text) ∈ scored_intents.
Proof.
  intros Hlong Hmatch. unfold IntentClassifier.classify.
  unfold long_enough in Hlong. apply andb_true_iff in Hlong as [Ht Hl].
  apply Nat.leb_le in Hl.
  assert ((len (strip text) <? 2)%nat = false) as -> by (apply Nat.ltb_ge; exact Hl).
  rewrite Ht. simpl negb. simpl orb. cbv iota.
  set (d := IntentClassifier.add_scores 0.4%Q (IntentClassifier.classify_by_patterns text)
              (IntentClassifier.add_scores 0.6%Q
                 (IntentClassifier.classify_by_keywords text) [])).
  assert (Hkeys : keys_scored d).
  { apply add_scores_keys_scored; [apply classify_by_patterns_keys|].
    apply add_scores_keys_scored; [apply classify_by_keywords_keys | constructor]. }
  assert (Hne : d <> []).
  { apply add_scores_nonempty. destruct Hmatch as [H|H]; [|now left].
    right. apply add_scores_nonempty. now left. }
  set (mx := IntentClassifier.max_value d).
  set (nd := map (fun '(intent, score) => (intent, py_min (score / mx) 1)%Q) d).
  assert (Hnd : forall p, p ∈ nd -> fst p ∈ scored_intents).
  { intros p Hp. apply list_elem_of_fmap in Hp as ([i s] & -> & Hin). simpl.
    unfold keys_scored in Hkeys. rewrite Forall_forall in Hkeys.
    apply (Hkeys (i, s) Hin). }
  destruct nd as [|first rest] eqn:End.
  { destruct d; [congruence | discriminate]. }
  destruct (max_by_spec snd rest first) as (Hin & _ & _).
  apply Hnd. destruct Hin as [->|Hin]; [now left | now right].
Qed.

(** The outcomes of [classify]. *)
Lemma classify_outcomes (text : str) :
  let intent := fst (IntentClassifier.classify text) in
  let confidence := snd (IntentClassifier.classify text) in
  (intent = UNKNOWN <-> ~ (keyword_match text \/ pattern_match text))
  /\ (intent = UNKNOWN -> confidence = 0%Q \/ confidence = 0.3%Q)
  /\ (intent <> UNKNOWN -> intent ∈ scored_intents /\ (confidence == 1)%Q)
  /\ ~ (confidence == 0.7)%Q
  /\ (IntentClassifier.requires_clarification intent confidence = true <-> intent = UNKNOWN).
Proof.
  intros intent confidence.
  assert (Hdec : (keyword_match text \/ pattern_match text)
                 \/ (~ keyword_match text /\ ~ pattern_match text)).
  { rewrite keyword_match_scored, pattern_match_scored.
    destruct (IntentClassifier.classify_by_keywords text);
      destruct (IntentClassifier.classify_by_patterns text);
      [right; split; congruence | left; right; discriminate
       | left; left; discriminate | left; left; discriminate]. }
  destruct Hdec as [Hm|[Hk Hp]].
  - assert (Hlong : long_enough text = true).
    { destruct Hm as [H|H];
        [now apply keyword_match_long_enough | now apply pattern_match_long_enough]. }
    assert (Hscored : IntentClassifier.classify_by_keywords text <> []
                      \/ IntentClassifier.classify_by_patterns text <> []).
    { destruct Hm as [H|H];
        [left; now apply keyword_match_scored | right; now apply pattern_match_scored]. }
    destruct (classify_scored text Hlong Hscored) as [Hc Hi].
    pose proof (classify_scored_intent text Hlong Hscored) as Hin.
    fold intent in Hi, Hin. fold confidence in Hc.
    assert (Hrc : IntentClassifier.requires_clarification intent confidence = false).
    { unfold IntentClassifier.requires_clarification.
      assert (Qltb confidence 0.5 = false) as -> by (apply Qltb_ge; rewrite Hc; lra).
      destruct (decide (intent = UNKNOWN)); [contradiction | reflexivity]. }
    split_and!.
    + split; [intros H; contradiction | intros H; contradiction].
    + intros H. contradiction.
    + intros _. split; assumption.
    + rewrite Hc. lra.
    + rewrite Hrc. split; [discriminate | intros H; contradiction].
  - destruct (classify_unmatched text Hk Hp) as [Hi Hc].
    fold intent in Hi. fold confidence in Hc.
    assert (Hrc : IntentClassifier.requires_clarification intent confidence = true).
    { unfold IntentClassifier.requires_clarification. rewrite Hi.
      destruct (Qltb confidence 0.5); reflexivity. }
    split_and!.
    + split; [intros _ [H|H]; contradiction | intros _; exact Hi].
    + intros _. exact Hc.
    + intros H. contradiction.
    + destruct Hc as [-> | ->]; lra.
    + rewrite Hrc. split; [intros _; exact Hi | reflexivity].
Qed.

(** X1. [classify] returns [UNKNOWN] exactly when no intent keyword occurs
    in the text and no intent pattern matches it, and then with confidence
    0.0 or 0.3; otherwise it returns one of the five intents that have
    keywords, never [CLARIFY], with confidence 1.  So the pair
    [(SEARCH, 0.7)] of the fallback is never returned, and
    [requires_clarification] holds of the result exactly when the intent is
    [UNKNOWN]. *)
Theorem X1_classify_outcomes (text : str) :
  let intent := fst (IntentClassifier.classify text) in
  let confidence := snd (IntentClassifier.classify text) in
  (intent = UNKNOWN <-> ~ (keyword_match text \/ pattern_match text))
  /\ (intent = UNKNOWN -> confidence = 0%Q \/ confidence = 0.3%Q)
  /\ (intent <> UNKNOWN -> intent ∈ scored_intents /\ (confidence == 1)%Q)
  /\ ~ (confidence == 0.7)%Q
  /\ (IntentClassifier.requires_clarification intent confidence = true <-> intent = UNKNOWN).
Proof. exact (classify_outcomes text). Qed.

(** ** The responses of the chatbot engine *)








(** ** The history of the sessions *)



(** ** The entity extractor *)

(** The type, the flags and the label [extract_search_type] ends with. *)
Lemma extract_search_type_precedence (text : str) :
  let info := EntityExtractor.extract_search_type text in
  si_type info
  = (if lease_keyword text && car_word text then Some VEHICLE_LEASE
     else if vehicle_keyword text && purchase_keyword text then Some VEHICLE_PURCHASE
     else if rent_keyword text then Some RESIDENTIAL_RENT
     else if purchase_keyword text then Some RESIDENTIAL_PURCHASE
     else None)
  /\ is_rent info = rent_keyword text
  /\ is_purchase info = purchase_keyword text
  /\ is_lease info = lease_keyword text
  /\ si_search_type info
     = (if rent_keyword text
        then (if contains (py "رهن کامل") (lower text) then py "رهن کامل" else py "رهن و اجاره")
        else []).
Proof.
  unfold EntityExtractor.extract_search_type, rent_keyword, purchase_keyword,
    vehicle_keyword, lease_keyword, car_word.
  cbv zeta. generalize (lower text). intros t.
  generalize (EntityExtractor.any_in [py "خرید"; py "تهیه"; py "بگیرم"] t).
  generalize (EntityExtractor.any_in [py "لیزینگ"; py "قسط"; py "اقساط"] t).
  intros lease purchase.
  unfold EntityExtractor.any_in. cbn [existsb].
  generalize (contains (py "رهن") t) (contains (py "اجاره") t)
    (contains (py "رهن کامل") t) (contains (py "ماشین") t) (contains (py "خودرو") t)
    (contains (py "اتومبیل") t).
  intros r1 r2 r3 v1 v2 v3.
  generalize (py "رهن کامل") (py "رهن و اجاره"). intros full part.
  destruct lease, purchase, r1, r2, r3, v1, v2, v3;
    cbn [si_type si_search_type is_rent is_purchase is_lease andb orb];
    split_and!; reflexivity.
Qed.

(** X6. The goal type [extract_search_type] ends with is decided by this
    order of precedence: a lease keyword together with "ماشین" or "خودرو"
    gives vehicle-lease; otherwise a vehicle keyword together with a
    purchase keyword gives vehicle-purchase; otherwise a rent keyword gives
    residential-rent; otherwise a purchase keyword gives
    residential-purchase; otherwise no type is set.  The three flags are the
    presence of the rent, purchase and lease keywords, and the label is set
    by the rent rule alone.  In particular the vehicle word "اتومبیل" with a
    lease keyword and no purchase keyword sets no vehicle type. *)
Theorem X6_extract_search_type_precedence (text : str) :
  let info := EntityExtractor.extract_search_type text in
  si_type info
  = (if lease_keyword text && car_word text then Some VEHICLE_LEASE
     else if vehicle_keyword text && purchase_keyword text then Some VEHICLE_PURCHASE
     else if rent_keyword text then Some RESIDENTIAL_RENT
     else if purchase_keyword text then Some RESIDENTIAL_PURCHASE
     else None)
  /\ is_rent info = rent_keyword text
  /\ is_purchase info = purchase_keyword text
  /\ is_lease info = lease_keyword text
  /\ si_search_type info
     = (if rent_keyword text
        then (if contains (py "رهن کامل") (lower text) then py "رهن کامل" else py "رهن و اجاره")
        else []).
Proof. exact (extract_search_type_precedence text). Qed.

(** The loop over a list of patterns keeps the first match of the last
    pattern that matches. *)
Lemma first_match_of_each_last {A : Type} (before after : list str) (pattern text : str)
    (f : Re.Match -> A) (init : A) (mt : Re.Match) :
  first_match pattern text = Some mt ->
  Forall (fun later => first_match later text = None) after ->
  EntityExtractor.first_match_of_each (before ++ pattern :: after) text f init = f mt.
Proof.
  intros Hm Hafter. unfold EntityExtractor.first_match_of_each, first_match in *.
  rewrite foldl_app. cbn [foldl].
  destruct (Re.finditer pattern text true) as [|mt' rest] eqn:E; [discriminate|].
  injection Hm as ->.
  generalize (f mt). clear E.
  induction Hafter as [|later after Hl _ IH]; intros a; cbn [foldl]; [reflexivity|].
  destruct (Re.finditer later text true); [apply IH | discriminate].
Qed.

(** X7. The loan amount of [extract_loan_info] is read from the first match
    of the last loan pattern that matches the text: a later pattern of the
    list overwrites what an earlier one found.  The same holds of the monthly
    payment and its patterns. *)
Theorem X7_last_matching_pattern_wins (text : str) (before after : list str)
    (pattern : str) (mt : Re.Match) :
  first_match pattern text = Some mt ->
  Forall (fun later => first_match later text = None) after ->
  (EntityExtractor.loan_patterns = before ++ pattern :: after ->
   fst (EntityExtractor.extract_loan_info text)
   = EntityExtractor.normalize_group mt EntityExtractor.default_unit)
  /\ (EntityExtractor.monthly_patterns = before ++ pattern :: after ->
      EntityExtractor.extract_monthly_payment text
      = EntityExtractor.normalize_group mt EntityExtractor.default_unit).
Proof.
  intros Hm Hafter. split; intros Hp.
  - unfold EntityExtractor.extract_loan_info. cbn [fst]. rewrite Hp.
    exact (first_match_of_each_last before after pattern text
             (fun m => EntityExtractor.normalize_group m EntityExtractor.default_unit)
             0%Q mt Hm Hafter).
  - unfold EntityExtractor.extract_monthly_payment. rewrite Hp.
    exact (first_match_of_each_last before after pattern text
             (fun m => EntityExtractor.normalize_group m EntityExtractor.default_unit)
             0%Q mt Hm Hafter).
Qed.

(** X8. The locations [extract_location] returns are pairwise distinct,
    whatever the order in which the set is enumerated; each is a word of the
    gazetteer that occurs in the text or the stripped capture, longer than
    two characters, of a match of a location pattern; and every word of the
    gazetteer that occurs in the text is returned.  Every location has more
    than two characters, so none is empty. *)
Theorem X8_extract_location (so : SetOrder) (text : str) :
  let found := EntityExtractor.extract_location so text in
  NoDup found
  /\ (forall keyword,
        keyword ∈ EntityExtractor.location_keywords -> contains keyword text = true ->
        keyword ∈ found)
  /\ (forall location,
        location ∈ found ->
        (location ∈ EntityExtractor.location_keywords /\ contains location text = true)
        \/ exists pattern mt g,
             pattern ∈ EntityExtractor.location_patterns
             /\ mt ∈ Re.finditer pattern text true
             /\ Re.group mt 1 = Some g
             /\ location = strip g)
  /\ (forall location, location ∈ found -> (2 < len location)%nat).
Proof.
  intros found. subst found. unfold EntityExtractor.extract_location.
  set (by_keyword := List.filter (fun keyword => contains keyword text)
                       EntityExtractor.location_keywords).
  set (by_pattern := flat_map _ EntityExtractor.location_patterns).
  assert (Hin : forall x,
             x ∈ enumerate so (remove_dups (by_keyword ++ by_pattern))
             <-> x ∈ by_keyword \/ x ∈ by_pattern).
  { intros x. rewrite (enumerate_perm so), elem_of_remove_dups. apply elem_of_app. }
  assert (Hkw : forall x,
             x ∈ by_keyword
             <-> x ∈ EntityExtractor.location_keywords /\ contains x text = true).
  { intros x. subst by_keyword. rewrite !list_elem_of_In.
    apply (List.filter_In (fun keyword => contains keyword text)). }
  assert (Hpt : forall x,
             x ∈ by_pattern ->
             (2 < len x)%nat
             /\ exists pattern mt g,
                  pattern ∈ EntityExtractor.location_patterns
                  /\ mt ∈ Re.finditer pattern text true
                  /\ Re.group mt 1 = Some g
                  /\ x = strip g).
  { intros x Hx. subst by_pattern. apply list_elem_of_In, in_flat_map in Hx
      as (pattern & Hp & Hx).
    apply in_flat_map in Hx as (mt & Hmt & Hx).
    destruct (Re.group mt 1) as [g|] eqn:Eg; [|destruct Hx].
    destruct (truthy (strip g) && (2 <? len (strip g))%nat) eqn:E; [|destruct Hx].
    destruct Hx as [<-|[]]. apply andb_true_iff in E as [_ E]. apply Nat.ltb_lt in E.
    split; [exact E|]. exists pattern, mt, g.
    split_and!; [now apply list_elem_of_In | now apply list_elem_of_In | exact Eg | reflexivity]. }
  assert (Hlen : Forall (fun k => (2 < len k)%nat) EntityExtractor.location_keywords).
  { unfold EntityExtractor.location_keywords.
    repeat (apply Forall_cons; split; [vm_compute; lia|]). constructor. }
  split_and!.
  - rewrite (enumerate_perm so). apply NoDup_remove_dups.
  - intros keyword Hk Hc. apply Hin. left. now apply Hkw.
  - intros location Hl. apply Hin in Hl as [Hl|Hl].
    + left. now apply Hkw.
    + right. now apply Hpt.
  - intros location Hl. apply Hin in Hl as [Hl|Hl].
    + apply Hkw in Hl as [Hl _]. rewrite Forall_forall in Hlen. now apply Hlen.
    + now apply Hpt.
Qed.

(** ** The goals of a message *)

Lemma goals_for_locations_goal_at (e : Entities) (p : UserProfile) (locs : list str)
    (start : nat) :
  (0 < start)%nat ->
  EntityExtractor.goals_for_locations locs (Z.of_nat start)
    (default GENERAL (si_type (e_search_type e))) (EntityExtractor.select_budget_source p)
    (si_search_type (e_search_type e)) p
  = Ok (imap (fun i location => goal_at e p (start - 1 + i) location) locs).
Proof.
  revert start. induction locs as [|loc locs IH]; intros start Hs; [reflexivity|].
  cbn [EntityExtractor.goals_for_locations]. rewrite SearchGoal_init_budget.
  cbn [mbind Result_bind].
  replace (Z.of_nat start + 1)%Z with (Z.of_nat (S start)) by lia.
  rewrite IH by lia. cbn [mbind Result_bind imap]. f_equal. f_equal.
  - unfold goal_at. f_equal.
    + lia.
    + destruct (Z.eqb_spec (Z.of_nat start) 1), (Nat.eqb_spec (start - 1 + 0) 0);
        try reflexivity; lia.
  - apply imap_ext. intros i x _. unfold compose. f_equal. lia.
Qed.

Lemma build_search_goals_imap (e : Entities) (p : UserProfile) :
  EntityExtractor.build_search_goals e p
  = Ok (imap (goal_at e p) (goal_locations e)).
Proof.
  unfold EntityExtractor.build_search_goals, goal_locations.
  destruct (locations e) as [|loc locs] eqn:El.
  - rewrite SearchGoal_init_budget. reflexivity.
  - etransitivity; [apply (goals_for_locations_goal_at e p (loc :: locs) 1); lia|].
    reflexivity.
Qed.

(** X9. [build_search_goals] never raises.  It builds one goal per
    detected location, in their order, or a single goal with the empty
    location when there is none.  The goal at position [i] has the identifier
    [i + 1], so the identifiers are 1, 2, ... without repetition; only the
    first goal has priority high, the others have priority medium; every goal
    has the type that was detected (general when none was), no minimal
    price, the total budget as maximal price when it is positive and none
    otherwise, the maximal monthly payment as maximal lease payment when it
    is positive and none otherwise, and no additional filter. *)
Theorem X9_build_search_goals (e : Entities) (p : UserProfile) :
  exists goals,
    EntityExtractor.build_search_goals e p = Ok goals
    /\ length goals = length (goal_locations e)
    /\ NoDup (map goal_id goals)
    /\ forall i g,
         goals !! i = Some g ->
         goal_id g = (Z.of_nat i + 1)%Z
         /\ goal_locations e !! i = Some (target_location g)
         /\ priority g = (if (i =? 0)%nat then HIGH else MEDIUM)
         /\ type g = default GENERAL (si_type (e_search_type e))
         /\ min_price g = None
         /\ max_price g
            = (if Qgtb (total_budget p) 0 then Some (total_budget p) else None)
         /\ max_monthly_lease_payment g
            = (if Qgtb (max_monthly_payment p) 0 then Some (max_monthly_payment p) else None)
         /\ additional_filters g = [].
Proof.
  exists (imap (goal_at e p) (goal_locations e)).
  assert (Hlk : forall i g,
             imap (goal_at e p) (goal_locations e) !! i = Some g ->
             exists location, goal_locations e !! i = Some location
                              /\ g = goal_at e p i location).
  { intros i g H. rewrite list_lookup_imap in H.
    destruct (goal_locations e !! i) as [location|]; [|discriminate].
    injection H as <-. eauto. }
  split_and!.
  - apply build_search_goals_imap.
  - apply length_imap.
  - apply NoDup_alt. intros i j z Hi Hj.
    rewrite list_lookup_fmap in Hi, Hj.
    destruct (imap (goal_at e p) (goal_locations e) !! i) as [gi|] eqn:Ei; [|discriminate].
    destruct (imap (goal_at e p) (goal_locations e) !! j) as [gj|] eqn:Ej; [|discriminate].
    apply Hlk in Ei as (li & _ & ->). apply Hlk in Ej as (lj & _ & ->).
    simpl in Hi, Hj. injection Hi as <-. injection Hj as Hij. lia.
  - intros i g H. apply Hlk in H as (location & Hl & ->).
    split_and!; try reflexivity. exact Hl.
Qed.

(** ** Sorting *)

Section SortedDescFacts.
Context {A : Type} (key_ltb : A -> A -> bool).
Hypothesis key_ltb_asym : forall a b, key_ltb a b = true -> key_ltb b a = false.

Lemma insert_desc_HdRel (a x : A) (l : list A) :
  not_below key_ltb a x -> HdRel (not_below key_ltb) a l ->
  HdRel (not_below key_ltb) a (insert_desc key_ltb x l).
Proof.
  intros Hax Hl. destruct l as [|y l]; simpl; [now constructor|].
  destruct (key_ltb x y); constructor; [|exact Hax].
  now inversion Hl.
Qed.

Lemma insert_desc_sorted (x : A) (l : list A) :
  Sorted (not_below key_ltb) l -> Sorted (not_below key_ltb) (insert_desc key_ltb x l).
Proof using key_ltb_asym.
  induction 1 as [|y l Hl IH Hhd]; simpl; [repeat constructor|].
  destruct (key_ltb x y) eqn:E.
  - constructor; [exact IH|]. apply insert_desc_HdRel; [|exact Hhd].
    now apply key_ltb_asym.
  - constructor; [now constructor | now constructor].
Qed.

Lemma sorted_desc_sorted (l : list A) :
  Sorted (not_below key_ltb) (sorted_desc key_ltb l).
Proof using key_ltb_asym.
  induction l as [|x l IH]; simpl; [constructor | now apply insert_desc_sorted].
Qed.

(** Elements none of which is below another keep their order. *)
Lemma insert_desc_filter (P : A -> bool) (x : A) (l : list A) :
  (forall a b, P a = true -> P b = true -> key_ltb a b = false) ->
  List.filter P (insert_desc key_ltb x l) = List.filter P (x :: l).
Proof.
  intros HP. induction l as [|y l IH]; [reflexivity|].
  cbn [insert_desc]. destruct (key_ltb x y) eqn:E; [|reflexivity].
  cbn [List.filter] in *. rewrite IH.
  destruct (P x) eqn:Ex, (P y) eqn:Ey; try reflexivity.
  rewrite (HP x y Ex Ey) in E. discriminate.
Qed.

Lemma sorted_desc_filter (P : A -> bool) (l : list A) :
  (forall a b, P a = true -> P b = true -> key_ltb a b = false) ->
  List.filter P (sorted_desc key_ltb l) = List.filter P l.
Proof.
  intros HP. induction l as [|x l IH]; [reflexivity|].
  cbn [sorted_desc foldr]. fold (sorted_desc key_ltb l).
  rewrite insert_desc_filter by exact HP. cbn [List.filter]. now rewrite IH.
Qed.
End SortedDescFacts.

Lemma StronglySorted_lookup {A : Type} (R : A -> A -> Prop) (l : list A) (i j : nat)
    (a b : A) :
  StronglySorted R l -> (i < j)%nat -> l !! i = Some a -> l !! j = Some b -> R a b.
Proof.
  intros Hs. revert i j. induction Hs as [|x l Hs IH Hall]; intros i j Hij Hi Hj.
  - discriminate.
  - destruct j as [|j]; [lia|]. destruct i as [|i].
    + injection Hi as <-. rewrite Forall_forall in Hall. apply Hall.
      apply list_elem_of_lookup. eauto.
    + apply (IH i j); [lia | exact Hi | exact Hj].
Qed.

(** ** The query generator *)

Lemma set_if_nonempty (cond : bool) (key : str) (value : PyVal)
    (filters : list (str * PyVal)) :
  QueryGenerator.set_if cond key value filters = []
  <-> cond = false /\ filters = [].
Proof.
  unfold QueryGenerator.set_if. destruct cond.
  - split; [intros H; now apply dict_set_nonempty in H | intros [? _]; discriminate].
  - split; [auto | now intros [_ ->]].
Qed.

(** The product sites get no filter exactly when the goal has no price and
    no product name. *)
Lemma _build_product_filters_empty (goal : SearchGoal) :
  QueryGenerator._build_product_filters goal = [] <-> price_or_product goal = false.
Proof.
  unfold QueryGenerator._build_product_filters, price_or_product. cbv zeta.
  rewrite !set_if_nonempty, !orb_false_iff. tauto.
Qed.

(** The vehicle site always gets a filter, its search type. *)
Lemma _build_vehicle_filters_nonempty (goal : SearchGoal) :
  QueryGenerator._build_vehicle_filters goal <> [].
Proof.
  unfold QueryGenerator._build_vehicle_filters. cbv zeta.
  destruct (type goal); apply dict_set_nonempty.
Qed.

(** The real-estate sites get no filter exactly when the goal is not
    residential and has no location and no price. *)
Lemma _build_real_estate_filters_empty (goal : SearchGoal) :
  QueryGenerator._build_real_estate_filters goal = []
  <-> type goal <> RESIDENTIAL_RENT /\ type goal <> RESIDENTIAL_PURCHASE
      /\ location_or_price goal = false.
Proof.
  unfold QueryGenerator._build_real_estate_filters, location_or_price. cbv zeta.
  set (f1 := QueryGenerator.set_if (truthy (target_location goal)) _ _ []).
  set (f2 := QueryGenerator.set_if (truthy_opt_float (max_price goal)) _ _ f1).
  assert (H2 : f2 = [] <-> truthy (target_location goal) = false
                           /\ truthy_opt_float (max_price goal) = false).
  { subst f2 f1. rewrite !set_if_nonempty. tauto. }
  assert (H3 : (if truthy_opt_float (min_price goal)
                then dict_set (py "price_min")
                       (VInt (py_int (default 0%Q (min_price goal)))) f2
                else if truthy_opt_float (max_price goal)
                     then dict_set (py "price_min")
                            (VInt (py_int (default 0%Q (max_price goal) * 0.8))) f2
                     else f2) = []
               <-> truthy (target_location goal) = false
                   /\ truthy_opt_float (max_price goal) = false
                   /\ truthy_opt_float (min_price goal) = false).
  { destruct (truthy_opt_float (min_price goal)).
    - split; [intros H; now apply dict_set_nonempty in H | intros (_ & _ & ?); discriminate].
    - destruct (truthy_opt_float (max_price goal)) eqn:E.
      + split; [intros H; now apply dict_set_nonempty in H | intros (_ & ? & _); discriminate].
      + rewrite H2. tauto. }
  rewrite !orb_false_iff.
  destruct (type goal).
  - split; [|intros (? & _); congruence].
    destruct (contains _ _); intros H; now apply dict_set_nonempty in H.
  - split; [intros H; now apply dict_set_nonempty in H | intros (_ & ? & _); congruence].
  - rewrite H3. split; [intros (? & ? & ?); repeat split; auto; discriminate | tauto].
  - rewrite H3. split; [intros (? & ? & ?); repeat split; auto; discriminate | tauto].
  - rewrite H3. split; [intros (? & ? & ?); repeat split; auto; discriminate | tauto].
  - rewrite H3. split; [intros (? & ? & ?); repeat split; auto; discriminate | tauto].
Qed.

(** The query built for a site, when one is built. *)
Lemma _build_site_query_fields (site : str) (goal : SearchGoal) (q : SearchQuery.t) :
  QueryGenerator._build_site_query site goal = Some q ->
  SearchQuery.site_name q = site
  /\ SearchQuery.goal_id q = goal_id goal
  /\ SearchQuery.priority q = QueryGenerator.priority_level (priority goal)
  /\ SearchQuery.search_type q = QueryGenerator._map_search_type site goal
  /\ SearchQuery.filters q <> [].
Proof.
  unfold QueryGenerator._build_site_query. cbv zeta.
  destruct (if str_eqb site (py "divar") || str_eqb site (py "sheypoor") then _ else _)
    as [|kv filters]; [discriminate|].
  intros [= <-]. cbn. split_and!; try reflexivity. discriminate.
Qed.

(** The sites that support a goal, by the type of the goal. *)
Lemma supported_sites_by_type (goal : SearchGoal) :
  QueryGenerator.supported_sites goal
  = match type goal with
    | RESIDENTIAL_RENT | RESIDENTIAL_PURCHASE => [py "divar"; py "sheypoor"]
    | VEHICLE_PURCHASE => [py "divar"; py "sheypoor"; py "bama"]
    | VEHICLE_LEASE => [py "bama"]
    | ELECTRONICS | GENERAL => [py "torob"; py "digikala"]
    end.
Proof.
  unfold QueryGenerator.supported_sites.
  destruct (type goal); vm_compute; reflexivity.
Qed.

(** The sites of the queries generated for a goal. *)
Lemma _generate_queries_for_goal_sites (goal : SearchGoal) :
  map SearchQuery.site_name (QueryGenerator._generate_queries_for_goal goal)
  = queried_sites goal.
Proof.
  unfold QueryGenerator._generate_queries_for_goal, queried_sites.
  pose proof (_build_real_estate_filters_empty goal) as Hre.
  pose proof (_build_vehicle_filters_nonempty goal) as Hve.
  pose proof (_build_product_filters_empty goal) as Hpr.
  assert (Hdivar : QueryGenerator._build_site_query (py "divar") goal
                   = match QueryGenerator._build_real_estate_filters goal with
                     | [] => None
                     | _ :: _ =>
                         Some (SearchQuery.mk (py "divar") (goal_id goal)
                                 (QueryGenerator._map_search_type (py "divar") goal)
                                 (QueryGenerator._build_real_estate_filters goal)
                                 (QueryGenerator.priority_level (priority goal))
                                 [(py "goal_type", VStr (SearchGoalType_value (type goal)));
                                  (py "target_location", VStr (target_location goal));
                                  (py "budget_source",
                                   VStr (BudgetSource_value (budget_source goal)))])
                     end) by reflexivity.
  assert (Hshey : QueryGenerator._build_site_query (py "sheypoor") goal
                   = match QueryGenerator._build_real_estate_filters goal with
                     | [] => None
                     | _ :: _ =>
                         Some (SearchQuery.mk (py "sheypoor") (goal_id goal)
                                 (QueryGenerator._map_search_type (py "sheypoor") goal)
                                 (QueryGenerator._build_real_estate_filters goal)
                                 (QueryGenerator.priority_level (priority goal))
                                 [(py "goal_type", VStr (SearchGoalType_value (type goal)));
                                  (py "target_location", VStr (target_location goal));
                                  (py "budget_source",
                                   VStr (BudgetSource_value (budget_source goal)))])
                     end) by reflexivity.
  assert (Hbama : QueryGenerator._build_site_query (py "bama") goal
                   = match QueryGenerator._build_vehicle_filters goal with
                     | [] => None
                     | _ :: _ =>
                         Some (SearchQuery.mk (py "bama") (goal_id goal)
                                 (QueryGenerator._map_search_type (py "bama") goal)
                                 (QueryGenerator._build_vehicle_filters goal)
                                 (QueryGenerator.priority_level (priority goal))
                                 [(py "goal_type", VStr (SearchGoalType_value (type goal)));
                                  (py "target_location", VStr (target_location goal));
                                  (py "budget_source",
                                   VStr (BudgetSource_value (budget_source goal)))])
                     end) by reflexivity.
  assert (Htorob : QueryGenerator._build_site_query (py "torob") goal
                   = match QueryGenerator._build_product_filters goal with
                     | [] => None
                     | _ :: _ =>
                         Some (SearchQuery.mk (py "torob") (goal_id goal)
                                 (QueryGenerator._map_search_type (py "torob") goal)
                                 (QueryGenerator._build_product_filters goal)
                                 (QueryGenerator.priority_level (priority goal))
                                 [(py "goal_type", VStr (SearchGoalType_value (type goal)));
                                  (py "target_location", VStr (target_location goal));
                                  (py "budget_source",
                                   VStr (BudgetSource_value (budget_source goal)))])
                     end) by reflexivity.
  assert (Hdigi : QueryGenerator._build_site_query (py "digikala") goal
                   = match QueryGenerator._build_product_filters goal with
                     | [] => None
                     | _ :: _ =>
                         Some (SearchQuery.mk (py "digikala") (goal_id goal)
                                 (QueryGenerator._map_search_type (py "digikala") goal)
                                 (QueryGenerator._build_product_filters goal)
                                 (QueryGenerator.priority_level (priority goal))
                                 [(py "goal_type", VStr (SearchGoalType_value (type goal)));
                                  (py "target_location", VStr (target_location goal));
                                  (py "budget_source",
                                   VStr (BudgetSource_value (budget_source goal)))])
                     end) by reflexivity.
  rewrite (supported_sites_by_type goal).
  destruct (type goal) eqn:Et;
    cbn [omap list_omap]; rewrite ?Hdivar, ?Hshey, ?Hbama, ?Htorob, ?Hdigi.
  - destruct (QueryGenerator._build_real_estate_filters goal); [|reflexivity].
    destruct (proj1 Hre eq_refl) as (? & _). congruence.
  - destruct (QueryGenerator._build_real_estate_filters goal); [|reflexivity].
    destruct (proj1 Hre eq_refl) as (_ & ? & _). congruence.
  - destruct (QueryGenerator._build_vehicle_filters goal); [congruence|].
    destruct (QueryGenerator._build_real_estate_filters goal).
    + destruct (proj1 Hre eq_refl) as (_ & _ & ->). reflexivity.
    + destruct (location_or_price goal); [reflexivity|].
      exfalso. assert (forall A (x : A) l, x :: l <> []) as Hne by discriminate.
      eapply Hne, Hre. repeat split; discriminate.
  - destruct (QueryGenerator._build_vehicle_filters goal); [congruence|reflexivity].
  - destruct (QueryGenerator._build_product_filters goal).
    + rewrite (proj1 Hpr eq_refl). reflexivity.
    + destruct (price_or_product goal); [reflexivity|].
      discriminate (proj2 Hpr eq_refl).
  - destruct (QueryGenerator._build_product_filters goal).
    + rewrite (proj1 Hpr eq_refl). reflexivity.
    + destruct (price_or_product goal); [reflexivity|].
      discriminate (proj2 Hpr eq_refl).
Qed.

(** What every query generated for a goal carries. *)
Lemma _generate_queries_for_goal_fields (goal : SearchGoal) (q : SearchQuery.t) :
  q ∈ QueryGenerator._generate_queries_for_goal goal ->
  SearchQuery.goal_id q = goal_id goal
  /\ SearchQuery.filters q <> []
  /\ SearchQuery.priority q
     = match priority goal with HIGH => 3 | MEDIUM => 2 | LOW => 1 end%Z.
Proof.
  intros Hq. unfold QueryGenerator._generate_queries_for_goal in Hq.
  apply list_elem_of_omap in Hq as (site & _ & Hq).
  apply _build_site_query_fields in Hq as (_ & Hg & Hp & _ & Hf).
  split_and!; [exact Hg | exact Hf|].
  rewrite Hp. destruct (priority goal); vm_compute; reflexivity.
Qed.


(** The elements of a sorted list, by position. *)
Lemma sorted_desc_lookup {A : Type} (key_ltb : A -> A -> bool) (l : list A)
    (i j : nat) (a b : A) :
  (forall a b, key_ltb a b = true -> key_ltb b a = false) ->
  (forall a b c, key_ltb a b = false -> key_ltb b c = false -> key_ltb a c = false) ->
  (i < j)%nat ->
  sorted_desc key_ltb l !! i = Some a -> sorted_desc key_ltb l !! j = Some b ->
  key_ltb a b = false.
Proof.
  intros Hasym Htrans Hij Hi Hj.
  apply (StronglySorted_lookup (not_below key_ltb) (sorted_desc key_ltb l) i j a b);
    [|exact Hij|exact Hi|exact Hj].
  apply Sorted_StronglySorted; [|now apply sorted_desc_sorted].
  intros x y z. apply Htrans.
Qed.

(** X11. [generate_queries] returns the queries of all the goals, each
    once, ordered by priority from the highest to the lowest; the sort is
    stable, so the queries of one priority stay in the order of their goals
    and, within a goal, of the sites. *)
Theorem X11_generate_queries_sorted (sq : StructuredQuery) :
  let all_queries :=
    flat_map QueryGenerator._generate_queries_for_goal (search_goals sq) in
  let queries := QueryGenerator.generate_queries sq in
  queries ≡ₚ all_queries
  /\ (forall i j a b,
        (i < j)%nat -> queries !! i = Some a -> queries !! j = Some b ->
        (SearchQuery.priority b <= SearchQuery.priority a)%Z)
  /\ (forall p,
        List.filter (fun q => (SearchQuery.priority q =? p)%Z) queries
        = List.filter (fun q => (SearchQuery.priority q =? p)%Z) all_queries).
Proof.
  intros all_queries queries. subst queries. unfold QueryGenerator.generate_queries.
  fold all_queries. split_and!.
  - apply sorted_desc_perm.
  - intros i j a b Hij Hi Hj.
    assert (H : QueryGenerator.priority_ltb a b = false).
    { apply (sorted_desc_lookup QueryGenerator.priority_ltb all_queries i j a b);
        try assumption; unfold QueryGenerator.priority_ltb; intros; lia. }
    unfold QueryGenerator.priority_ltb in H. lia.
  - intros p. apply sorted_desc_filter.
    intros a b Ha Hb. unfold QueryGenerator.priority_ltb. lia.
Qed.





(** ** From the queries to the crawl requests *)

(** X13. The crawl requests made from the query JSON of the generated
    queries are one per query, in the order of the queries.  Every request
    stems from a goal of the structured query: it carries the identifier
    of that goal, at least one filter, and a site that is queried for that
    goal.  The sites the JSON lists are the sites of its requests, each
    once. *)
Theorem X13_crawl_requests_of_goals (so : SetOrder) (sq : StructuredQuery) :
  let queries := QueryGenerator.generate_queries sq in
  let query_json := QueryGenerator.generate_query_json so queries in
  let requests := crawl_requests query_json in
  map site requests = map SearchQuery.site_name queries
  /\ (forall r, r ∈ requests ->
        filters r <> []
        /\ exists goal, goal ∈ search_goals sq
                        /\ q_goal_id r = Some (goal_id goal)
                        /\ site r ∈ queried_sites goal)
  /\ NoDup (QueryJson.sites query_json)
  /\ (forall s, s ∈ QueryJson.sites query_json <-> exists r, r ∈ requests /\ site r = s).
Proof.
  intros queries query_json requests.
  assert (Hreq : requests
                 = map (fun q => mkCrawlQuery (SearchQuery.site_name q)
                                   (SearchQuery.filters q) (Some (SearchQuery.goal_id q)))
                     queries).
  { subst requests query_json. unfold crawl_requests, QueryGenerator.generate_query_json.
    cbn [QueryJson.queries]. rewrite map_map. reflexivity. }
  assert (Hq : forall q, q ∈ queries ->
                 exists goal, goal ∈ search_goals sq
                              /\ q ∈ QueryGenerator._generate_queries_for_goal goal).
  { intros q Hin. subst queries. unfold QueryGenerator.generate_queries in Hin.
    rewrite sorted_desc_perm in Hin. apply list_elem_of_In, in_flat_map in Hin
      as (goal & Hg & Hin).
    exists goal. split; now apply list_elem_of_In. }
  split_and!.
  - rewrite Hreq, map_map. reflexivity.
  - intros r Hr. rewrite Hreq in Hr. apply list_elem_of_fmap in Hr as (q & -> & Hin).
    destruct (Hq q Hin) as (goal & Hg & Hgen).
    destruct (_generate_queries_for_goal_fields goal q Hgen) as (Hid & Hf & _).
    cbn [filters q_goal_id site]. split; [exact Hf|].
    exists goal. split_and!; [exact Hg | now rewrite Hid|].
    rewrite <- _generate_queries_for_goal_sites. now apply list_elem_of_fmap_2.
  - subst query_json. unfold QueryGenerator.generate_query_json.
    cbn [QueryJson.sites]. rewrite enumerate_perm. apply NoDup_remove_dups.
  - intros s. subst query_json. unfold QueryGenerator.generate_query_json.
    cbn [QueryJson.sites]. rewrite enumerate_perm, elem_of_remove_dups, Hreq.
    rewrite list_elem_of_fmap. split.
    + intros (q & -> & Hin). eexists. split; [apply list_elem_of_fmap_2, Hin | reflexivity].
    + intros (r & Hr & <-). apply list_elem_of_fmap in Hr as (q & -> & Hin).
      exists q. split; [reflexivity | exact Hin].
Qed.

(** ** Fetching a page *)

Lemma _fetch_with_requests_from_Some (net : Network) (url text : str) (n a : nat) :
  BaseCrawler._fetch_with_requests_from net url a n = Some text
  <-> exists k, (a <= k < a + n)%nat
                /\ requests_get net url k = Ok text
                /\ forall j, (a <= j < k)%nat -> exists e, requests_get net url j = Raise e.
Proof.
  revert a. induction n as [|n IH]; intros a; simpl.
  - split; [discriminate | intros (k & Hk & _); lia].
  - destruct (requests_get net url a) as [text'|e] eqn:E.
    + split.
      * intros [= ->]. exists a. split; [lia|]. split; [exact E | intros j Hj; lia].
      * intros (k & Hk & Hok & Hbefore).
        destruct (decide (k = a)) as [->|Hne]; [congruence|].
        destruct (Hbefore a) as [e He]; [lia | congruence].
    + rewrite IH. split; intros (k & Hk & Hok & Hbefore); exists k.
      * split; [lia|]. split; [exact Hok|]. intros j Hj.
        destruct (decide (j = a)) as [->|Hne]; [eauto | apply Hbefore; lia].
      * assert (k <> a) by congruence.
        split; [lia|]. split; [exact Hok | intros j Hj; apply Hbefore; lia].
Qed.

(** X14. Without a browser, [fetch_page] never raises; it returns the text
    of the first attempt of [requests.get] that does not raise, among the
    [retry_times] attempts allowed, and [None] exactly when all of them
    raised. *)
Theorem X14_fetch_page_first_success (c : BaseCrawler.t) (net : Network) (url : str) :
  BaseCrawler._use_selenium c = false ->
  exists content,
    BaseCrawler.fetch_page c net url = Ok content
    /\ (forall text,
          content = Some text
          <-> exists k, (k < BaseCrawler.retry_times c)%nat
                        /\ requests_get net url k = Ok text
                        /\ forall j, (j < k)%nat ->
                                     exists e, requests_get net url j = Raise e)
    /\ (content = None
        <-> forall k, (k < BaseCrawler.retry_times c)%nat ->
                      exists e, requests_get net url k = Raise e).
Proof.
  intros Hsel. unfold BaseCrawler.fetch_page. rewrite Hsel.
  eexists. split; [reflexivity|]. split.
  - intros text. unfold BaseCrawler._fetch_with_requests.
    rewrite _fetch_with_requests_from_Some.
    split; intros (k & Hk & Hok & Hbefore); exists k;
      (split; [lia|]; split; [exact Hok | intros j Hj; apply Hbefore; lia]).
  - apply _fetch_with_requests_None.
Qed.

(** ** The accounts of a batch *)

(** A result of [crawl_site] counts the items it hands to the normalizer. *)
Lemma crawl_site_total_items (self : CrawlerManager.t) (net : Network) (q : CrawlQuery) :
  let r := CrawlerManager.crawl_site self net (site q) (filters q) (q_goal_id q) in
  CrawlResult.total_items r
  = Z.of_nat (length (if CrawlResult.success r then CrawlResult.items r else [])).
Proof.
  intros r. subst r. unfold CrawlerManager.crawl_site.
  destruct (CrawlerManager.get_crawler self (site q)) as [c|]; [|reflexivity].
  unfold BaseCrawler.crawl, BaseCrawler.crawl_failed.
  destruct (BaseCrawler.build_search_url c (filters q)) as [u|e]; [|reflexivity].
  destruct (BaseCrawler.fetch_page c net u) as [h|e]; [|reflexivity].
  destruct (negb (truthy (default [] h))); [reflexivity|].
  destruct (BaseCrawler.extract_items c (default [] h)) as [raws|e]; [|reflexivity].
  destruct (BaseCrawler.normalize_all c raws (q_goal_id q)); reflexivity.
Qed.

Lemma crawl_batch_total_items (self : CrawlerManager.t) (net : Network)
    (as_completed : SetOrder) (queries : list CrawlQuery) (parallel : bool) :
  let batch := CrawlerManager.crawl_batch self net as_completed queries parallel in
  CrawlBatchResult.total_items batch
  = Z.of_nat (length (DataNormalizer.collect_items batch)).
Proof.
  intros batch.
  pose proof (crawl_batch_results self net as_completed queries parallel) as Hperm.
  fold batch in Hperm.
  change (CrawlBatchResult.total_items batch)
    with (CrawlerManager.sum_total_items (CrawlBatchResult.results batch)).
  rewrite (sum_total_items_perm _ _ Hperm).
  assert (Hc : DataNormalizer.collect_items batch
               ≡ₚ flat_map (fun result =>
                              if CrawlResult.success result
                              then CrawlResult.items result else [])
                    (CrawlerManager._crawl_sequential self net queries)).
  { apply (collect_items_perm batch
             (CrawlBatchResult.mk false (CrawlerManager._crawl_sequential self net queries) 0)).
    exact Hperm. }
  rewrite Hc. unfold CrawlerManager._crawl_sequential. clear.
  induction queries as [|q queries IH]; [reflexivity|].
  cbn [map flat_map CrawlerManager.sum_total_items foldr].
  fold (CrawlerManager.sum_total_items
          (map (fun query => CrawlerManager.crawl_site self net (site query)
                               (filters query) (q_goal_id query)) queries)).
  rewrite IH, length_app, (crawl_site_total_items self net q). lia.
Qed.

Lemma normalize_loop_length (seen_urls : gset str) (all_items : list CrawledItem.t) :
  (length (DataNormalizer.normalize_loop seen_urls all_items) <= length all_items)%nat.
Proof.
  revert seen_urls. induction all_items as [|item rest IH]; intros seen; simpl; [lia|].
  destruct (decide (CrawledItem.url item ∈ seen)).
  - specialize (IH seen). lia.
  - specialize (IH ({[CrawledItem.url item]} ∪ seen)). simpl. lia.
Qed.

(** When no result succeeded, nothing is collected. *)
Lemma collect_items_all_failed (b : CrawlBatchResult.t) :
  existsb CrawlResult.success (CrawlBatchResult.results b) = false ->
  DataNormalizer.collect_items b = [].
Proof.
  unfold DataNormalizer.collect_items.
  induction (CrawlBatchResult.results b) as [|r rs IH]; intros Hfail; [reflexivity|].
  cbn [existsb] in Hfail. apply orb_false_iff in Hfail as [Hr Hrs].
  cbn [flat_map]. rewrite Hr. cbn [app]. exact (IH Hrs).
Qed.

(** X15. From the query JSON to the normalized dictionary: the batch has one
    result per query of the JSON; the items the normalized dictionary counts
    and the duplicates it reports add up to the [total_items] of the batch;
    and the dictionary has [success = True] even when no crawl succeeded,
    in which case it holds no item. *)
Theorem X15_crawl_from_query_json_accounts (self : CrawlerManager.t) (net : Network)
    (as_completed so : SetOrder) (query_json : QueryJson.t) :
  exists normalized_batch batch,
    crawl_from_query_json self net as_completed so query_json true = inl normalized_batch
    /\ crawl_from_query_json self net as_completed so query_json false = inr batch
    /\ length (CrawlBatchResult.results batch) = length (QueryJson.queries query_json)
    /\ (NormalizedBatch.total_items normalized_batch
        + NormalizedBatch.duplicates_removed normalized_batch
        = CrawlBatchResult.total_items batch)%Z
    /\ (0 <= NormalizedBatch.duplicates_removed normalized_batch)%Z
    /\ NormalizedBatch.success normalized_batch = true
    /\ (CrawlBatchResult.success batch = false ->
        NormalizedBatch.items normalized_batch = []).
Proof.
  unfold crawl_from_query_json.
  set (batch := CrawlerManager.crawl_batch self net as_completed
                  (crawl_requests query_json) true).
  exists (DataNormalizer.normalize_batch so batch), batch.
  split; [reflexivity|]. split; [reflexivity|].
  pose proof (crawl_batch_results self net as_completed (crawl_requests query_json) true)
    as Hperm.
  fold batch in Hperm.
  pose proof (crawl_batch_total_items self net as_completed (crawl_requests query_json) true)
    as Htotal.
  cbv zeta in Htotal. fold batch in Htotal.
  pose proof (normalize_loop_length ∅ (DataNormalizer.collect_items batch)) as Hlen.
  assert (Hsorted : length (sorted_desc DataNormalizer.quality_ltb
                              (DataNormalizer.normalize_loop ∅
                                 (DataNormalizer.collect_items batch)))
                    = length (DataNormalizer.normalize_loop ∅
                                (DataNormalizer.collect_items batch))).
  { apply Permutation_length, sorted_desc_perm. }
  split_and!.
  - rewrite Hperm. unfold CrawlerManager._crawl_sequential, crawl_requests.
    now rewrite !length_map.
  - rewrite Htotal. unfold DataNormalizer.normalize_batch.
    cbn [NormalizedBatch.total_items NormalizedBatch.duplicates_removed]. lia.
  - unfold DataNormalizer.normalize_batch.
    cbn [NormalizedBatch.duplicates_removed]. rewrite Hsorted. lia.
  - reflexivity.
  - intros Hfail.
    assert (Hnone : DataNormalizer.collect_items batch = [])
      by exact (collect_items_all_failed batch Hfail).
    unfold DataNormalizer.normalize_batch. cbn [NormalizedBatch.items].
    rewrite Hnone. reflexivity.
Qed.

(** ** Deduplication and order in [normalize_batch] *)

Lemma kept_urls (seen_urls : gset str) (l : list CrawledItem.t) :
  NoDup (map CrawledItem.url (kept seen_urls l))
  /\ forall u, u ∈ map CrawledItem.url (kept seen_urls l)
               <-> u ∈ map CrawledItem.url l /\ u ∉ seen_urls.
Proof.
  revert seen_urls. induction l as [|x l IH]; intros seen; cbn [kept map].
  - split; [constructor|]. intros u. split; [intros H | intros [H _]];
      now apply elem_of_nil in H.
  - destruct (decide (CrawledItem.url x ∈ seen)) as [Hin|Hout].
    + destruct (IH seen) as [Hnd Hiff]. split; [exact Hnd|].
      intros u. rewrite Hiff, elem_of_cons. split; [tauto|].
      intros [[->|Hu] Hs]; [contradiction | tauto].
    + destruct (IH ({[CrawledItem.url x]} ∪ seen)) as [Hnd Hiff].
      cbn [map]. split.
      * apply NoDup_cons. split; [|exact Hnd].
        rewrite Hiff. intros [_ H]. apply H. set_solver.
      * intros u. rewrite !elem_of_cons, Hiff, elem_of_union, elem_of_singleton.
        destruct (decide (u = CrawledItem.url x)) as [->|Hne]; [tauto|]. tauto.
Qed.

Lemma kept_first (seen_urls : gset str) (l : list CrawledItem.t) (x : CrawledItem.t) :
  x ∈ kept seen_urls l -> first_with_url (CrawledItem.url x) l = Some x.
Proof.
  unfold first_with_url.
  revert seen_urls. induction l as [|y l IH]; intros seen; cbn [kept List.find].
  - intros H. now apply elem_of_nil in H.
  - assert (Hurl : forall seen', x ∈ kept seen' l -> CrawledItem.url x ∉ seen').
    { intros seen' Hx. destruct (kept_urls seen' l) as [_ Hiff].
      apply (Hiff (CrawledItem.url x)). now apply list_elem_of_fmap_2. }
    destruct (decide (CrawledItem.url y ∈ seen)) as [Hin|Hout].
    + intros Hx. rewrite bool_decide_eq_false_2; [now apply (IH seen)|].
      intros Heq. apply (Hurl seen Hx). now rewrite <- Heq.
    + intros Hx. apply elem_of_cons in Hx as [->|Hx].
      * now rewrite bool_decide_eq_true_2.
      * rewrite bool_decide_eq_false_2; [now apply (IH _ Hx)|].
        intros Heq. apply (Hurl _ Hx). rewrite <- Heq. set_solver.
Qed.

Lemma map_normalized_url (l : list CrawledItem.t) :
  map Normalized.url (map normalized l) = map CrawledItem.url l.
Proof. rewrite map_map. apply map_ext. intros x. apply normalized_url. Qed.

(** X16. Whatever the batch, no two items [normalize_batch] returns have
    the same url; the urls it returns are exactly the urls of the items of
    the successful results; every item it returns is the normalized form of
    the first collected item with its url, so a later item with a url seen
    before never replaces an earlier one; [total_items] is the number of
    items returned and [duplicates_removed] the number of collected items
    that were dropped. *)
Theorem X16_normalize_batch_first_of_each_url (so : SetOrder) (b : CrawlBatchResult.t) :
  let all_items := DataNormalizer.collect_items b in
  let batch := DataNormalizer.normalize_batch so b in
  NoDup (map Normalized.url (NormalizedBatch.items batch))
  /\ (forall u, u ∈ map Normalized.url (NormalizedBatch.items batch)
                <-> u ∈ map CrawledItem.url all_items)
  /\ (forall n, n ∈ NormalizedBatch.items batch ->
        exists x, first_with_url (Normalized.url n) all_items = Some x
                  /\ DataNormalizer._normalize_item x = Some n)
  /\ NormalizedBatch.total_items batch = Z.of_nat (length (NormalizedBatch.items batch))
  /\ (Z.of_nat (length all_items)
      = NormalizedBatch.total_items batch + NormalizedBatch.duplicates_removed batch)%Z
  /\ (0 <= NormalizedBatch.duplicates_removed batch)%Z.
Proof.
  intros all_items batch.
  assert (Hperm : NormalizedBatch.items batch ≡ₚ map normalized (kept ∅ all_items)).
  { subst batch. unfold DataNormalizer.normalize_batch. cbn [NormalizedBatch.items].
    fold all_items. now rewrite sorted_desc_perm, normalize_loop_kept. }
  destruct (kept_urls ∅ all_items) as [Hnd Hiff].
  assert (Hlen : (length (NormalizedBatch.items batch) <= length all_items)%nat).
  { rewrite Hperm, length_map. rewrite <- (length_map CrawledItem.url (kept ∅ all_items)).
    rewrite <- (length_map CrawledItem.url all_items).
    apply submseteq_length, NoDup_submseteq; [exact Hnd|].
    intros u Hu. now apply Hiff in Hu. }
  split_and!.
  - rewrite Hperm, map_normalized_url. exact Hnd.
  - intros u. rewrite Hperm, map_normalized_url, Hiff. split; [tauto|].
    intros H. split; [exact H | apply not_elem_of_empty].
  - intros n Hn. rewrite Hperm in Hn. apply list_elem_of_fmap in Hn as (x & -> & Hx).
    exists x. split; [|reflexivity]. rewrite normalized_url. now apply (kept_first ∅).
  - reflexivity.
  - subst batch. unfold DataNormalizer.normalize_batch.
    cbn [NormalizedBatch.total_items NormalizedBatch.duplicates_removed].
    fold all_items. lia.
  - change (NormalizedBatch.duplicates_removed batch)
      with (Z.of_nat (length all_items)
            - Z.of_nat (length (NormalizedBatch.items batch)))%Z.
    lia.
Qed.

(** The order of the sort key, in terms of its two components. *)
Lemma quality_ltb_false (a b : Normalized.t) :
  DataNormalizer.quality_ltb a b = false <-> quality_ge a b.
Proof.
  unfold DataNormalizer.quality_ltb, quality_ge.
  rewrite orb_false_iff, andb_false_iff, !Qltb_ge.
  destruct (Qeq_bool (Normalized.confidence_score a) (Normalized.confidence_score b)) eqn:E.
  - apply Qeq_bool_iff in E. split.
    + intros [H1 [H2|H2]]; [discriminate|]. right. split; [exact E | exact H2].
    + intros [H|[_ H]]; [lra|]. split; [lra | now right].
  - apply Qeq_bool_neq in E. split.
    + intros [H1 _]. left. apply Qle_lt_or_eq in H1 as [H1|H1]; [exact H1|].
      exfalso. apply E. now symmetry.
    + intros [H|[H _]]; [|contradiction]. split; [lra | now left].
Qed.

Lemma quality_ltb_true (a b : Normalized.t) :
  DataNormalizer.quality_ltb a b = true <-> ~ quality_ge a b.
Proof. rewrite <- quality_ltb_false. now destruct (DataNormalizer.quality_ltb a b). Qed.

(** X17. The items [normalize_batch] returns are ordered by confidence
    from the highest to the lowest and, for equal confidence, by
    completeness; the sort is stable, so items with the same confidence and
    the same completeness stay in the order in which they were collected. *)
Theorem X17_normalize_batch_sorted (so : SetOrder) (b : CrawlBatchResult.t) :
  let items := NormalizedBatch.items (DataNormalizer.normalize_batch so b) in
  (forall i j x y,
     (i < j)%nat -> items !! i = Some x -> items !! j = Some y -> quality_ge x y)
  /\ (forall confidence completeness,
        List.filter (has_quality confidence completeness) items
        = List.filter (has_quality confidence completeness)
            (DataNormalizer.normalize_loop ∅ (DataNormalizer.collect_items b))).
Proof.
  intros items. subst items. unfold DataNormalizer.normalize_batch.
  cbn [NormalizedBatch.items]. split.
  - intros i j x y Hij Hi Hj. apply quality_ltb_false.
    apply (sorted_desc_lookup DataNormalizer.quality_ltb
             (DataNormalizer.normalize_loop ∅ (DataNormalizer.collect_items b)) i j x y);
      [| |exact Hij|exact Hi|exact Hj].
    + intros a c H. apply quality_ltb_true in H. apply quality_ltb_false.
      unfold quality_ge in *. 
      destruct (Qlt_le_dec (Normalized.confidence_score a) (Normalized.confidence_score c))
        as [H1|H1]; [now left|].
      destruct (Qlt_le_dec (Normalized.confidence_score c) (Normalized.confidence_score a))
        as [H2|H2]; [exfalso; apply H; now left|].
      right. split; [lra|].
      destruct (Qlt_le_dec (Normalized.completeness_score c)
                  (Normalized.completeness_score a)) as [H3|H3]; [|exact H3].
      exfalso. apply H. right. split; lra.
    + intros a c d H1 H2. apply quality_ltb_false. apply quality_ltb_false in H1, H2.
      unfold quality_ge in *.
      destruct H1 as [H1|[H1 H1']], H2 as [H2|[H2 H2']];
        [left; lra | left; lra | left; lra | right; split; lra].
  - intros confidence completeness. apply sorted_desc_filter.
    intros x y Hx Hy. apply quality_ltb_false. unfold has_quality in Hx, Hy.
    apply andb_true_iff in Hx as [Hx1 Hx2], Hy as [Hy1 Hy2].
    apply Qeq_bool_iff in Hx1, Hx2, Hy1, Hy2. right. split; lra.
Qed.

(** X18. The sources [normalize_batch] lists are the sites of the items it
    returns, each once. *)
Theorem X18_normalize_batch_sources (so : SetOrder) (b : CrawlBatchResult.t) :
  let batch := DataNormalizer.normalize_batch so b in
  NoDup (NormalizedBatch.sources batch)
  /\ forall s, s ∈ NormalizedBatch.sources batch
               <-> exists n, n ∈ NormalizedBatch.items batch /\ Normalized.source_site n = s.
Proof.
  intros batch. subst batch. unfold DataNormalizer.normalize_batch.
  cbn [NormalizedBatch.sources NormalizedBatch.items].
  set (items := sorted_desc DataNormalizer.quality_ltb _).
  split.
  - rewrite enumerate_perm. apply NoDup_remove_dups.
  - intros s. rewrite enumerate_perm, elem_of_remove_dups, list_elem_of_fmap.
    split; intros (n & H1 & H2); exists n; auto.
Qed.

(** ** Prices and texts *)

(** X19. [parse_price] never returns a negative price: a sign before the
    number is not part of what it reads, and the units only scale the
    number by 1000 or by 1/1000. *)
Theorem X19_parse_price_nonneg (price_text : str) (price : Q) :
  BaseCrawler.parse_price price_text = Some price -> (0 <= price)%Q.
Proof.
  unfold BaseCrawler.parse_price.
  destruct (negb (truthy price_text)); [discriminate|]. cbv zeta.
  destruct (BaseCrawler.findall _ _) as [|number numbers]; [discriminate|].
  destruct (float_of_str number) as [x|] eqn:Ex; [|discriminate].
  apply float_of_str_nonneg in Ex.
  destruct (_ || _); [intros [= <-]; lra|].
  destruct (contains _ _); intros [= <-]; [|exact Ex].
  unfold Qdiv. apply Qmult_le_0_compat; [exact Ex|]. now vm_compute.
Qed.

Lemma truthy_cons (c : N) (s : str) : truthy (c :: s) = true.
Proof. unfold truthy, str_eqb. now rewrite bool_decide_eq_false_2. Qed.

Lemma split_aux_app (cur w s : str) :
  Forall (fun c => is_space c = false) w ->
  split_aux cur (w ++ s) = split_aux (reverse w ++ cur) s.
Proof.
  intros Hw. revert cur. induction Hw as [|c w Hc Hw IH]; intros cur; [reflexivity|].
  cbn [app split_aux]. rewrite Hc, IH, reverse_cons, <- app_assoc. reflexivity.
Qed.

Lemma split_aux_words (cur s : str) :
  Forall (fun c => is_space c = false) cur -> Forall word (split_aux cur s).
Proof.
  assert (Hcur : forall cur, Forall (fun c => is_space c = false) cur ->
                             Forall word (if truthy cur then [reverse cur] else [])).
  { intros [|c cur'] Hc; [constructor|]. rewrite truthy_cons.
    constructor; [|constructor]. split.
    - rewrite reverse_cons. now destruct (reverse cur').
    - now apply Forall_reverse. }
  revert cur. induction s as [|c s IH]; intros cur Hc; cbn [split_aux].
  - now apply Hcur.
  - destruct (is_space c) eqn:E.
    + apply Forall_app. split; [now apply Hcur | apply IH; constructor].
    + apply IH. now constructor.
Qed.

Lemma split_join (ws : list str) :
  Forall word ws -> split (join (py " ") ws) = ws.
Proof.
  unfold split. induction 1 as [|w ws [Hne Hw] Hws IH]; [reflexivity|].
  assert (Hone : forall s, split_aux [] (w ++ s) = split_aux (reverse w) s).
  { intros s. now rewrite split_aux_app, app_nil_r. }
  assert (Ht : truthy (reverse w) = true).
  { destruct w as [|c w]; [congruence|]. rewrite reverse_cons.
    destruct (reverse w); apply truthy_cons. }
  destruct ws as [|w' ws].
  - cbn [join]. pose proof (Hone []) as H1. rewrite app_nil_r in H1. rewrite H1.
    cbn [split_aux]. now rewrite Ht, reverse_involutive.
  - change (join (py " ") (w :: w' :: ws))
      with (w ++ 32%N :: join (py " ") (w' :: ws)).
    rewrite Hone. cbn [split_aux]. change (is_space 32) with true. cbv iota.
    now rewrite Ht, reverse_involutive, IH.
Qed.

Lemma join_nonempty (w : str) (ws : list str) :
  w <> [] -> join (py " ") (w :: ws) <> [].
Proof.
  intros Hw. destruct ws; cbn [join]; [exact Hw|]. now destruct w.
Qed.

Lemma join_trimmed (ws : list str) : Forall word ws -> trimmed (join (py " ") ws).
Proof.
  induction 1 as [|w ws [Hne Hw] Hws IH].
  - split; intros c rest H; discriminate.
  - destruct ws as [|w' ws].
    + cbn [join]. split; intros c rest H.
      * subst w. now inversion Hw.
      * apply Forall_reverse in Hw. rewrite H in Hw. now inversion Hw.
    + change (join (py " ") (w :: w' :: ws))
        with (w ++ 32%N :: join (py " ") (w' :: ws)).
      split; intros c rest H.
      * destruct w as [|c0 w]; [congruence|]. injection H as <- _. now inversion Hw.
      * rewrite reverse_app, reverse_cons, <- app_assoc in H.
        destruct IH as [_ IH].
        destruct (reverse (join (py " ") (w' :: ws))) as [|c1 r] eqn:E.
        { exfalso. apply (join_nonempty w' ws); [now inversion Hws as [|? ? [? _]]|].
          rewrite <- (reverse_involutive (join _ _)), E. reflexivity. }
        injection H as <- _. now apply (IH c1 r).
Qed.

Lemma strip_trimmed (s : str) : trimmed s -> strip s = s.
Proof.
  intros [Hhead Hlast]. unfold strip, rstrip, lstrip.
  assert (Hd : forall t : str,
             (forall c rest, t = c :: rest -> is_space c = false) ->
             drop_while is_space t = t).
  { intros [|c t] H; [reflexivity|]. cbn [drop_while]. now rewrite (H c t eq_refl). }
  rewrite (Hd s Hhead), (Hd (reverse s) Hlast). apply reverse_involutive.
Qed.

(** X20. [_normalize_text] returns the words of the text joined by single
    spaces: its final [strip] removes nothing.  The words of the result are
    the words of the text, and normalizing a normalized text changes
    nothing. *)
Theorem X20_normalize_text_idempotent (text : str) :
  DataNormalizer._normalize_text text = join (py " ") (split text)
  /\ split (DataNormalizer._normalize_text text) = split text
  /\ DataNormalizer._normalize_text (DataNormalizer._normalize_text text)
     = DataNormalizer._normalize_text text.
Proof.
  assert (Hwords : forall s, Forall word (split s)).
  { intros s. apply split_aux_words. constructor. }
  assert (Hnorm : forall s, DataNormalizer._normalize_text s = join (py " ") (split s)).
  { intros s. unfold DataNormalizer._normalize_text.
    destruct s as [|c s]; [reflexivity|]. rewrite truthy_cons. cbn [negb].
    apply strip_trimmed, join_trimmed, Hwords. }
  assert (Hsplit : split (DataNormalizer._normalize_text text) = split text).
  { rewrite Hnorm. apply split_join, Hwords. }
  split_and!; [apply Hnorm | exact Hsplit|].
  rewrite (Hnorm (DataNormalizer._normalize_text text)), Hsplit. symmetry. apply Hnorm.
Qed.

(** ** From the message to the crawl results *)



(** ** Instances of the properties that have a precondition *)



Lemma X7_last_matching_pattern_wins_witness :
  exists mt,
    first_match (py "قرض\s*(\d+(?:\.\d+)?)\s*(?:میلیون|ملیون|م|M)")
      (py "وام 100 میلیون و قرض 50 میلیون") = Some mt
    /\ fst (EntityExtractor.extract_loan_info (py "وام 100 میلیون و قرض 50 میلیون"))
       = EntityExtractor.normalize_group mt EntityExtractor.default_unit.
Proof.
  destruct (first_match (py "قرض\s*(\d+(?:\.\d+)?)\s*(?:میلیون|ملیون|م|M)")
              (py "وام 100 میلیون و قرض 50 میلیون")) as [mt|] eqn:E;
    [|vm_compute in E; discriminate].
  exists mt. split; [reflexivity|].
  apply (X7_last_matching_pattern_wins (py "وام 100 میلیون و قرض 50 میلیون")
           [py "وام\s*(\d+(?:\.\d+)?)\s*(?:میلیون|ملیون|م|M)";
            py "(\d+(?:\.\d+)?)\s*(?:میلیون|ملیون|م|M)\s*وام"]
           []
           (py "قرض\s*(\d+(?:\.\d+)?)\s*(?:میلیون|ملیون|م|M)") mt E).
  - constructor.
  - reflexivity.
Defined.

Lemma X14_fetch_page_first_success_witness :
  exists content,
    BaseCrawler.fetch_page crawler_unreachable network_x_down (py "u") = Ok content
    /\ (forall text,
          content = Some text
          <-> exists k, (k < BaseCrawler.retry_times crawler_unreachable)%nat
                        /\ requests_get network_x_down (py "u") k = Ok text
                        /\ forall j, (j < k)%nat ->
                                     exists e, requests_get network_x_down (py "u") j
                                               = Raise e)
    /\ (content = None
        <-> forall k, (k < BaseCrawler.retry_times crawler_unreachable)%nat ->
                      exists e, requests_get network_x_down (py "u") k = Raise e).
Proof.
  apply (X14_fetch_page_first_success crawler_unreachable network_x_down (py "u")).
  reflexivity.
Defined.

Lemma X19_parse_price_nonneg_witness :
  exists price,
    BaseCrawler.parse_price (py "2.5 میلیارد تومان") = Some price /\ (0 <= price)%Q.
Proof.
  eexists. split; [vm_compute; reflexivity|].
  apply (X19_parse_price_nonneg (py "2.5 میلیارد تومان")).
  vm_compute. reflexivity.
Defined.
